(** * Beacon: the Chrome Web Store crawl-and-decode pipeline

    A shallow embedding of
    - [src/jobs/chrome_extensions/parser.py] ([ChromeStoreParser]),
    - [src/fetch_data/jobs/chrome_extensions/api_client.py]
      ([ChromeWebStoreAPIClient]),
    - [src/fetch_data/jobs/chrome_extensions/scraper.py]
      ([ChromeWebStoreScraper.search_by_category]),
    together with the properties the specification states about them.

    Modelling conventions.
    - A Python [str] is a [string]; a character is a code point in 0..255.
      Code points above 255 are outside the model.
    - A Python exception is a constructor of [exn]; a call that may raise
      returns a [result].
    - A Python [float] is kept as the exact decimal its literal denotes
      (sign, mantissa, decimal exponent) or one of the special values;
      binary64 rounding, overflow and underflow are not modelled.  A
      duration is an exact rational.
    - Library functions ([str.split], [str.replace], [json.loads],
      [json.dumps], [urllib.parse.quote], [str], [float], [int],
      [datetime.fromtimestamp], [time.sleep]) are modelled by executable
      definitions of their behaviour under CPython 3.11 on Linux with the
      local time zone UTC: the recursion limit of the decoder, the
      boundaries of [datetime.fromtimestamp] and the years [strftime]
      writes are those of that platform.
    - CPython 3.11 converts no integer of more than 4300 digits to or
      from text ([ValueError]); the model converts them all, and the
      statements that depend on it exclude such integers. *)

From Stdlib Require Import List String Ascii ZArith NArith Bool Lia.
From Stdlib Require Import QArith DecimalString.
From Stdlib Require DecimalPos.
Import ListNotations.
Local Open Scope string_scope.

(** ** Exceptions and results *)

Inductive exn : Type :=
| IndexError
| ValueError
| JSONDecodeError
| TypeError
| AttributeError
| KeyError
| OverflowError
| OSError
| RecursionError
| RequestException (msg : string).

Inductive result (A : Type) : Type :=
| Ok (a : A)
| Raise (e : exn).
Arguments Ok {A} a.
Arguments Raise {A} e.

Definition bind {A B : Type} (r : result A) (k : A -> result B) : result B :=
  match r with
  | Ok a => k a
  | Raise e => Raise e
  end.

Notation "'let!' x ':=' r 'in' k" := (bind r (fun x => k))
  (at level 10, x name, r at level 100, k at level 200).

Definition is_ok {A : Type} (r : result A) : bool :=
  match r with Ok _ => true | Raise _ => false end.

(** The two exceptions of [json.loads]. *)
Definition decoder_error (e : exn) : Prop :=
  e = JSONDecodeError \/ e = RecursionError.

(** ** Python values *)

Inductive pyfloat : Type :=
| FFin (neg : bool) (m : N) (e : Z)   (* (-1)^neg * m * 10^e *)
| FInf (neg : bool)
| FNaN.

Inductive pyval : Type :=
| PNone
| PBool (b : bool)
| PInt (z : Z)
| PFloat (f : pyfloat)
| PStr (s : string)
| PList (l : list pyval)
| PDict (d : list (string * pyval)).

(** ** Strings: the [str] methods the program calls *)

Module Str.

Fixpoint drop (n : nat) (s : string) : string :=
  match n, s with
  | O, _ => s
  | S _, EmptyString => EmptyString
  | S k, String _ s' => drop k s'
  end.

Fixpoint take (n : nat) (s : string) : string :=
  match n, s with
  | O, _ => EmptyString
  | S _, EmptyString => EmptyString
  | S k, String c s' => String c (take k s')
  end.

(** [startswith pat s]: [s.startswith(pat)]. *)
Fixpoint startswith (pat s : string) : bool :=
  match pat, s with
  | EmptyString, _ => true
  | String _ _, EmptyString => false
  | String a pat', String b s' => Ascii.eqb a b && startswith pat' s'
  end.

(** [contains pat s]: [pat in s]. *)
Fixpoint contains (pat s : string) : bool :=
  startswith pat s ||
  match s with
  | EmptyString => false
  | String _ s' => contains pat s'
  end.

(** [s.split(pat)] for a non-empty [pat], scanning left to right; [skip] is
    the number of characters of a match still to be passed over.  The
    result is never empty: it is returned as its head and its tail. *)
Fixpoint split_skip (pat : string) (skip : nat) (s : string)
  : string * list string :=
  match s with
  | EmptyString => (EmptyString, [])
  | String c s' =>
      match skip with
      | S k => split_skip pat k s'
      | O =>
          if startswith pat s
          then let '(h, t) := split_skip pat (String.length pat - 1) s' in
               (EmptyString, h :: t)
          else let '(h, t) := split_skip pat 0 s' in
               (String c h, t)
      end
  end.

Definition split (pat s : string) : list string :=
  let '(h, t) := split_skip pat 0 s in h :: t.

(** [s.replace(old, new)] for a non-empty [old]. *)
Fixpoint replace_skip (old new : string) (skip : nat) (s : string) : string :=
  match s with
  | EmptyString => EmptyString
  | String c s' =>
      match skip with
      | S k => replace_skip old new k s'
      | O =>
          if startswith old s
          then new ++ replace_skip old new (String.length old - 1) s'
          else String c (replace_skip old new 0 s')
      end
  end.

Definition replace (old new s : string) : string := replace_skip old new 0 s.

(** [s[:-n]]. *)
Definition drop_last (n : nat) (s : string) : string :=
  take (String.length s - n) s.

(** [l[i]] on a list, raising [IndexError] out of range. *)
Definition index {A : Type} (l : list A) (i : nat) : result A :=
  match nth_error l i with
  | Some a => Ok a
  | None => Raise IndexError
  end.

(** [l[-1]] on a non-empty list given as head and tail. *)
Definition last_of {A : Type} (h : A) (t : list A) : A := List.last t h.

Definition eqb_empty (s : string) : bool :=
  match s with EmptyString => true | _ => false end.

End Str.

(** ** [json.loads]

    The standard library's decoder (json/decoder.py and the scanner of
    the C accelerator, strict mode), as a recursive-descent parser.
    Escapes [\uXXXX] above [00FF] denote code points outside the model:
    the model rejects them, the decoder does not.  Statements about texts
    that are not JSON therefore exclude them ([Json.narrow_escapes]
    below), as they exclude the integer literals of more than 4300 digits
    that CPython 3.11 refuses to convert. *)

Module Json.

Definition is_ws (c : ascii) : bool :=
  match c with
  | " "%char => true
  | "009"%char | "010"%char | "013"%char => true
  | _ => false
  end.

Fixpoint skip_ws (s : string) : string :=
  match s with
  | String c s' => if is_ws c then skip_ws s' else s
  | EmptyString => s
  end.

Definition digit_val (c : ascii) : option N :=
  let n := N_of_ascii c in
  if ((48 <=? n) && (n <=? 57))%N then Some (n - 48)%N else None.

Definition hex_val (c : ascii) : option N :=
  let n := N_of_ascii c in
  if ((48 <=? n) && (n <=? 57))%N then Some (n - 48)%N
  else if ((97 <=? n) && (n <=? 102))%N then Some (n - 87)%N
  else if ((65 <=? n) && (n <=? 70))%N then Some (n - 55)%N
  else None.

(** The longest run of ASCII digits at the head of [s], as its value, its
    length, and the rest. *)
Fixpoint digits_acc (acc : N) (len : nat) (s : string) : N * nat * string :=
  match s with
  | String c s' =>
      match digit_val c with
      | Some d => digits_acc (10 * acc + d) (S len) s'
      | None => (acc, len, s)
      end
  | EmptyString => (acc, len, s)
  end.

Definition digits (s : string) : N * nat * string := digits_acc 0 0 s.

(** The integer part of NUMBER_RE: [0|[1-9][0-9]*]. *)
Definition int_part (s : string) : option (N * string) :=
  match s with
  | String "0" s' => Some (0%N, s')
  | String c _ =>
      match digit_val c with
      | Some _ => let '(v, _, r) := digits s in Some (v, r)
      | None => None
      end
  | EmptyString => None
  end.

(** The optional fraction [(\.[0-9]+)?]: mantissa digits appended to [m]. *)
Definition frac_part (m : N) (s : string) : option (N * nat * string) :=
  match s with
  | String "." s' =>
      let '(v, len, r) := digits_acc m 0 s' in
      match len with
      | O => None
      | S _ => Some (v, len, r)
      end
  | _ => None
  end.

(** The optional exponent [([eE][-+]?[0-9]+)?]. *)
Definition exp_part (s : string) : option (Z * string) :=
  let body (neg : bool) (s' : string) :=
    let '(v, len, r) := digits s' in
    match len with
    | O => None
    | S _ => Some (if neg then (- Z.of_N v)%Z else Z.of_N v, r)
    end in
  match s with
  | String c s' =>
      if (Ascii.eqb c "e" || Ascii.eqb c "E")%bool then
        match s' with
        | String "-" s'' => body true s''
        | String "+" s'' => body false s''
        | _ => body false s'
        end
      else None
  | EmptyString => None
  end.

Definition number (s : string) : option (pyval * string) :=
  let '(neg, s0) :=
    match s with
    | String "-" s' => (true, s')
    | _ => (false, s)
    end in
  match int_part s0 with
  | None => None
  | Some (i, r1) =>
      match frac_part i r1, exp_part r1 with
      | Some (m, flen, r2), _ =>
          match exp_part r2 with
          | Some (e, r3) => Some (PFloat (FFin neg m (e - Z.of_nat flen)), r3)
          | None => Some (PFloat (FFin neg m (- Z.of_nat flen)), r2)
          end
      | None, Some (e, r3) => Some (PFloat (FFin neg i e), r3)
      | None, None =>
          Some (PInt (if neg then (- Z.of_N i)%Z else Z.of_N i), r1)
      end
  end.

(** The escape table BACKSLASH of json/decoder.py. *)
Definition unescape_char (c : ascii) : option ascii :=
  match c with
  | "034"%char => Some "034"%char
  | "\"%char => Some "\"%char
  | "/"%char => Some "/"%char
  | "b"%char => Some "008"%char
  | "f"%char => Some "012"%char
  | "n"%char => Some "010"%char
  | "r"%char => Some "013"%char
  | "t"%char => Some "009"%char
  | _ => None
  end.

Definition hex4 (a b c d : ascii) : option N :=
  match hex_val a, hex_val b, hex_val c, hex_val d with
  | Some x, Some y, Some z, Some w => Some (((x * 16 + y) * 16 + z) * 16 + w)%N
  | _, _, _, _ => None
  end.

Definition cons_fst (c : ascii) (r : option (string * string))
  : option (string * string) :=
  match r with
  | Some (t, rest) => Some (String c t, rest)
  | None => None
  end.

(** [scanstring]: the text after an opening quote, up to the closing one. *)
Fixpoint scanstring (s : string) : option (string * string) :=
  match s with
  | EmptyString => None
  | String c s' =>
      if Ascii.eqb c "034" then Some (EmptyString, s')
      else if Ascii.eqb c "\" then
        match s' with
        | String "u" (String h1 (String h2 (String h3 (String h4 r)))) =>
            match hex4 h1 h2 h3 h4 with
            | Some n =>
                if (n <=? 255)%N then cons_fst (ascii_of_N n) (scanstring r)
                else None
            | None => None
            end
        | String e s'' =>
            match unescape_char e with
            | Some ch => cons_fst ch (scanstring s'')
            | None => None
            end
        | EmptyString => None
        end
      else if (N_of_ascii c <? 32)%N then None
      else cons_fst c (scanstring s')
  end.

(** [d[k] = v] on a dict kept as an association list in insertion order. *)
Fixpoint dict_set (k : string) (v : pyval) (d : list (string * pyval))
  : list (string * pyval) :=
  match d with
  | [] => [(k, v)]
  | (k', v') :: d' =>
      if String.eqb k k' then (k', v) :: d' else (k', v') :: dict_set k v d'
  end.

Fixpoint dict_get (k : string) (d : list (string * pyval)) : option pyval :=
  match d with
  | [] => None
  | (k', v) :: d' => if String.eqb k k' then Some v else dict_get k d'
  end.

(** No [\uXXXX] in the text names a code point above 255: the texts on
    which [scanstring] reads every escape as the decoder does. *)
Fixpoint narrow_escapes (s : string) : bool :=
  match s with
  | EmptyString => true
  | String c s' =>
      match s' with
      | String "u" (String h1 (String h2 (String h3 (String h4 _)))) =>
          if Ascii.eqb c "\" then
            match hex4 h1 h2 h3 h4 with
            | Some n => (n <=? 255)%N
            | None => true
            end
          else true
      | _ => true
      end && narrow_escapes s'
  end.

(** No run of more than [max] digits after the [run] already seen: CPython
    3.11 refuses to convert a longer integer literal ([ValueError], not
    [JSONDecodeError]), which the model does not do. *)
Fixpoint digit_runs_within (max run : nat) (s : string) : bool :=
  match s with
  | EmptyString => true
  | String c s' =>
      match digit_val c with
      | Some _ => (S run <=? max)%nat && digit_runs_within max (S run) s'
      | None => digit_runs_within max 0 s'
      end
  end.

(** The texts on which a verdict of the model that the text is not JSON
    is the decoder's. *)
Definition within_model (s : string) : bool :=
  narrow_escapes s && digit_runs_within 4300 0 s.

(** [scan_once], [JSONArray] and [JSONObject]: [value] expects no leading
    white space; [elems] and [members] are the loops after the first
    element's position has been reached.  Entering an array or an object
    is a recursive call of the interpreter ([Py_EnterRecursiveCall] in
    [scan_once]): [depth] is the number of containers that may still be
    opened inside one another, and opening one more raises
    [RecursionError].  A text that is not JSON raises [JSONDecodeError]. *)
Fixpoint value (fuel depth : nat) (s : string) {struct fuel}
  : result (pyval * string) :=
  match fuel with
  | O => Raise JSONDecodeError
  | S f =>
      match s with
      | String "034" s' =>
          match scanstring s' with
          | Some (t, r) => Ok (PStr t, r)
          | None => Raise JSONDecodeError
          end
      | String "{" s' =>
          match depth with
          | O => Raise RecursionError
          | S d =>
              match skip_ws s' with
              | String "}" r => Ok (PDict [], r)
              | r => members f d [] r
              end
          end
      | String "[" s' =>
          match depth with
          | O => Raise RecursionError
          | S d =>
              match skip_ws s' with
              | String "]" r => Ok (PList [], r)
              | r => elems f d [] r
              end
          end
      | _ =>
          if Str.startswith "null" s then Ok (PNone, Str.drop 4 s)
          else if Str.startswith "true" s then Ok (PBool true, Str.drop 4 s)
          else if Str.startswith "false" s then Ok (PBool false, Str.drop 5 s)
          else
            match number s with
            | Some r => Ok r
            | None =>
                if Str.startswith "NaN" s
                then Ok (PFloat FNaN, Str.drop 3 s)
                else if Str.startswith "Infinity" s
                then Ok (PFloat (FInf false), Str.drop 8 s)
                else if Str.startswith "-Infinity" s
                then Ok (PFloat (FInf true), Str.drop 9 s)
                else Raise JSONDecodeError
            end
      end
  end
with elems (fuel depth : nat) (acc : list pyval) (s : string) {struct fuel}
  : result (pyval * string) :=
  match fuel with
  | O => Raise JSONDecodeError
  | S f =>
      match value f depth s with
      | Raise e => Raise e
      | Ok (v, r) =>
          match skip_ws r with
          | String "," r' => elems f depth (acc ++ [v]) (skip_ws r')
          | String "]" r' => Ok (PList (acc ++ [v]), r')
          | _ => Raise JSONDecodeError
          end
      end
  end
with members (fuel depth : nat) (acc : list (string * pyval)) (s : string)
  {struct fuel} : result (pyval * string) :=
  match fuel with
  | O => Raise JSONDecodeError
  | S f =>
      match s with
      | String "034" s' =>
          match scanstring s' with
          | None => Raise JSONDecodeError
          | Some (k, r) =>
              match skip_ws r with
              | String ":" r1 =>
                  match value f depth (skip_ws r1) with
                  | Raise e => Raise e
                  | Ok (v, r2) =>
                      match skip_ws r2 with
                      | String "," r3 =>
                          members f depth (dict_set k v acc) (skip_ws r3)
                      | String "}" r3 => Ok (PDict (dict_set k v acc), r3)
                      | _ => Raise JSONDecodeError
                      end
                  end
              | _ => Raise JSONDecodeError
              end
          end
      | _ => Raise JSONDecodeError
      end
  end.

(** [json.loads(s)] when [limit] containers may be open at once: one value
    between optional white space, nothing else.  A call of [value] reads
    at least one character before it calls [elems] or [members], and each
    of these reads at least one before it calls itself, so the chain of
    calls is at most twice as long as the text, which is the fuel given. *)
Definition loads_within (limit : nat) (s : string) : result pyval :=
  match value (2 * String.length s + 2) limit (skip_ws s) with
  | Ok (v, r) =>
      match skip_ws r with
      | EmptyString => Ok v
      | _ => Raise JSONDecodeError
      end
  | Raise e => Raise e
  end.

(** What the interpreter's recursion limit (1000 by default) leaves to the
    decoder where the program calls it: seven frames are in use at both
    call sites when the program is run as a script under CPython 3.11
    (the module, [main], [search_by_category], the parser's method,
    [loads], [decode], [raw_decode]), and the frame that would be the
    thousandth is refused.  Other interpreters leave another number;
    whatever it is, a text that opens one container more is refused. *)
Definition recursion_limit : nat := 992.

Definition loads (s : string) : result pyval :=
  loads_within recursion_limit s.



(** The text of [n] open brackets. *)
Fixpoint open_brackets (n : nat) : string :=
  match n with
  | O => EmptyString
  | S k => String "[" (open_brackets k)
  end.

End Json.

(** ** Python built-ins used by the program *)

Module Py.

Definition dquote : ascii := "034"%char.
Definition squote : ascii := "039"%char.
Definition backslash : ascii := "092"%char.

(** Test fixtures write an apostrophe where the text has a double quote. *)
Fixpoint qq (s : string) : string :=
  match s with
  | EmptyString => EmptyString
  | String c s' => String (if Ascii.eqb c squote then dquote else c) (qq s')
  end.

(** [bool(v)]. *)
Definition truthy (v : pyval) : bool :=
  match v with
  | PNone => false
  | PBool b => b
  | PInt z => negb (z =? 0)%Z
  | PFloat (FFin _ m _) => negb (m =? 0)%N
  | PFloat _ => true
  | PStr s => negb (Str.eqb_empty s)
  | PList l => match l with [] => false | _ => true end
  | PDict d => match d with [] => false | _ => true end
  end.

(** [v[i]] for a non-negative integer literal [i]. *)
Definition getitem (v : pyval) (i : nat) : result pyval :=
  match v with
  | PList l => Str.index l i
  | PStr s =>
      match String.get i s with
      | Some c => Ok (PStr (String c EmptyString))
      | None => Raise IndexError
      end
  | PDict _ => Raise KeyError
  | _ => Raise TypeError
  end.

(** [len(v)]. *)
Definition len (v : pyval) : result nat :=
  match v with
  | PList l => Ok (List.length l)
  | PStr s => Ok (String.length s)
  | PDict d => Ok (List.length d)
  | _ => Raise TypeError
  end.

(** [iter(v)]: the items a [for] loop visits. *)
Definition items (v : pyval) : result (list pyval) :=
  match v with
  | PList l => Ok l
  | PStr s => Ok (List.map (fun c => PStr (String c EmptyString))
                           (list_ascii_of_string s))
  | PDict d => Ok (List.map (fun kv => PStr (fst kv)) d)
  | _ => Raise TypeError
  end.

(** [c.isdigit()] on code points 0..255: the ASCII digits and the
    superscripts two, three and one. *)
Definition isdigit_char (c : ascii) : bool :=
  let n := N_of_ascii c in
  (((48 <=? n) && (n <=? 57)) || (n =? 178) || (n =? 179) || (n =? 185))%N.

Fixpoint all_chars (p : ascii -> bool) (s : string) : bool :=
  match s with
  | EmptyString => true
  | String c s' => p c && all_chars p s'
  end.

(** [s.isdigit()]. *)
Definition isdigit (s : string) : bool :=
  negb (Str.eqb_empty s) && all_chars isdigit_char s.

Definition string_of_N (n : N) : string :=
  NilZero.string_of_uint (N.to_uint n).

Definition string_of_Z (z : Z) : string :=
  NilZero.string_of_int (Z.to_int z).

Fixpoint zeros (n : nat) : string :=
  match n with
  | O => EmptyString
  | S k => String "0" (zeros k)
  end.

(** The digits of [s] without its trailing zeros, and how many were cut. *)
Fixpoint strip_zeros (s : string) : string * nat :=
  match s with
  | EmptyString => (EmptyString, O)
  | String c s' =>
      let '(t, k) := strip_zeros s' in
      if Str.eqb_empty t && Ascii.eqb c "0" then (EmptyString, S k)
      else (String c t, k)
  end.

(** [repr(f)] for a float: shortest digits, positional when the decimal
    point position lies in (-4, 16], exponent form otherwise. *)
Definition float_repr (f : pyfloat) : string :=
  match f with
  | FNaN => "nan"
  | FInf neg => if neg then "-inf" else "inf"
  | FFin neg m e =>
      let sign := if neg then "-" else "" in
      if (m =? 0)%N then sign ++ "0.0" else
      let '(ds, k) := strip_zeros (string_of_N m) in
      let n := Z.of_nat (String.length ds) in
      let decpt := (n + e + Z.of_nat k)%Z in
      if ((decpt <=? -4) || (16 <? decpt))%Z then
        let ex := (decpt - 1)%Z in
        let exs := string_of_N (Z.to_N (Z.abs ex)) in
        sign ++ Str.take 1 ds
             ++ (if (1 <? n)%Z then "." ++ Str.drop 1 ds else "")
             ++ "e" ++ (if (ex <? 0)%Z then "-" else "+")
             ++ (if (String.length exs <? 2)%nat then "0" ++ exs else exs)
      else if (decpt <=? 0)%Z then
        sign ++ "0." ++ zeros (Z.to_nat (- decpt)) ++ ds
      else if (n <=? decpt)%Z then
        sign ++ ds ++ zeros (Z.to_nat (decpt - n)) ++ ".0"
      else
        sign ++ Str.take (Z.to_nat decpt) ds ++ "."
             ++ Str.drop (Z.to_nat decpt) ds
  end.

Definition hex_digit (n : N) : ascii :=
  if (n <? 10)%N then ascii_of_N (48 + n) else ascii_of_N (87 + n).

Definition hex2 (c : ascii) : string :=
  let n := N_of_ascii c in
  String (hex_digit (n / 16)) (String (hex_digit (n mod 16)) EmptyString).

Fixpoint has_char (c : ascii) (s : string) : bool :=
  match s with
  | EmptyString => false
  | String a s' => Ascii.eqb a c || has_char c s'
  end.

(** [c.isprintable()] on code points 0..255. *)
Definition isprintable (c : ascii) : bool :=
  let n := N_of_ascii c in
  (((32 <=? n) && (n <? 127)) || ((161 <=? n) && negb (n =? 173)))%N.

Fixpoint repr_body (quote : ascii) (s : string) : string :=
  match s with
  | EmptyString => EmptyString
  | String c s' =>
      (if Ascii.eqb c quote || Ascii.eqb c backslash
       then String backslash (String c EmptyString)
       else if Ascii.eqb c "009" then "\t"
       else if Ascii.eqb c "010" then "\n"
       else if Ascii.eqb c "013" then "\r"
       else if isprintable c then String c EmptyString
       else "\x" ++ hex2 c) ++ repr_body quote s'
  end.

(** [repr(s)] for a string: single quotes unless the text has a single
    quote and no double quote. *)
Definition repr_str (s : string) : string :=
  let quote := if has_char squote s && negb (has_char dquote s)
               then dquote else squote in
  String quote (repr_body quote s ++ String quote EmptyString).

(** [repr(v)]. *)
Fixpoint repr (v : pyval) : string :=
  match v with
  | PNone => "None"
  | PBool b => if b then "True" else "False"
  | PInt z => string_of_Z z
  | PFloat f => float_repr f
  | PStr s => repr_str s
  | PList l =>
      "[" ++ (fix go (l : list pyval) : string :=
                match l with
                | [] => ""
                | x :: l' =>
                    repr x ++ match l' with [] => "" | _ => ", " ++ go l' end
                end) l ++ "]"
  | PDict d =>
      "{" ++ (fix go (d : list (string * pyval)) : string :=
                match d with
                | [] => ""
                | (k, x) :: d' =>
                    repr_str k ++ ": " ++ repr x
                      ++ match d' with [] => "" | _ => ", " ++ go d' end
                end) d ++ "}"
  end.

(** [str(v)]. *)
Definition str (v : pyval) : string :=
  match v with
  | PStr s => s
  | _ => repr v
  end.

(** [isinstance(v, str)] and [isinstance(v, list)]. *)
Definition is_str (v : pyval) : bool :=
  match v with PStr _ => true | _ => false end.
Definition is_list (v : pyval) : bool :=
  match v with PList _ => true | _ => false end.

End Py.

(** ** [float], [int], [round] and [datetime.fromtimestamp] *)

Module PyNum.

(** The white space [int] and [float] strip from both ends of a text, on
    code points 0..255: 9 to 13, 32, 133 and 160.  (The separators 28 to
    31, for which [str.isspace] holds as well, are not stripped.) *)
Definition isspace (c : ascii) : bool :=
  let n := N_of_ascii c in
  (((9 <=? n) && (n <=? 13)) || (n =? 32) || (n =? 133) || (n =? 160))%N.

Fixpoint lstrip (s : string) : string :=
  match s with
  | String c s' => if isspace c then lstrip s' else s
  | EmptyString => s
  end.

Fixpoint rstrip (s : string) : string :=
  match s with
  | EmptyString => EmptyString
  | String c s' =>
      let t := rstrip s' in
      if Str.eqb_empty t && isspace c then EmptyString else String c t
  end.

Definition strip (s : string) : string := rstrip (lstrip s).

Definition is_ascii_digit (c : ascii) : bool :=
  match Json.digit_val c with Some _ => true | None => false end.

(** A run of digits in which single underscores may separate digits. *)
Fixpoint digits_us (acc : N) (len : nat) (s : string) : N * nat * string :=
  match s with
  | String c s' =>
      match Json.digit_val c with
      | Some d => digits_us (10 * acc + d) (S len) s'
      | None =>
          if Ascii.eqb c "_" && (0 <? len)%nat then
            match s' with
            | String c2 _ =>
                if is_ascii_digit c2 then digits_us acc len s' else (acc, len, s)
            | EmptyString => (acc, len, s)
            end
          else (acc, len, s)
      end
  | EmptyString => (acc, len, s)
  end.

Definition lower (c : ascii) : ascii :=
  let n := N_of_ascii c in
  if ((65 <=? n) && (n <=? 90))%N then ascii_of_N (n + 32) else c.

Fixpoint lower_str (s : string) : string :=
  match s with
  | EmptyString => EmptyString
  | String c s' => String (lower c) (lower_str s')
  end.

Definition split_sign (s : string) : bool * string :=
  match s with
  | String "-" s' => (true, s')
  | String "+" s' => (false, s')
  | _ => (false, s)
  end.

(** [float(s)] for a string. *)
Definition float_of_string (s : string) : result pyfloat :=
  let '(neg, body) := split_sign (strip s) in
  let low := lower_str body in
  if String.eqb low "inf" || String.eqb low "infinity" then Ok (FInf neg)
  else if String.eqb low "nan" then Ok FNaN
  else
    let '(a, la, r1) := digits_us 0 0 body in
    let '(m, lf, r2) :=
      match r1 with
      | String "." r => digits_us a 0 r
      | _ => (a, O, r1)
      end in
    if (la + lf =? 0)%nat then Raise ValueError else
    match r2 with
    | EmptyString => Ok (FFin neg m (- Z.of_nat lf))
    | String c r =>
        if Ascii.eqb (lower c) "e" then
          let '(eneg, r') := split_sign r in
          let '(ev, le, r3) := digits_us 0 0 r' in
          match le, r3 with
          | S _, EmptyString =>
              Ok (FFin neg m
                    ((if eneg then - Z.of_N ev else Z.of_N ev) - Z.of_nat lf))
          | _, _ => Raise ValueError
          end
        else Raise ValueError
    end.

(** [float(v)]; an [int] beyond the binary64 range overflows. *)
Definition float (v : pyval) : result pyfloat :=
  match v with
  | PBool b => Ok (FFin false (if b then 1 else 0) 0)
  | PInt z =>
      if (2 ^ 1024 - 2 ^ 970 <=? Z.abs z)%Z then Raise OverflowError
      else Ok (FFin (z <? 0)%Z (Z.to_N (Z.abs z)) 0)
  | PFloat f => Ok f
  | PStr s => float_of_string s
  | _ => Raise TypeError
  end.

(** [int(s)] for a string. *)
Definition int_of_string (s : string) : result Z :=
  let '(neg, body) := split_sign (strip s) in
  let '(v, len, r) := digits_us 0 0 body in
  match len, r with
  | S _, EmptyString => Ok (if neg then - Z.of_N v else Z.of_N v)%Z
  | _, _ => Raise ValueError
  end.

(** [int(v)]. *)
Definition int (v : pyval) : result Z :=
  match v with
  | PBool b => Ok (if b then 1 else 0)%Z
  | PInt z => Ok z
  | PFloat (FFin neg m e) =>
      let a := if (0 <=? e)%Z then (Z.of_N m * 10 ^ e)%Z
               else (Z.of_N m / 10 ^ (- e))%Z in
      Ok (if neg then - a else a)%Z
  | PFloat (FInf _) => Raise OverflowError
  | PFloat FNaN => Raise ValueError
  | PStr s => int_of_string s
  | _ => Raise TypeError
  end.

(** [m / d] rounded to the nearest integer, ties to even. *)
Definition div_half_even (m d : Z) : Z :=
  let q := (m / d)%Z in
  let r := (m mod d)%Z in
  if (2 * r <? d)%Z then q
  else if (d <? 2 * r)%Z then (q + 1)%Z
  else if Z.even q then q else (q + 1)%Z.

(** [round(f, 2)], on the decimal the model keeps. *)
Definition round2 (f : pyfloat) : pyfloat :=
  match f with
  | FFin neg m e =>
      if (-2 <=? e)%Z then f
      else FFin neg (Z.to_N (div_half_even (Z.of_N m) (10 ^ (- e - 2)))) (-2)
  | _ => f
  end.

End PyNum.

(** ** [datetime.fromtimestamp(t).strftime('%Y-%m-%d')]

    CPython 3.11 on Linux with glibc, [time_t] 64 bits wide; the local
    time zone is taken to be UTC.  The timestamp is rounded to
    microseconds (ties to even), as CPython does. *)

Module PyDate.

(** Days since 1970-01-01 to a proleptic Gregorian (year, month, day). *)
Definition civil_from_days (days : Z) : Z * Z * Z :=
  let z := (days + 719468)%Z in
  let era := (z / 146097)%Z in
  let doe := (z - era * 146097)%Z in
  let yoe := ((doe - doe / 1460 + doe / 36524 - doe / 146096) / 365)%Z in
  let doy := (doe - (365 * yoe + yoe / 4 - yoe / 100))%Z in
  let mp := ((5 * doy + 2) / 153)%Z in
  let d := (doy - (153 * mp + 2) / 5 + 1)%Z in
  let m := (if mp <? 10 then mp + 3 else mp - 9)%Z in
  let y := (yoe + era * 400 + (if m <=? 2 then 1 else 0))%Z in
  (y, m, d).

Definition year_of (secs : Z) : Z :=
  let '(y, _, _) := civil_from_days (secs / 86400) in y.

Definition pad (width : nat) (z : Z) : string :=
  let s := Py.string_of_N (Z.to_N z) in
  Py.zeros (width - String.length s) ++ s.

(** [strftime('%Y-%m-%d')]: glibc writes the year as it is, without
    padding, and the month and the day on two digits. *)
Definition strftime_ymd (y mo d : Z) : string :=
  Py.string_of_N (Z.to_N y) ++ "-" ++ pad 2 mo ++ "-" ++ pad 2 d.

Definition microseconds (neg : bool) (m : N) (e : Z) : Z :=
  let a := if (0 <=? e + 6)%Z then (Z.of_N m * 10 ^ (e + 6))%Z
           else PyNum.div_half_even (Z.of_N m) (10 ^ (- (e + 6))) in
  if neg then (- a)%Z else a.

(** [datetime.fromtimestamp]: seconds beyond [time_t] overflow (the range
    test is made on the float, so [2^63] itself passes it and fails in
    [localtime] like every time whose year does not fit the [int] of
    [tm_year]); a year outside 1..9999 is a [ValueError], and so is a
    time in the first day of year 1, because the time one day earlier is
    converted as well to detect a repeated hour. *)
Definition date_of_timestamp (f : pyfloat) : result string :=
  match f with
  | FNaN => Raise ValueError
  | FInf _ => Raise OverflowError
  | FFin neg m e =>
      let secs := (microseconds neg m e / 1000000)%Z in
      if ((secs <? - 2 ^ 63) || (2 ^ 63 <? secs))%Z then Raise OverflowError
      else
        let '(y, mo, d) := civil_from_days (secs / 86400) in
        if ((y - 1900 <? - 2 ^ 31) || (2 ^ 31 <=? y - 1900))%Z
        then Raise OSError
        else if ((y <? 1) || (9999 <? y))%Z then Raise ValueError
        else if (year_of (secs - 86400) <? 1)%Z then Raise ValueError
        else Ok (strftime_ymd y mo d)
  end.

End PyDate.

(** ** models.py: [ChromeExtension] *)

Inductive downloads_t : Type :=
| DStr (s : string)
| DInt (z : Z).

Record ChromeExtension : Type := mkChromeExtension {
  id : string;
  name : string;
  display_name : string;
  short_description : string;
  category : option string;
  icon_link : string;
  downloads : option downloads_t;
  rating : option pyfloat;
  rating_count : option Z;
  website : option string;
  good_record : bool;
  featured : bool;
  create_date : string;
  version : pyval;
  host_wide_permissions : bool
}.

(** ** parser.py: [ChromeStoreParser] *)

Module ChromeStoreParser.

Definition is_none (v : pyval) : bool :=
  match v with PNone => true | _ => false end.

(** [manifest.get(k, default)]: only a dict has [get]. *)
Definition get (m : pyval) (k : string) (default : pyval) : result pyval :=
  match m with
  | PDict d =>
      Ok (match Json.dict_get k d with Some v => v | None => default end)
  | _ => Raise AttributeError
  end.

(** [perm in ["http://*/*", "https://*/*"]]. *)
Definition is_wildcard (perm : pyval) : bool :=
  match perm with
  | PStr s => String.eqb s "http://*/*" || String.eqb s "https://*/*"
  | _ => false
  end.

(** Lines 92-98: the manifest, [{}] when position 18 is not a non-empty
    string or is not JSON. *)
Definition parse_manifest (item : pyval) : result pyval :=
  let! i18 := Py.getitem item 18 in
  match i18 with
  | PStr s =>
      if Py.truthy i18 then
        match Json.loads s with
        | Ok m => Ok m
        | Raise JSONDecodeError =>
            let! _ := Py.getitem item 0 in Ok (PDict [])
        | Raise e => Raise e
        end
      else Ok (PDict [])
  | _ => Ok (PDict [])
  end.

(** Lines 100-102; [manifest] is a dict here, [get] having succeeded. *)
Definition parse_host_wide_permissions (manifest : pyval) : bool :=
  match manifest with
  | PDict d =>
      match Json.dict_get "permissions" d, Json.dict_get "host_permissions" d with
      | Some _, Some (PList l) => List.existsb is_wildcard l
      | _, _ => false
      end
  | _ => false
  end.

(** Lines 105-111. *)
Definition parse_create_date (item : pyval) : result string :=
  let! i17 := Py.getitem item 17 in
  match i17 with
  | PList (x :: _) =>
      match (let! timestamp := PyNum.float x in
             PyDate.date_of_timestamp timestamp) with
      | Ok d => Ok d
      | Raise ValueError | Raise IndexError | Raise TypeError
      | Raise JSONDecodeError =>
          let! _ := Py.getitem item 0 in Ok "Unknown"
      | Raise e => Raise e
      end
  | _ => Ok "Unknown"
  end.

(** Lines 114-116. *)
Definition parse_rating (item : pyval) : result (option pyfloat) :=
  let! i3 := Py.getitem item 3 in
  if Py.truthy i3
     && Py.isdigit (Str.replace "-" "" (Str.replace "." "" (Py.str i3)))
  then let! f := PyNum.float i3 in Ok (Some (PyNum.round2 f))
  else Ok None.

(** Lines 119-121. *)
Definition parse_rating_count (item : pyval) : result (option Z) :=
  let! i4 := Py.getitem item 4 in
  if Py.truthy i4 && Py.isdigit (Py.str i4)
  then let! n := PyNum.int i4 in Ok (Some n)
  else Ok None.

(** Lines 124-126. *)
Definition parse_category (item : pyval) : result (option string) :=
  let! i11 := Py.getitem item 11 in
  match i11 with
  | PList (x :: _) => Ok (Some (Py.str x))
  | _ => Ok None
  end.

(** Lines 129-131. *)
Definition parse_downloads (item : pyval) : result (option downloads_t) :=
  let! i14 := Py.getitem item 14 in
  if Py.truthy i14 then
    if negb (Py.isdigit (Py.str i14)) then Ok (Some (DStr (Py.str i14)))
    else let! n := PyNum.int i14 in Ok (Some (DInt n))
  else Ok None.

(** [str(item[i]) if item[i] else ""]. *)
Definition str_or_empty (item : pyval) (i : nat) : result string :=
  let! v := Py.getitem item i in
  Ok (if Py.truthy v then Py.str v else "").

(** [bool(item[i]) if item[i] is not None else False]. *)
Definition bool_field (item : pyval) (i : nat) : result bool :=
  let! v := Py.getitem item i in
  Ok (if is_none v then false else Py.truthy v).

(** Lines 86-159: the body of the [try] block. *)
Definition parse_extension_data_body (item : pyval)
  : result (option ChromeExtension) :=
  if negb (Py.truthy item) then Ok None else
  let! manifest := parse_manifest item in
  let! version := get manifest "version" (PStr "Unknown") in
  let host_wide_permissions := parse_host_wide_permissions manifest in
  let! create_date := parse_create_date item in
  let! rating := parse_rating item in
  let! rating_count := parse_rating_count item in
  let! category := parse_category item in
  let! downloads := parse_downloads item in
  let! id_ := str_or_empty item 0 in
  let! name_ := str_or_empty item 2 in
  let! n := Py.len item in
  let! display_name :=
    (if (19 <? n)%nat then str_or_empty item 19 else Ok "") in
  let! short_description := str_or_empty item 6 in
  let! icon_link := str_or_empty item 1 in
  let! i7 := Py.getitem item 7 in
  let website := if Py.truthy i7 then Some (Py.str i7) else None in
  let! good_record := bool_field item 8 in
  let! featured := bool_field item 9 in
  let extension :=
    mkChromeExtension id_ name_ display_name short_description category
      icon_link downloads rating rating_count website good_record featured
      create_date version host_wide_permissions in
  if Str.eqb_empty extension.(id) || Str.eqb_empty extension.(name)
  then let! _ := Py.getitem item 0 in Ok None
  else Ok (Some extension).

(** [parse_extension_data]: [except Exception] turns every error into
    [None]. *)
Definition parse_extension_data (item : pyval) : option ChromeExtension :=
  match parse_extension_data_body item with
  | Ok r => r
  | Raise _ => None
  end.

Definition sentinel5 : string := "[[[[[".
Definition sentinel6 : string := "]]]]]]".
Definition bs : string := String Py.backslash EmptyString.
Definition dq : string := String Py.dquote EmptyString.
Definition nl : string := String "010" EmptyString.

(** Lines 35-40 of [fix_json_response]: [step6] from the response text. *)
Definition cleanup (response_text : string) : result string :=
  let! seg := Str.index (Str.split sentinel5 response_text) 1 in
  let step1 := sentinel5 ++ seg in
  let! head := Str.index (Str.split sentinel6 step1) 0 in
  let step2 := head ++ sentinel6 in
  let step3 := Str.replace (bs ++ bs) bs step2 in
  let step4 := Str.replace (bs ++ dq) dq step3 in
  let step5 := Str.replace nl "" step4 in
  let step6 := Str.drop_last 2 step5 in
  Ok step6.

(** Lines 32-43: the body of the [try] block of [fix_json_response]. *)
Definition fix_json_response_body (response_text : string) : result pyval :=
  if negb (Str.contains sentinel5 response_text) then Raise ValueError else
  let! step6 := cleanup response_text in
  let! parsed := Json.loads step6 in
  let! first := Py.getitem parsed 0 in
  let! step7 := Py.getitem first 0 in
  Ok step7.

(** [fix_json_response]: [IndexError], [JSONDecodeError] and [ValueError]
    are re-raised as [ValueError]; anything else propagates. *)
Definition fix_json_response (response_text : string) : result pyval :=
  match fix_json_response_body response_text with
  | Ok rows => Ok rows
  | Raise IndexError | Raise JSONDecodeError | Raise ValueError =>
      Raise ValueError
  | Raise e => Raise e
  end.

(** Lines 60-64: the body of the [try] block of [extract_pagination_token]. *)
Definition extract_pagination_token_body (response_text : string)
  : result string :=
  let '(h, t) := Str.split_skip ("[" ++ bs ++ dq) 0 response_text in
  let token_phase2 := Str.last_of h t in
  let! token := Str.index (Str.split bs token_phase2) 0 in
  Ok token.

(** [extract_pagination_token]: [None] on the [except] path (which also
    writes the response to [output/debug_response.txt]). *)
Definition extract_pagination_token (response_text : string) : option string :=
  match extract_pagination_token_body response_text with
  | Ok token => Some token
  | Raise _ => None
  end.

End ChromeStoreParser.

(** ** Fixtures *)

Module Fixtures.

(** A row of 19 positions: id, icon, name, rating, rating count, ..., the
    manifest at position 18. *)
Definition row19 (i3 : pyval) : pyval :=
  PList [PStr "a"; PNone; PStr "B"; i3; PInt 12; PNone; PStr "desc";
         PNone; PBool true; PNone; PNone; PList [PStr "tools"]; PNone;
         PNone; PStr "1,000+"; PNone; PNone; PList [PInt 1700000000];
         PStr (Py.qq "{'version': '1.2', 'permissions': [], 'host_permissions': ['https://*/*']}")].

Definition short_row : pyval := PList [PStr "a"; PNone; PStr "B"].


End Fixtures.

(** ** [json.dumps] and [urllib.parse.quote] / [unquote] *)

Module Wire.

Definition hex4_lower (c : ascii) : string :=
  "00" ++ Py.hex2 c.

(** One character inside a JSON string, [ensure_ascii=True]. *)
Definition escape_char (c : ascii) : string :=
  let n := N_of_ascii c in
  if Ascii.eqb c Py.dquote then String Py.backslash (String Py.dquote EmptyString)
  else if Ascii.eqb c Py.backslash then "\\"
  else if Ascii.eqb c "010" then "\n"
  else if Ascii.eqb c "013" then "\r"
  else if Ascii.eqb c "009" then "\t"
  else if Ascii.eqb c "008" then "\b"
  else if Ascii.eqb c "012" then "\f"
  else if ((32 <=? n) && (n <=? 126))%N then String c EmptyString
  else "\u" ++ hex4_lower c.

Fixpoint escape (s : string) : string :=
  match s with
  | EmptyString => EmptyString
  | String c s' => escape_char c ++ escape s'
  end.

Definition dumps_str (s : string) : string :=
  String Py.dquote (escape s ++ String Py.dquote EmptyString).

Definition dumps_float (f : pyfloat) : string :=
  match f with
  | FNaN => "NaN"
  | FInf neg => if neg then "-Infinity" else "Infinity"
  | _ => Py.float_repr f
  end.

(** [json.dumps(v)] with the default separators. *)
Fixpoint dumps (v : pyval) : string :=
  match v with
  | PNone => "null"
  | PBool b => if b then "true" else "false"
  | PInt z => Py.string_of_Z z
  | PFloat f => dumps_float f
  | PStr s => dumps_str s
  | PList l =>
      "[" ++ (fix go (l : list pyval) : string :=
                match l with
                | [] => ""
                | x :: l' =>
                    dumps x ++ match l' with [] => "" | _ => ", " ++ go l' end
                end) l ++ "]"
  | PDict d =>
      "{" ++ (fix go (d : list (string * pyval)) : string :=
                match d with
                | [] => ""
                | (k, x) :: d' =>
                    dumps_str k ++ ": " ++ dumps x
                      ++ match d' with [] => "" | _ => ", " ++ go d' end
                end) d ++ "}"
  end.

Definition hex_upper (n : N) : ascii :=
  if (n <? 10)%N then ascii_of_N (48 + n) else ascii_of_N (55 + n).

Definition percent (n : N) : string :=
  String "%" (String (hex_upper (n / 16)) (String (hex_upper (n mod 16)) EmptyString)).

(** Characters [quote] leaves alone: letters, digits, [_.-~] and the
    default safe character [/]. *)
Definition is_safe (c : ascii) : bool :=
  let n := N_of_ascii c in
  (((48 <=? n) && (n <=? 57)) || ((65 <=? n) && (n <=? 90))
   || ((97 <=? n) && (n <=? 122))
   || (n =? 95) || (n =? 46) || (n =? 45) || (n =? 126) || (n =? 47))%N.

(** The UTF-8 bytes of a code point below 256, percent-encoded. *)
Definition quote_char (c : ascii) : string :=
  let n := N_of_ascii c in
  if is_safe c then String c EmptyString
  else if (n <? 128)%N then percent n
  else percent (192 + n / 64) ++ percent (128 + n mod 64).

Fixpoint quote (s : string) : string :=
  match s with
  | EmptyString => EmptyString
  | String c s' => quote_char c ++ quote s'
  end.

(** [urllib.parse.unquote]: [%XX] runs are decoded as UTF-8; a byte
    sequence that is not a code point below 256 yields [?], standing for
    text outside the model; a [%] not followed by two hex digits stays. *)
Fixpoint unquote (s : string) : string :=
  match s with
  | EmptyString => EmptyString
  | String "%" (String h1 (String h2 r) as s') =>
      match Json.hex_val h1, Json.hex_val h2 with
      | Some a, Some b =>
          let n := (a * 16 + b)%N in
          if (n <? 128)%N then String (ascii_of_N n) (unquote r)
          else
            match r with
            | String "%" (String k1 (String k2 r')) =>
                match Json.hex_val k1, Json.hex_val k2 with
                | Some x, Some y =>
                    let m := (x * 16 + y)%N in
                    if ((194 <=? n) && (n <=? 195)
                        && (128 <=? m) && (m <=? 191))%N
                    then String (ascii_of_N ((n - 192) * 64 + (m - 128)))
                                (unquote r')
                    else String "?" (unquote r)
                | _, _ => String "?" (unquote r)
                end
            | _ => String "?" (unquote r)
            end
      | _, _ => String "%" (unquote s')
      end
  | String c s' => String c (unquote s')
  end.

End Wire.

(** ** The outside world of a crawl

    The endpoint is a function from the number of requests already sent
    and the request body to the outcome of [session.post] followed by
    [raise_for_status]; [random.random()] is a function from the number of
    draws already made to a rational in [0, 1).  Sleeping and posting are
    recorded in a trace.  Durations are exact rationals. *)

Inductive event : Type :=
| EPost (data : string)
| ESleep (seconds : Q).

Record env : Type := mkEnv {
  server : nat -> string -> result string;
  rand : nat -> Q
}.

Record world : Type := mkWorld {
  posts : nat;
  draws : nat;
  trace : list event
}.

Definition world0 : world := mkWorld 0 0 [].

Definition is_post (e : event) : bool :=
  match e with EPost _ => true | ESleep _ => false end.

Definition count_posts (t : list event) : nat :=
  List.length (List.filter is_post t).

(** ** api_client.py: [ChromeWebStoreAPIClient] *)

Module ChromeWebStoreAPIClient.

Record t : Type := mk {
  delay_range : Q * Q;
  max_retries : Z;
  timeout : Z
}.

Section Client.
Variable E : env.
Variable self : t.

(** [self.session.post(...)] and [response.raise_for_status()]. *)
Definition post (data : string) (w : world) : result string * world :=
  (server E (posts w) data,
   mkWorld (S (posts w)) (draws w) (trace w ++ [EPost data])).

(** [random.uniform(a, b)]: [a + (b - a) * random()]. *)
Definition uniform (a b : Q) (w : world) : Q * world :=
  (a + (b - a) * rand E (draws w),
   mkWorld (posts w) (S (draws w)) (trace w)).

(** [time.sleep(seconds)]. *)
Definition sleep (seconds : Q) (w : world) : world :=
  mkWorld (posts w) (draws w) (trace w ++ [ESleep seconds]).

(** The [for attempt in range(self.max_retries)] loop from iteration
    [attempt] on, with [remaining] iterations left; line 142 when none is. *)
Fixpoint retry_loop (data : string) (remaining attempt : nat) (w : world)
  : result string * world :=
  match remaining with
  | O => (Ok "", w)
  | S remaining' =>
      let '(r, w1) := post data w in
      match r with
      | Ok text => (Ok text, w1)
      | Raise (RequestException msg) =>
          if (Z.of_nat attempt <? max_retries self - 1)%Z then
            let '(jitter, w2) := uniform 0 1 w1 in
            let wait_time := inject_Z (2 ^ Z.of_nat attempt) + jitter in
            retry_loop data remaining' (S attempt) (sleep wait_time w2)
          else (Raise (RequestException msg), w1)
      | Raise e => (Raise e, w1)
      end
  end.

Definition make_request_with_retry (data : string) (w : world)
  : result string * world :=
  retry_loop data (Z.to_nat (max_retries self)) 0 w.

(** [add_delay]: [time.sleep] refuses a negative duration with
    [ValueError], which a negative [delay_range] can produce.  (In
    [retry_loop] the duration is at least 1.) *)
Definition add_delay (w : world) : result unit * world :=
  let '(delay, w1) := uniform (fst (delay_range self)) (snd (delay_range self)) w in
  if Qle_bool 0 delay then (Ok tt, sleep delay w1) else (Raise ValueError, w1).

End Client.

(** [f"{amount}"]: the caller passes [results_per_page], which may be
    [None]. *)
Definition format_amount (amount : option Z) : string :=
  match amount with
  | Some z => Py.string_of_Z z
  | None => "None"
  end.

(** The f-string of lines 78 and 90. *)
Definition sub_payload (query : string) (amount : option Z)
  (page_token : option string) : string :=
  let dq := String Py.dquote EmptyString in
  "[[null,[[3," ++ dq ++ query ++ dq ++ ",null,null,2,["
    ++ format_amount amount
    ++ match page_token with
       | None => ""
       | Some tok => "," ++ dq ++ tok ++ dq
       end
    ++ "]]]]]".

Definition request_data (query : string) (amount : option Z)
  (page_token : option string) : pyval :=
  PList [PList [PList [PStr "zTyKYc";
                       PStr (sub_payload query amount page_token);
                       PNone;
                       PStr "generic"]]].

Definition build_request_data (query : string) (amount : option Z)
  (page_token : option string) : string :=
  let json_data := Wire.dumps (request_data query amount page_token) in
  let encoded_data := Wire.quote json_data in
  "f.req=" ++ encoded_data.

End ChromeWebStoreAPIClient.

(** ** scraper.py: [ChromeWebStoreScraper.search_by_category] *)

Module ChromeWebStoreScraper.

Import ChromeWebStoreAPIClient.

(** How one pass through the [try] block of lines 146-179 ends. *)
Inductive control : Type :=
| Break
| Continue (page_token : string).

Section Scraper.
Variable E : env.
Variable api_client : ChromeWebStoreAPIClient.t.

(** Lines 155-160: the [for item in raw_extensions] loop. *)
Fixpoint convert_items (items : list pyval) (page_extensions : list ChromeExtension)
  : result (list ChromeExtension) :=
  match items with
  | [] => Ok page_extensions
  | item :: rest =>
      let! n := Py.len item in
      if (0 <? n)%nat then
        let! x := Py.getitem item 0 in
        match ChromeStoreParser.parse_extension_data x with
        | Some extension => convert_items rest (page_extensions ++ [extension])%list
        | None => convert_items rest page_extensions
        end
      else convert_items rest page_extensions
  end.

(** Lines 147-162: from the response text to the page's extensions;
    [Ok None] is the [break] of line 152. *)
Definition parse_page (response_text : string)
  : result (option (list ChromeExtension)) :=
  let! raw_extensions := ChromeStoreParser.fix_json_response response_text in
  let! _ := Py.len raw_extensions in
  if negb (Py.truthy raw_extensions) then Ok None else
  let! items := Py.items raw_extensions in
  let! page_extensions := convert_items items [] in
  Ok (Some page_extensions).

(** Lines 146-179: the [try] block with its [except Exception: break]. *)
Definition process_page (max_pages : Z) (page_count : nat)
  (response_text : string) (all_extensions : list ChromeExtension) (w : world)
  : control * list ChromeExtension * world :=
  match parse_page response_text with
  | Raise _ => (Break, all_extensions, w)
  | Ok None => (Break, all_extensions, w)
  | Ok (Some page_extensions) =>
      let all_extensions := (all_extensions ++ page_extensions)%list in
      match ChromeStoreParser.extract_pagination_token response_text with
      | None => (Break, all_extensions, w)
      | Some next_token =>
          if Str.eqb_empty next_token then (Break, all_extensions, w)
          else if (Z.of_nat page_count <? max_pages)%Z then
            match add_delay E api_client w with
            | (Ok _, w') => (Continue next_token, all_extensions, w')
            | (Raise _, w') => (Break, all_extensions, w')
            end
          else (Continue next_token, all_extensions, w)
      end
  end.

(** Lines 137-182: the [while page_count < max_pages] loop; [fuel] bounds
    the iterations still possible. *)
Fixpoint page_loop (fuel : nat) (category : string)
  (results_per_page : option Z) (max_pages : Z)
  (all_extensions : list ChromeExtension) (page_token : option string)
  (page_count : nat) (w : world)
  : result (list ChromeExtension) * world :=
  match fuel with
  | O => (Ok all_extensions, w)
  | S fuel' =>
      if (Z.of_nat page_count <? max_pages)%Z then
        let page_count := S page_count in
        let data := build_request_data category results_per_page page_token in
        match make_request_with_retry E api_client data w with
        | (Raise e, w1) => (Raise e, w1)
        | (Ok response_text, w1) =>
            match process_page max_pages page_count response_text
                    all_extensions w1 with
            | (Break, all_extensions, w2) => (Ok all_extensions, w2)
            | (Continue tok, all_extensions, w2) =>
                page_loop fuel' category results_per_page max_pages
                  all_extensions (Some tok) page_count w2
            end
        end
      else (Ok all_extensions, w)
  end.

Definition search_by_category (category : string)
  (results_per_page : option Z) (max_pages : Z) (w : world)
  : result (list ChromeExtension) * world :=
  page_loop (Z.to_nat max_pages) category results_per_page max_pages
    [] None 0 w.

End Scraper.

End ChromeWebStoreScraper.

(** ** Reading a trace *)

Module Trace.

(** The events [w'] has after those of [w]. *)
Definition new_events (w w' : world) : list event :=
  List.skipn (List.length (trace w)) (trace w').

(** The sleep that immediately precedes the [k]-th request (counted from
    0), if there is one; [prev] is the sleep just seen. *)
Fixpoint wait_before_aux (prev : option Q) (k : nat) (t : list event)
  : option Q :=
  match t with
  | [] => None
  | EPost _ :: t' =>
      match k with
      | O => prev
      | S k' => wait_before_aux None k' t'
      end
  | ESleep q :: t' => wait_before_aux (Some q) k t'
  end.

Definition wait_before (k : nat) (t : list event) : option Q :=
  wait_before_aux None k t.

End Trace.

(** Environments used as test inputs. *)
Module TestEnv.

(** Every request fails; every random draw is one half. *)
Definition failing : env :=
  mkEnv (fun _ _ => Raise (RequestException "503")) (fun _ => 1 # 2).

Definition client (n : Z) : ChromeWebStoreAPIClient.t :=
  ChromeWebStoreAPIClient.mk (1, 3) n 30.


End TestEnv.

(** The invariant of [ChromeExtension] values the parser lets through. *)
Definition has_id_and_name (e : ChromeExtension) : Prop :=
  id e <> "" /\ name e <> "".

(** Lines 37-39 of [fix_json_response] as one function. *)
Definition unescape (s : string) : string :=
  Str.replace ChromeStoreParser.nl ""
    (Str.replace (ChromeStoreParser.bs ++ ChromeStoreParser.dq) ChromeStoreParser.dq
       (Str.replace (ChromeStoreParser.bs ++ ChromeStoreParser.bs)
          ChromeStoreParser.bs s)).

(** The delimiter [extract_pagination_token] splits on. *)
Definition token_delimiter : string :=
  "[" ++ ChromeStoreParser.bs ++ ChromeStoreParser.dq.

(** A crawl whose first page holds one valid row and a token, and whose
    second request fails. *)
Module CrawlFixture.

(** The first response: an envelope with one row of 19 positions and the
    token [T1]; an apostrophe stands for a double quote. *)
Definition page1 : string :=
  Py.qq "xx[[[[[\'a\',null,\'B\',null,null,null,null,null,null,null,null,null,null,null,null,null,null,null,null],0]]]]]],[\'T1\']".

Definition extension_a : ChromeExtension :=
  mkChromeExtension "a" "B" "" "" None "" None None None None false false
    "Unknown" (PStr "Unknown") false.

Definition E : env :=
  mkEnv (fun n _ => match n with
                    | O => Ok page1
                    | S _ => Raise (RequestException "503")
                    end)
        (fun _ => 1 # 2).

(** One attempt per request. *)
Definition client : ChromeWebStoreAPIClient.t :=
  ChromeWebStoreAPIClient.mk (1, 3) 1 30.

End CrawlFixture.

(** ** The envelope of the specification's round-trip property

    The second, specification-side description of the response: a payload
    text embedded, escaped, inside an outer JSON string, between the two
    sentinels. *)

Module Envelope.

(** Escaping for the outer JSON string: a backslash becomes two, a double
    quote becomes a backslash and a double quote. *)
Fixpoint escape (s : string) : string :=
  match s with
  | EmptyString => EmptyString
  | String c s' =>
      if Ascii.eqb c Py.backslash
      then String Py.backslash (String Py.backslash (escape s'))
      else if Ascii.eqb c Py.dquote
      then String Py.backslash (String Py.dquote (escape s'))
      else String c (escape s')
  end.

(** The payload: what follows the opening sentinel, [body], is escaped and
    followed by the closing sentinel; [pre] and [post] are the rest of the
    response. *)
Definition wrap (pre body post : string) : string :=
  pre ++ ChromeStoreParser.sentinel5 ++ escape body
      ++ ChromeStoreParser.sentinel6 ++ post.

(** Parsing a single-encoded payload directly: its first element's first
    element is the row sequence. *)
Definition rows_of_payload (payload : string) : result pyval :=
  let! parsed := Json.loads payload in
  let! first := Py.getitem parsed 0 in
  Py.getitem first 0.

(** The single-encoded payload holding the one row [[["a"]]]. *)
Definition payload_a : string := Py.qq "[[[[['a']]]]]".

End Envelope.

(** A wrapped payload with a newline between two tokens of its body and
    an opening sentinel in the text after the closing one; an apostrophe
    stands for a double quote. *)
Module EnvelopeFixture.

Definition pre : string := "xx".

Definition body : string :=
  Py.qq "'a'," ++ ChromeStoreParser.nl ++ Py.qq " 'b'],0".

Definition post : string := "yy[[[[[zz".

End EnvelopeFixture.

(** The text half-way through the clean-up: backslashes restored, quotes
    still escaped. *)
Fixpoint escape_quotes (s : string) : string :=
  match s with
  | EmptyString => EmptyString
  | String c s' =>
      if Ascii.eqb c Py.dquote
      then String Py.backslash (String Py.dquote (escape_quotes s'))
      else String c (escape_quotes s')
  end.

(** ** Reading a request body back

    The specification's round-trip check of [build_request_data]: strip
    the form field name, percent-decode, parse the JSON, parse the embedded
    sub-payload, and read the query, the amount and the token. *)

Module Recover.

Definition recover (body : string) : option (string * Z * option string) :=
  if Str.startswith "f.req=" body then
    match Json.loads (Wire.unquote (Str.drop 6 body)) with
    | Ok (PList [PList [PList [PStr _; PStr sub; PNone; PStr _]]]) =>
        match Json.loads sub with
        | Ok (PList [PList [PNone;
                PList [PList [PInt 3; PStr query; PNone; PNone; PInt 2;
                              PList pagination]]]]) =>
            match pagination with
            | [PInt amount] => Some (query, amount, None)
            | [PInt amount; PStr tok] => Some (query, amount, Some tok)
            | _ => None
            end
        | _ => None
        end
    | _ => None
    end
  else None.

(** A character that stands for itself inside a JSON string. *)
Definition plain_char (c : ascii) : bool :=
  negb (Ascii.eqb c Py.dquote) && negb (Ascii.eqb c Py.backslash)
  && (32 <=? N_of_ascii c)%N.

Definition plain (s : string) : bool := Py.all_chars plain_char s.

Definition plain_token (t : option string) : bool :=
  match t with
  | Some tok => plain tok
  | None => true
  end.

(** The value of a decimal numeral read from the left, after [acc]. *)
Fixpoint uint_val (d : Decimal.uint) (acc : N) : N :=
  match d with
  | Decimal.Nil => acc
  | Decimal.D0 l => uint_val l (10 * acc)
  | Decimal.D1 l => uint_val l (10 * acc + 1)
  | Decimal.D2 l => uint_val l (10 * acc + 2)
  | Decimal.D3 l => uint_val l (10 * acc + 3)
  | Decimal.D4 l => uint_val l (10 * acc + 4)
  | Decimal.D5 l => uint_val l (10 * acc + 5)
  | Decimal.D6 l => uint_val l (10 * acc + 6)
  | Decimal.D7 l => uint_val l (10 * acc + 7)
  | Decimal.D8 l => uint_val l (10 * acc + 8)
  | Decimal.D9 l => uint_val l (10 * acc + 9)
  end.

End Recover.

(** What may follow an integer literal: not a digit, a point or an exponent. *)
Definition num_end (rest : string) : Prop :=
  match rest with
  | EmptyString => True
  | String c _ =>
      Json.digit_val c = None /\ c <> "."%char /\ c <> "e"%char /\ c <> "E"%char
  end.

(** The first character of an integer literal. *)
Definition int_head (c : ascii) : bool :=
  PyNum.is_ascii_digit c || Ascii.eqb c "-".

(** ** Measuring a trace *)

Module TraceSum.

Definition is_sleep (e : event) : bool :=
  match e with ESleep _ => true | EPost _ => false end.

Definition count_sleeps (t : list event) : nat :=
  List.length (List.filter is_sleep t).

(** The seconds slept in a trace. *)
Fixpoint total_sleep (t : list event) : Q :=
  match t with
  | [] => 0
  | ESleep q :: t' => q + total_sleep t'
  | EPost _ :: t' => total_sleep t'
  end.

(** The last event of a trace is a sleep. *)
Definition ends_with_sleep (t : list event) : bool :=
  match List.rev t with
  | ESleep _ :: _ => true
  | _ => false
  end.

End TraceSum.

(** Two failures, then a response. *)
Module RetryFixture.

Definition E : env :=
  mkEnv (fun n _ => match n with
                    | O | S O => Raise (RequestException "503")
                    | _ => Ok "page"
                    end)
        (fun _ => 1 # 2).

End RetryFixture.

(** What one item of a page contributes to the page's extensions when it
    is a list: nothing when it is empty or its first element does not
    decode, else the decoded extension. *)
Definition decoded_of_item (item : pyval) : list ChromeExtension :=
  match item with
  | PList (x :: _) =>
      match ChromeStoreParser.parse_extension_data x with
      | Some extension => [extension]
      | None => []
      end
  | _ => []
  end.

(** A page whose second row is the number 7 instead of a list. *)
Module PageFixture.

Definition page_with_number : string :=
  Py.qq "xx[[[[[\'a\',null,\'B\',null,null,null,null,null,null,null,null,null,null,null,null,null,null,null,null],0],7],[[1]]]]]],[\'T1\']".

End PageFixture.

(** A row whose manifest is a JSON object. *)
Module ManifestFixture.

Definition text : string :=
  Py.qq "{'version': '1.2', 'permissions': [], 'host_permissions': ['https://*/*']}".

Definition manifest : list (string * pyval) :=
  [("version", PStr "1.2"); ("permissions", PList []);
   ("host_permissions", PList [PStr "https://*/*"])].

Definition row : list pyval :=
  PStr "a" :: PNone :: PStr "B" :: repeat PNone 15 ++ [PStr text].

Definition extension : ChromeExtension :=
  mkChromeExtension "a" "B" "" "" None "" None None None None false false
    "Unknown" (PStr "1.2") true.

End ManifestFixture.




(** Position 18 of a row replaced by [v]. *)
Definition with_manifest (l : list pyval) (v : pyval) : list pyval :=
  (firstn 18 l ++ v :: skipn 19 l)%list.

(** What lines 93-98 take for an empty manifest: a value that is not a
    string, the empty string, and a text that is not JSON. *)
Definition unusable_manifest (v : pyval) : bool :=
  match v with
  | PStr s =>
      Str.eqb_empty s
      || (Json.within_model s
          && match Json.loads s with
             | Raise JSONDecodeError => true
             | _ => false
             end)
  | _ => true
  end.

(** [e] as an empty manifest leaves it. *)
Definition without_manifest (e : ChromeExtension) : ChromeExtension :=
  mkChromeExtension (id e) (name e) (display_name e) (short_description e)
    (category e) (icon_link e) (downloads e) (rating e) (rating_count e)
    (website e) (good_record e) (featured e) (create_date e)
    (PStr "Unknown") false.

(** A row with integers at positions 3, 4 and 14. *)
Module IntFixture.

Definition row : list pyval :=
  [PStr "a"; PNone; PStr "B"; PInt (-4); PInt 12; PNone; PNone; PNone;
   PNone; PNone; PNone; PNone; PNone; PNone; PInt (-3); PNone; PNone;
   PNone; PNone].

Definition extension : ChromeExtension :=
  mkChromeExtension "a" "B" "" "" None "" (Some (DStr "-3"))
    (Some (FFin true 4 0)) (Some 12%Z) None false false
    "Unknown" (PStr "Unknown") false.

End IntFixture.

(** A character that may stand in the value of a form field as it is, or
    the percent sign of an escape. *)
Definition form_safe (c : ascii) : bool :=
  Wire.is_safe c || Ascii.eqb c "%".

(** ** scraper.py: [get_extension_summary] *)

Module Summary.

(** The [categories] dict: category to count, in insertion order. *)
Fixpoint dget (k : string) (d : list (string * Z)) : option Z :=
  match d with
  | [] => None
  | (k', v) :: d' => if String.eqb k k' then Some v else dget k d'
  end.

Fixpoint dset (k : string) (v : Z) (d : list (string * Z))
  : list (string * Z) :=
  match d with
  | [] => [(k, v)]
  | (k', v') :: d' =>
      if String.eqb k k' then (k', v) :: d' else (k', v') :: dset k v d'
  end.

(** Lines 75-78: the loop that counts the categories. *)
Fixpoint count_categories (extensions : list ChromeExtension)
  (categories : list (string * Z)) : list (string * Z) :=
  match extensions with
  | [] => categories
  | ext :: rest =>
      count_categories rest
        (match category ext with
         | Some c =>
             if Str.eqb_empty c then categories
             else dset c ((match dget c categories with
                           | Some n => n
                           | None => 0
                           end) + 1)%Z categories
         | None => categories
         end)
  end.

Definition is_rated (ext : ChromeExtension) : bool :=
  match rating ext with Some _ => true | None => false end.

Fixpoint ratings (extensions : list ChromeExtension) : list pyfloat :=
  match extensions with
  | [] => []
  | ext :: rest =>
      match rating ext with
      | Some r => r :: ratings rest
      | None => ratings rest
      end
  end.

(** The returned dict: [{"total": 0}] for no extension, the five entries
    otherwise. *)
Record full : Type := mkFull {
  total : nat;
  with_ratings : nat;
  average_rating : option pyfloat;
  categories : list (string * Z);
  featured_count : nat
}.

Inductive summary : Type :=
| OnlyTotal (total : nat)
| Full (s : full).

Section Mean.

(** [sum(ratings) / len(ratings)] in binary floating point, for a
    non-empty list: taken as a parameter. *)
Variable mean : list pyfloat -> pyfloat.

Definition get_extension_summary (extensions : list ChromeExtension)
  : summary :=
  match extensions with
  | [] => OnlyTotal 0
  | _ :: _ =>
      let total := List.length extensions in
      let rated_extensions := List.filter is_rated extensions in
      let avg_rating :=
        match rated_extensions with
        | [] => PInt 0
        | _ :: _ => PFloat (mean (ratings rated_extensions))
        end in
      let categories := count_categories extensions [] in
      Full (mkFull total
              (List.length rated_extensions)
              (match avg_rating with
               | PFloat f =>
                   if Py.truthy avg_rating then Some (PyNum.round2 f) else None
               | _ => None
               end)
              categories
              (List.length (List.filter featured extensions)))
  end.

End Mean.

(** The extensions filed under category [c]. *)
Definition in_category (c : string) (ext : ChromeExtension) : bool :=
  match category ext with
  | Some c' => String.eqb c c'
  | None => false
  end.

Definition category_count (c : string) (extensions : list ChromeExtension)
  : Z :=
  Z.of_nat (List.length (List.filter (in_category c) extensions)).

End Summary.

(** Three extensions, two of them under [tools]. *)
Module SummaryFixture.

Definition ext (id_ : string) (c : option string) (r : option pyfloat)
  : ChromeExtension :=
  mkChromeExtension id_ "N" "" "" c "" None r None None false true
    "Unknown" (PStr "Unknown") false.

Definition extensions : list ChromeExtension :=
  [ext "a" (Some "tools") (Some (FFin false 45 (-1)));
   ext "b" (Some "games") None;
   ext "c" (Some "tools") None].

Definition summary : Summary.full :=
  Summary.mkFull 3 1 (Some (FFin false 45 (-1)))
    [("tools", 2%Z); ("games", 1%Z)] 3.

End SummaryFixture.

(** The shape of a [strftime('%Y-%m-%d')] result: four digits, a dash, two
    digits, a dash, two digits. *)
Definition is_iso_date (s : string) : bool :=
  match s with
  | String y1 (String y2 (String y3 (String y4 (String h1
      (String m1 (String m2 (String h2 (String d1 (String d2
        EmptyString))))))))) =>
      PyNum.is_ascii_digit y1 && PyNum.is_ascii_digit y2 && PyNum.is_ascii_digit y3
      && PyNum.is_ascii_digit y4 && Ascii.eqb h1 "-"
      && PyNum.is_ascii_digit m1 && PyNum.is_ascii_digit m2 && Ascii.eqb h2 "-"
      && PyNum.is_ascii_digit d1 && PyNum.is_ascii_digit d2
  | _ => false
  end.

(** [s] is [width] ASCII digits. *)
Definition is_digits (width : nat) (s : string) : bool :=
  (String.length s =? width)%nat && Py.all_chars PyNum.is_ascii_digit s.

(** Rows that differ only in the timestamp at position 17. *)
Module DateFixture.

Definition row (t : pyval) : pyval :=
  PList [PStr "id1"; PStr "icon"; PStr "Name"; PNone; PNone; PNone;
         PStr "d"; PNone; PNone; PNone; PNone; PNone; PNone; PNone;
         PNone; PNone; PNone; PList [t]; PNone].

End DateFixture.

(** A row whose rating count is the text of a superscript two. *)
Module SuperscriptFixture.

Definition two : string := String "178"%char EmptyString.

Definition row : pyval :=
  PList [PStr "id1"; PStr "icon"; PStr "Name"; PNone; PStr two; PNone;
         PStr "d"; PNone; PNone; PNone; PNone; PNone; PNone; PNone;
         PNone; PNone; PNone; PNone; PNone].

End SuperscriptFixture.

(** A response whose payload is nested deeper than the decoder may go:
    after the opening sentinel, [recursion_limit] more lists are opened,
    one element apart so that no second sentinel is formed. *)
Module DeepFixture.

Fixpoint nested (n : nat) : string :=
  match n with
  | O => EmptyString
  | S k => String "[" (String "1" (String "," (nested k)))
  end.

Definition response : string :=
  ChromeStoreParser.sentinel5 ++ nested Json.recursion_limit.

(** The cleaned text: the closing sentinel is appended and its last two
    brackets are cut. *)
Definition step6 : string := response ++ "]]]]".

(** A manifest nested deeper than the decoder may go. *)
Definition manifest : string := Json.open_brackets (S Json.recursion_limit).

End DeepFixture.

(** * Properties *)

(** ** Evaluation checks of the library models *)

Example loads_nested : Json.loads "[[[[[1]]]]]"
  = Ok (PList [PList [PList [PList [PList [PInt 1]]]]]).
Proof. reflexivity. Qed.

Example loads_mixed :
  Json.loads (Py.qq " {'a': [1.50, -2, 'xA\n', null], 'a': true, 'b':{}} ")
  = Ok (PDict [("a", PBool true); ("b", PDict [])]).
Proof. reflexivity. Qed.

Example loads_string_escapes :
  Json.loads (Py.qq "['xA\n', 1.50, -2e3]")
  = Ok (PList [PStr (String "x" (String "A" (String "010" "")));
               PFloat (FFin false 150 (-2)); PFloat (FFin true 2 3)]).
Proof. reflexivity. Qed.

Example loads_trailing : Json.loads "[1,]" = Raise JSONDecodeError.
Proof. reflexivity. Qed.

Example float_repr_ex :
  Py.float_repr (FFin false 450 (-2)) = "4.5"
  /\ Py.float_repr (FFin true 1 (-5)) = "-1e-05"
  /\ Py.float_repr (FFin false 15 15) = "1.5e+16"
  /\ Py.float_repr (FFin false 4 0) = "4.0"
  /\ Py.float_repr (FFin false 1 (-4)) = "0.0001"
  /\ Py.float_repr (FFin false 123456 (-3)) = "123.456".
Proof. repeat split; reflexivity. Qed.

Example str_ex :
  Py.str (PList [PStr "a\b"; PInt (-3); PNone; PFloat (FFin false 25 (-1))])
  = "['a\\b', -3, None, 2.5]"
  /\ Py.str (PList [PStr "it's"])
     = "[" ++ Py.qq "'" ++ "it's" ++ Py.qq "'" ++ "]"
  /\ Py.str (PDict [("k", PBool true)]) = "{'k': True}"
  /\ Py.str (PStr "") = "".
Proof. repeat split; reflexivity. Qed.

Example float_ex :
  PyNum.float (PStr "4.5") = Ok (FFin false 45 (-1))
  /\ PyNum.float (PStr " -1_0.25e1 ") = Ok (FFin true 1025 (-1))
  /\ PyNum.float (PStr "1.2.3") = Raise ValueError
  /\ PyNum.float (PStr "1-2") = Raise ValueError
  /\ PyNum.float (PStr "-") = Raise ValueError
  /\ PyNum.float (PStr "5.") = Ok (FFin false 5 0)
  /\ PyNum.float (PStr "Infinity") = Ok (FInf false)
  /\ PyNum.round2 (FFin false 4603 (-3)) = FFin false 460 (-2)
  /\ PyNum.int (PStr "0123") = Ok 123%Z.
Proof. repeat split; reflexivity. Qed.

Example date_ex :
  PyDate.date_of_timestamp (FFin false 0 0) = Ok "1970-01-01"
  /\ PyDate.date_of_timestamp (FFin false 1700000000 0) = Ok "2023-11-14"
  /\ PyDate.date_of_timestamp (FFin false 951782400 0) = Ok "2000-02-29"
  /\ PyDate.date_of_timestamp (FFin true 1 0) = Ok "1969-12-31"
  /\ PyDate.date_of_timestamp (FFin false 1 12) = Raise ValueError
  /\ PyDate.date_of_timestamp (FFin false 1 30) = Raise OverflowError.
Proof. repeat split; reflexivity. Qed.

Example parse_row19 :
  ChromeStoreParser.parse_extension_data (Fixtures.row19 (PStr "4.5"))
  = Some (mkChromeExtension "a" "B" "" "desc" (Some "tools") ""
            (Some (DStr "1,000+")) (Some (FFin false 45 (-1))) (Some 12%Z)
            None true false "2023-11-14" (PStr "1.2") true).
Proof. vm_compute. reflexivity. Qed.

Example parse_short :
  ChromeStoreParser.parse_extension_data Fixtures.short_row = None.
Proof. vm_compute. reflexivity. Qed.

Example fix_ex :
  ChromeStoreParser.fix_json_response "xx[[[[[1]" 
  = Ok (PList [PList [PList [PInt 1]]]).
Proof. vm_compute. reflexivity. Qed.

Example token_ex :
  ChromeStoreParser.extract_pagination_token "abc" = Some "abc".
Proof. vm_compute. reflexivity. Qed.

Example wire_ex :
  Wire.dumps (PList [PStr (Py.qq "a'b\"); PNone; PInt 3])
  = Py.qq "['a\'b\\', null, 3]"
  /\ Wire.quote (Py.qq "[['x y', null]]") = "%5B%5B%22x%20y%22%2C%20null%5D%5D"
  /\ Wire.unquote "%5B%22x%20y%22%5D%C3%A9" = Py.qq "['x y']" ++ String "233" "".
Proof. repeat split; reflexivity. Qed.

Example build_ex :
  ChromeWebStoreAPIClient.build_request_data "a/b" (Some 32%Z) None
  = "f.req=%5B%5B%5B%22zTyKYc%22%2C%20%22%5B%5Bnull%2C%5B%5B3%2C%5C%22a/b%5C%22%2Cnull%2Cnull%2C2%2C%5B32%5D%5D%5D%5D%5D%22%2C%20null%2C%20%22generic%22%5D%5D%5D".
Proof. vm_compute. reflexivity. Qed.

(** ** Transport: [make_request_with_retry] *)

Section Retry.
Import ChromeWebStoreAPIClient.
Variable E : env.
Variable self : ChromeWebStoreAPIClient.t.
Variable data : string.

Lemma retry_loop_zero (attempt : nat) (w : world) :
  retry_loop E self data 0 attempt w = (Ok "", w).
Proof. reflexivity. Qed.

End Retry.

(** C10: with a maximum attempt count of zero or less,
    [make_request_with_retry] returns the empty string, sends no request
    and raises nothing: the world is left as it was. *)
Theorem zero_retries_return_empty
  (E : env) (self : ChromeWebStoreAPIClient.t) (data : string) (w : world) :
  (ChromeWebStoreAPIClient.max_retries self <= 0)%Z ->
  ChromeWebStoreAPIClient.make_request_with_retry E self data w = (Ok "", w).
Proof.
  intros Hn. unfold ChromeWebStoreAPIClient.make_request_with_retry.
  replace (Z.to_nat (ChromeWebStoreAPIClient.max_retries self)) with O by lia.
  apply retry_loop_zero.
Qed.

Lemma zero_retries_return_empty_witness :
  (ChromeWebStoreAPIClient.max_retries (TestEnv.client 0) <= 0)%Z
  /\ ChromeWebStoreAPIClient.make_request_with_retry
       TestEnv.failing (TestEnv.client 0) "f.req=x" world0 = (Ok "", world0).
Proof.
  split; [simpl; lia | apply zero_retries_return_empty; simpl; lia].
Defined.

Section Backoff.
Import ChromeWebStoreAPIClient.
Variable E : env.
Variable self : ChromeWebStoreAPIClient.t.
Variable data : string.

Lemma retry_loop_trace : forall remaining attempt w,
  exists new,
    trace (snd (retry_loop E self data remaining attempt w)) = (trace w ++ new)%list
    /\ (new = [] \/ exists tl, new = EPost data :: tl)
    /\ (count_posts new <= remaining)%nat
    /\ (forall k, (S k < count_posts new)%nat ->
         Trace.wait_before (S k) new
         = Some (inject_Z (2 ^ Z.of_nat (attempt + k))
                 + (0 + (1 - 0) * rand E (draws w + k)))).
Proof.
  induction remaining as [|r IH]; intros attempt w.
  - exists []. simpl. rewrite app_nil_r. repeat split; auto.
    intros k Hk. unfold count_posts in Hk. simpl in Hk. lia.
  - simpl. destruct (server E (posts w) data) as [text|e] eqn:Hs.
    + exists [EPost data]. simpl. repeat split; eauto.
      * unfold count_posts. simpl. lia.
      * intros k Hk. unfold count_posts in Hk. simpl in Hk. lia.
    + destruct e; try (exists [EPost data]; simpl; repeat split; eauto;
        [unfold count_posts; simpl; lia
        | intros k Hk; unfold count_posts in Hk; simpl in Hk; lia]).
      destruct (Z.of_nat attempt <? max_retries self - 1)%Z eqn:Hc.
      * set (wt := inject_Z (2 ^ Z.of_nat attempt) + (0 + (1 - 0) * rand E (draws w))).
        set (w3 := sleep wt _).
        destruct (IH (S attempt) w3) as (new' & Ht & Hhd & Hcnt & Hw).
        exists (EPost data :: ESleep wt :: new').
        split; [|split; [|split]].
        -- rewrite Ht. unfold w3. simpl. rewrite <- !app_assoc. reflexivity.
        -- right. eauto.
        -- unfold count_posts in *. simpl. lia.
        -- intros k Hk.
           assert (Hk' : (k < count_posts new')%nat)
             by (unfold count_posts in *; simpl in Hk; lia).
           destruct Hhd as [-> | (tl & ->)];
             [unfold count_posts in Hk'; simpl in Hk'; lia|].
           destruct k as [|k].
           ++ rewrite !Nat.add_0_r. reflexivity.
           ++ change (Trace.wait_before (S (S k))
                        (EPost data :: ESleep wt :: EPost data :: tl))
                with (Trace.wait_before (S k) (EPost data :: tl)).
              rewrite (Hw k Hk').
              replace (draws w3) with (S (draws w)) by reflexivity.
              replace (S attempt + k)%nat with (attempt + S k)%nat by lia.
              replace (S (draws w) + k)%nat with (draws w + S k)%nat by lia.
              reflexivity.
      * exists [EPost data]. simpl. repeat split; eauto.
        -- unfold count_posts. simpl. lia.
        -- intros k Hk. unfold count_posts in Hk. simpl in Hk. lia.
Qed.


Lemma new_events_app (w w' : world) (new : list event) :
  trace w' = (trace w ++ new)%list -> Trace.new_events w w' = new.
Proof.
  intros H. unfold Trace.new_events. rewrite H.
  rewrite skipn_app, skipn_all, Nat.sub_diag. reflexivity.
Qed.
End Backoff.




(** ** Decoding: [parse_extension_data] *)

Lemma bind_ok {A B : Type} (r : result A) (k : A -> result B) (b : B) :
  bind r k = Ok b -> exists a, r = Ok a /\ k a = Ok b.
Proof. destruct r as [a|e]; simpl; [eauto | discriminate]. Qed.

Ltac bind_inv H :=
  let a := fresh "a" in
  let Ha := fresh "Ha" in
  apply bind_ok in H; destruct H as (a & Ha & H).

Lemma eqb_empty_false s : Str.eqb_empty s = false -> s <> "".
Proof. destruct s; simpl; congruence. Qed.

Lemma parse_body_inv item e :
  ChromeStoreParser.parse_extension_data_body item = Ok (Some e) ->
  ChromeStoreParser.str_or_empty item 0 = Ok (id e)
  /\ ChromeStoreParser.str_or_empty item 2 = Ok (name e)
  /\ ChromeStoreParser.parse_rating item = Ok (rating e)
  /\ has_id_and_name e.
Proof.
  unfold ChromeStoreParser.parse_extension_data_body.
  destruct (negb (Py.truthy item)); [discriminate|].
  intros H. repeat bind_inv H. cbv zeta in H. cbn [id name] in H.
  destruct (Str.eqb_empty a6) eqn:H6; [bind_inv H; discriminate|].
  destruct (Str.eqb_empty a7) eqn:H7; [bind_inv H; discriminate|].
  simpl in H. injection H as <-. cbn [id name rating]. unfold has_id_and_name.
  cbn [id name]. repeat split; auto using eqb_empty_false.
Qed.

Lemma parse_some_inv item e :
  ChromeStoreParser.parse_extension_data item = Some e ->
  ChromeStoreParser.parse_extension_data_body item = Ok (Some e).
Proof.
  unfold ChromeStoreParser.parse_extension_data.
  destruct (ChromeStoreParser.parse_extension_data_body item) as [[x|]|];
    congruence.
Qed.

Lemma parse_empty_id_or_name item :
  ChromeStoreParser.str_or_empty item 0 = Ok ""
  \/ ChromeStoreParser.str_or_empty item 2 = Ok "" ->
  ChromeStoreParser.parse_extension_data item = None.
Proof.
  intros H.
  destruct (ChromeStoreParser.parse_extension_data item) as [e|] eqn:Hp;
    [|reflexivity].
  apply parse_some_inv, parse_body_inv in Hp.
  destruct Hp as (H0 & H2 & _ & Hid & Hname).
  destruct H as [H|H]; [rewrite H in H0 | rewrite H in H2]; congruence.
Qed.

Section CrawlInvariant.
Import ChromeWebStoreScraper.
Variable E : env.
Variable api_client : ChromeWebStoreAPIClient.t.

Lemma convert_items_has_id_and_name : forall items acc l,
  Forall has_id_and_name acc -> convert_items items acc = Ok l -> Forall has_id_and_name l.
Proof.
  induction items as [|item rest IH]; intros acc l Hacc H; simpl in H.
  - congruence.
  - bind_inv H. destruct (0 <? a)%nat; [|eauto].
    bind_inv H.
    destruct (ChromeStoreParser.parse_extension_data a0) as [e|] eqn:Hp;
      [|eauto].
    eapply IH; [|exact H].
    apply Forall_app. split; [exact Hacc|]. constructor; [|constructor].
    apply parse_some_inv, parse_body_inv in Hp. tauto.
Qed.

Lemma process_page_has_id_and_name max_pages page_count text all w c all' w' :
  Forall has_id_and_name all ->
  process_page E api_client max_pages page_count text all w = (c, all', w') ->
  Forall has_id_and_name all'.
Proof.
  intros Hall. unfold process_page.
  destruct (parse_page text) as [[page|]|] eqn:Hpp;
    try (intros H; injection H as <- <- <-; exact Hall).
  assert (Hpage : Forall has_id_and_name page).
  { unfold parse_page in Hpp. repeat bind_inv Hpp.
    destruct (negb (Py.truthy a)); [discriminate|].
    repeat bind_inv Hpp. injection Hpp as <-.
    eapply convert_items_has_id_and_name; [constructor | eassumption]. }
  assert (Hboth : Forall has_id_and_name (all ++ page)%list)
    by (apply Forall_app; split; assumption).
  destruct (ChromeStoreParser.extract_pagination_token text) as [tok|];
    [destruct (Str.eqb_empty tok);
     [|destruct (Z.of_nat page_count <? max_pages)%Z;
       [destruct (ChromeWebStoreAPIClient.add_delay E api_client w) as [[[]|x] w0]|]]|];
    intros H; injection H as <- <- <-; exact Hboth.
Qed.

Lemma page_loop_has_id_and_name : forall fuel category rpp max_pages all tok pc w l w',
  Forall has_id_and_name all ->
  page_loop E api_client fuel category rpp max_pages all tok pc w = (Ok l, w') ->
  Forall has_id_and_name l.
Proof.
  induction fuel as [|fuel IH]; intros category rpp max_pages all tok pc w l w' Hall H;
    simpl in H.
  - injection H as <- <-. exact Hall.
  - destruct (Z.of_nat pc <? max_pages)%Z; [|injection H as <- <-; exact Hall].
    destruct (ChromeWebStoreAPIClient.make_request_with_retry E api_client _ w)
      as [[text|e] w1]; [|discriminate].
    destruct (process_page E api_client max_pages (S pc) text all w1)
      as [[c all'] w2] eqn:Hp.
    apply process_page_has_id_and_name in Hp; [|exact Hall].
    destruct c; [injection H as <- <-; exact Hp | eapply IH; eassumption].
Qed.

End CrawlInvariant.

(** C9: every [ChromeExtension] that [parse_extension_data] returns has a
    non-empty id and a non-empty name, and so has every element of the
    list [search_by_category] returns; a row whose id or name coerces to
    the empty string is dropped ([None], nothing raised). *)
Theorem extensions_have_id_and_name :
  (forall item e,
     ChromeStoreParser.parse_extension_data item = Some e ->
     id e <> "" /\ name e <> "")
  /\ (forall item,
        ChromeStoreParser.str_or_empty item 0 = Ok ""
        \/ ChromeStoreParser.str_or_empty item 2 = Ok "" ->
        ChromeStoreParser.parse_extension_data item = None)
  /\ (forall E api_client category results_per_page max_pages w l w',
        ChromeWebStoreScraper.search_by_category E api_client category
          results_per_page max_pages w = (Ok l, w') ->
        Forall has_id_and_name l).
Proof.
  split; [|split].
  - intros item e H. apply parse_some_inv, parse_body_inv in H.
    destruct H as (_ & _ & _ & Hv). exact Hv.
  - exact parse_empty_id_or_name.
  - intros E api_client category rpp max_pages w l w' H.
    eapply page_loop_has_id_and_name; [constructor | exact H].
Qed.

(** ** Facts about strings *)

Lemma str_app_assoc (a b c : string) : (a ++ b) ++ c = a ++ b ++ c.
Proof. induction a as [|x a IH]; simpl; [reflexivity | now rewrite IH]. Qed.

Lemma str_app_nil_r (a : string) : a ++ "" = a.
Proof. induction a as [|x a IH]; simpl; [reflexivity | now rewrite IH]. Qed.

Lemma str_length_app (a b : string) :
  String.length (a ++ b) = (String.length a + String.length b)%nat.
Proof. induction a as [|x a IH]; simpl; [reflexivity | now rewrite IH]. Qed.

Lemma split_skip_no_match pat : forall s,
  Str.contains pat s = false -> Str.split_skip pat 0 s = (s, []).
Proof.
  induction s as [|c s IH]; intros H; [reflexivity|].
  cbn [Str.contains] in H. apply orb_false_iff in H. destruct H as [Hs Hc].
  cbn [Str.split_skip]. rewrite Hs, (IH Hc). reflexivity.
Qed.

(** ** Pagination token and envelope extraction *)

Section Extraction.
Import ChromeStoreParser.

Lemma extract_pagination_token_some text :
  exists token, extract_pagination_token text = Some token.
Proof.
  unfold extract_pagination_token, extract_pagination_token_body.
  destruct (Str.split_skip _ 0 text) as [h t].
  unfold Str.split.
  destruct (Str.split_skip bs 0 (Str.last_of h t)) as [h' t'].
  simpl. eauto.
Qed.

Lemma fix_no_sentinel text :
  Str.contains sentinel5 text = false ->
  fix_json_response text = Raise ValueError.
Proof.
  intros H. unfold fix_json_response, fix_json_response_body.
  rewrite H. reflexivity.
Qed.

Ltac decoder_leaves :=
  repeat match goal with
  | |- Ok _ = Raise _ -> _ => discriminate
  | |- Raise _ = Raise _ -> _ =>
      let H := fresh in intros H; injection H as <-; unfold decoder_error; auto
  | |- match ?x with _ => _ end = Raise _ -> _ => destruct x
  | |- (if ?x then _ else _) = Raise _ -> _ => destruct x
  end.

Lemma value_raises : forall f d s e,
  (Json.value f d s = Raise e -> decoder_error e)
  /\ (forall acc, Json.elems f d acc s = Raise e -> decoder_error e)
  /\ (forall acc, Json.members f d acc s = Raise e -> decoder_error e).
Proof.
  induction f as [|f IH]; intros d s e.
  - split; [|split; intros acc]; cbn; decoder_leaves.
  - split; [|split].
    + cbn [Json.value].
      destruct s as [|c s']; [decoder_leaves|].
      destruct c as [[] [] [] [] [] [] [] []]; cbv iota;
        try (decoder_leaves; fail).
      * destruct d as [|d]; [decoder_leaves|].
        destruct (Json.skip_ws s') as [|c2 r] eqn:Hs;
          [apply (proj2 (proj2 (IH d "" e)))|].
        destruct c2 as [[] [] [] [] [] [] [] []];
          try (apply (proj2 (proj2 (IH d _ e)))); decoder_leaves.
      * destruct d as [|d]; [decoder_leaves|].
        destruct (Json.skip_ws s') as [|c2 r] eqn:Hs;
          [apply (proj1 (proj2 (IH d "" e)))|].
        destruct c2 as [[] [] [] [] [] [] [] []];
          try (apply (proj1 (proj2 (IH d _ e)))); decoder_leaves.
    + intros acc. cbn [Json.elems].
      destruct (Json.value f d s) as [[v r]|e0] eqn:Hv.
      * destruct (Json.skip_ws r) as [|c2 r']; [decoder_leaves|].
        destruct c2 as [[] [] [] [] [] [] [] []];
          try (apply (proj1 (proj2 (IH d _ e)))); decoder_leaves.
      * intros H. injection H as <-. exact (proj1 (IH d s e0) Hv).
    + intros acc. cbn [Json.members].
      destruct s as [|c s']; [decoder_leaves|].
      destruct c as [[] [] [] [] [] [] [] []]; cbv iota;
        try (decoder_leaves; fail).
      destruct (Json.scanstring s') as [[k r]|]; [|decoder_leaves].
      destruct (Json.skip_ws r) as [|c2 r1]; [decoder_leaves|].
      destruct c2 as [[] [] [] [] [] [] [] []]; cbv iota;
        try (decoder_leaves; fail).
      destruct (Json.value f d (Json.skip_ws r1)) as [[v r2]|e0] eqn:Hv.
      * destruct (Json.skip_ws r2) as [|c3 r3]; [decoder_leaves|].
        destruct c3 as [[] [] [] [] [] [] [] []];
          try (apply (proj2 (proj2 (IH d _ e)))); decoder_leaves.
      * intros H. injection H as <-. exact (proj1 (IH d _ e0) Hv).
Qed.

Lemma loads_within_raises limit s e :
  Json.loads_within limit s = Raise e -> decoder_error e.
Proof.
  unfold Json.loads_within.
  destruct (Json.value _ _ _) as [[v r]|e0] eqn:Hv.
  - destruct (Json.skip_ws r); decoder_leaves.
  - intros H. injection H as <-. exact (proj1 (value_raises _ _ _ _) Hv).
Qed.

Lemma loads_raises s e : Json.loads s = Raise e -> decoder_error e.
Proof. apply loads_within_raises. Qed.

(** Whatever the limit, one list more than it allows is refused. *)
Lemma value_too_deep : forall d f,
  (2 * d + 1 <= f)%nat ->
  Json.value f d (Json.open_brackets (S d)) = Raise RecursionError.
Proof.
  induction d as [|d IH]; intros f Hf.
  - destruct f as [|f]; [lia|]. reflexivity.
  - destruct f as [|f]; [lia|]. destruct f as [|f]; [lia|].
    cbn [Json.open_brackets Json.value Json.skip_ws Json.is_ws Json.elems].
    change (String "[" (Json.open_brackets d))
      with (Json.open_brackets (S d)).
    rewrite IH by lia. reflexivity.
Qed.

Lemma loads_within_too_deep limit :
  Json.loads_within limit (Json.open_brackets (S limit))
  = Raise RecursionError.
Proof.
  unfold Json.loads_within.
  cbn [Json.open_brackets Json.skip_ws Json.is_ws].
  change (String "[" (Json.open_brackets limit))
    with (Json.open_brackets (S limit)).
  rewrite value_too_deep; [reflexivity|].
  assert (H : String.length (Json.open_brackets (S limit)) = S limit).
  { generalize (S limit). induction n; simpl; congruence. }
  rewrite H. lia.
Qed.

Lemma cleanup_has_sentinel text step6 :
  cleanup text = Ok step6 -> Str.contains sentinel5 text = true.
Proof.
  intros Hc. destruct (Str.contains sentinel5 text) eqn:H; [reflexivity|].
  unfold cleanup, Str.split in Hc. rewrite (split_skip_no_match _ _ H) in Hc.
  discriminate.
Qed.

Lemma fix_not_json text step6 :
  cleanup text = Ok step6 -> Json.loads step6 = Raise JSONDecodeError ->
  fix_json_response text = Raise ValueError.
Proof.
  intros Hc Hl. unfold fix_json_response, fix_json_response_body.
  destruct (negb (Str.contains sentinel5 text)); [reflexivity|].
  rewrite Hc. simpl. rewrite Hl. reflexivity.
Qed.

Lemma fix_too_deep text step6 :
  cleanup text = Ok step6 -> Json.loads step6 = Raise RecursionError ->
  fix_json_response text = Raise RecursionError.
Proof.
  intros Hc Hl. unfold fix_json_response, fix_json_response_body.
  rewrite (cleanup_has_sentinel _ _ Hc). cbn [negb].
  rewrite Hc. simpl. rewrite Hl. reflexivity.
Qed.

Lemma cleanup_no_closing text seg :
  Str.index (Str.split sentinel5 text) 1 = Ok seg ->
  Str.contains sentinel6 (sentinel5 ++ seg) = false ->
  cleanup text = Ok (Str.drop_last 2 (unescape (sentinel5 ++ seg ++ sentinel6))).
Proof.
  intros Hseg Hno. unfold cleanup. rewrite Hseg. cbn [bind].
  unfold Str.split at 1. rewrite (split_skip_no_match _ _ Hno).
  cbn [Str.index nth_error bind]. unfold unescape.
  rewrite str_app_assoc. reflexivity.
Qed.

End Extraction.

(** C3 on the code: a text without the delimiter, here [abc], comes back
    whole as the token, not as [None]; the orchestrator then takes it for
    a continuation token. *)
Theorem token_of_text_without_delimiter :
  Str.contains token_delimiter "abc" = false
  /\ ChromeStoreParser.extract_pagination_token "abc" = Some "abc".
Proof. split; reflexivity. Qed.

(** [extract_pagination_token] never raises and never takes its [except]
    path: it returns a string for every text. *)
Lemma extract_pagination_token_total (text : string) :
  ChromeStoreParser.extract_pagination_token text <> None.
Proof.
  destruct (extract_pagination_token_some text) as (tok & ->). discriminate.
Qed.

(** C6, as the code has it: a text without the five-bracket sentinel
    raises [ValueError]; so does a text whose cleaned form is not JSON
    (its escapes being those the model reads as the decoder does); a
    cleaned form nested deeper than the interpreter allows makes
    [json.loads] raise [RecursionError], which the handler does not catch
    and which leaves [fix_json_response] as it is (the text holding no
    run of more than 4300 digits, on which the decoder would raise
    [ValueError] first); a text without the closing six-bracket sentinel
    is not refused for that: it is taken to its end and the sentinel is
    appended before the clean-up. *)
Theorem fix_json_response_errors :
  (forall text,
     Str.contains ChromeStoreParser.sentinel5 text = false ->
     ChromeStoreParser.fix_json_response text = Raise ValueError)
  /\ (forall text step6,
        ChromeStoreParser.cleanup text = Ok step6 ->
        Json.narrow_escapes step6 = true ->
        Json.loads step6 = Raise JSONDecodeError ->
        ChromeStoreParser.fix_json_response text = Raise ValueError)
  /\ (forall text step6,
        ChromeStoreParser.cleanup text = Ok step6 ->
        Json.digit_runs_within 4300 0 step6 = true ->
        Json.loads step6 = Raise RecursionError ->
        ChromeStoreParser.fix_json_response text = Raise RecursionError)
  /\ (forall text seg,
        Str.index (Str.split ChromeStoreParser.sentinel5 text) 1 = Ok seg ->
        Str.contains ChromeStoreParser.sentinel6
          (ChromeStoreParser.sentinel5 ++ seg) = false ->
        ChromeStoreParser.cleanup text
        = Ok (Str.drop_last 2
                (unescape (ChromeStoreParser.sentinel5 ++ seg
                             ++ ChromeStoreParser.sentinel6)))).
Proof.
  split; [|split; [|split]].
  - exact fix_no_sentinel.
  - intros text step6 Hc _ Hl. exact (fix_not_json text step6 Hc Hl).
  - intros text step6 Hc _ Hl. exact (fix_too_deep text step6 Hc Hl).
  - exact cleanup_no_closing.
Qed.

(** C6 as stated fails: this text has the opening sentinel and no closing
    one, and rows are extracted from it all the same. *)
Lemma missing_closing_sentinel_is_accepted :
  Str.contains ChromeStoreParser.sentinel6 "[[[[[1]" = false
  /\ ChromeStoreParser.fix_json_response "[[[[[1]"
     = Ok (PList [PList [PList [PInt 1]]]).
Proof. split; vm_compute; reflexivity. Qed.

(** ** Orchestration: [search_by_category] *)

Section CrawlErrors.
Import ChromeWebStoreAPIClient ChromeWebStoreScraper.
Variable E : env.
Variable api_client : ChromeWebStoreAPIClient.t.



End CrawlErrors.




(** ** Decoding rows of any length *)

Section Rows.
Import ChromeStoreParser.


Lemma getitem_list_short l i :
  (List.length l <= i)%nat -> Py.getitem (PList l) i = Raise IndexError.
Proof.
  intros H. simpl. unfold Str.index.
  apply nth_error_None in H. rewrite H. reflexivity.
Qed.

Lemma is_ok_inv {A} (r : result A) : is_ok r = true -> exists a, r = Ok a.
Proof. destruct r; simpl; [eauto | discriminate]. Qed.













Lemma parse_short_row l :
  (List.length l < 19)%nat -> parse_extension_data (PList l) = None.
Proof.
  intros Hlen. unfold parse_extension_data, parse_extension_data_body.
  destruct (negb (Py.truthy (PList l))); [reflexivity|].
  unfold parse_manifest. rewrite (getitem_list_short l 18 ltac:(lia)).
  reflexivity.
Qed.

End Rows.




(** C8 on the code: the text [4.5] gives the rating 4.5 and the text [n/a]
    gives no rating, the row being kept; the text [1.2.3], which is not
    numeric either, passes the digit filter of line 115, [float] raises,
    and the whole row is dropped. *)
Theorem rating_filter_lets_two_points_through :
  option_map rating
    (ChromeStoreParser.parse_extension_data (Fixtures.row19 (PStr "4.5")))
  = Some (Some (FFin false 45 (-1)))
  /\ option_map rating
       (ChromeStoreParser.parse_extension_data (Fixtures.row19 (PStr "n/a")))
     = Some None
  /\ ChromeStoreParser.parse_rating (Fixtures.row19 (PStr "1.2.3"))
     = Raise ValueError
  /\ ChromeStoreParser.parse_extension_data (Fixtures.row19 (PStr "1.2.3"))
     = None.
Proof. repeat split; vm_compute; reflexivity. Qed.

(** ** The envelope round trip *)

Section EnvelopeRoundTrip.
Import ChromeStoreParser.

Lemma startswith_app_long pat : forall a b,
  (String.length pat <= String.length a)%nat ->
  Str.startswith pat (a ++ b) = Str.startswith pat a.
Proof.
  induction pat as [|p pat IH]; intros a b H; [destruct a; reflexivity|].
  destruct a as [|x a]; [simpl in H; lia|].
  simpl. rewrite IH; [reflexivity | simpl in H; lia].
Qed.

Lemma startswith_app_self pat rest : Str.startswith pat (pat ++ rest) = true.
Proof.
  induction pat as [|p pat IH]; [reflexivity|].
  simpl. rewrite Ascii.eqb_refl, IH. reflexivity.
Qed.

Lemma split_skip_skip pat rest : forall a,
  Str.split_skip pat (String.length a) (a ++ rest) = Str.split_skip pat 0 rest.
Proof.
  induction a as [|x a IH]; [reflexivity|]. simpl. exact IH.
Qed.

Lemma take_drop n : forall s, Str.take n s ++ Str.drop n s = s.
Proof.
  induction n as [|n IH]; intros s; [reflexivity|].
  destruct s as [|c s]; [reflexivity|]. simpl. now rewrite IH.
Qed.

Lemma take_length n : forall s,
  (n <= String.length s)%nat -> String.length (Str.take n s) = n.
Proof.
  induction n as [|n IH]; intros s H; [reflexivity|].
  destruct s as [|c s]; [simpl in H; lia|]. simpl. rewrite IH; [reflexivity|].
  simpl in H. lia.
Qed.

(** When [pat] first occurs right after [pre], the split cuts there. *)
Lemma split_skip_first pat rest : forall pre,
  pat <> "" ->
  Str.contains pat (pre ++ Str.take (String.length pat - 1) pat) = false ->
  Str.split_skip pat 0 (pre ++ pat ++ rest)
  = (pre, Str.split pat rest).
Proof.
  intros pre Hpat. induction pre as [|c pre IH]; intros H.
  - destruct pat as [|p pat]; [congruence|].
    change ("" ++ String p pat ++ rest) with (String p (pat ++ rest)).
    cbn [Str.split_skip].
    change (String p (pat ++ rest)) with (String p pat ++ rest).
    rewrite startswith_app_self.
    replace (String.length (String p pat) - 1)%nat with (String.length pat)
      by (simpl; lia).
    rewrite split_skip_skip. unfold Str.split.
    destruct (Str.split_skip (String p pat) 0 rest) as [h t]. reflexivity.
  - change (Str.contains pat (String c (pre ++ Str.take (String.length pat - 1) pat)) = false) in H.
    cbn [Str.contains] in H. apply orb_false_iff in H. destruct H as [Hs Hc].
    change (String c pre ++ pat ++ rest) with (String c (pre ++ pat ++ rest)).
    cbn [Str.split_skip].
    assert (Hsw : Str.startswith pat (String c (pre ++ pat ++ rest)) = false).
    { rewrite <- Hs.
      rewrite <- (take_drop (String.length pat - 1) pat) at 2.
      rewrite str_app_assoc, <- (str_app_assoc pre).
      change (String c ((pre ++ Str.take (String.length pat - 1) pat)
                         ++ Str.drop (String.length pat - 1) pat ++ rest))
        with (String c (pre ++ Str.take (String.length pat - 1) pat)
                ++ (Str.drop (String.length pat - 1) pat ++ rest)).
      apply startswith_app_long. simpl. rewrite str_length_app.
      rewrite take_length by lia. lia. }
    rewrite Hsw, (IH Hc). reflexivity.
Qed.

Lemma replace2_match a b new rest :
  Str.replace_skip (String a (String b "")) new 0 (String a (String b rest))
  = new ++ Str.replace_skip (String a (String b "")) new 0 rest.
Proof.
  cbn [Str.replace_skip Str.startswith]. rewrite !Ascii.eqb_refl. reflexivity.
Qed.

Lemma replace_nomatch old new c s :
  Str.startswith old (String c s) = false ->
  Str.replace_skip old new 0 (String c s)
  = String c (Str.replace_skip old new 0 s).
Proof. intros H. cbn [Str.replace_skip]. rewrite H. reflexivity. Qed.

Lemma startswith2 a b x s :
  Str.startswith (String a (String b "")) (String x s)
  = Ascii.eqb a x && Str.startswith (String b "") s.
Proof. reflexivity. Qed.

Lemma startswith1 a x s :
  Str.startswith (String a "") (String x s) = Ascii.eqb a x.
Proof. cbn [Str.startswith]. apply andb_true_r. Qed.

Lemma replace_backslashes : forall s,
  Str.replace (bs ++ bs) bs (Envelope.escape s) = escape_quotes s.
Proof.
  unfold Str.replace.
  change (bs ++ bs) with (String Py.backslash (String Py.backslash "")).
  induction s as [|c s IH]; [reflexivity|].
  cbn [Envelope.escape escape_quotes].
  destruct (Ascii.eqb_spec c Py.backslash) as [->|Hb].
  - change (Ascii.eqb Py.backslash Py.dquote) with false. cbv iota.
    rewrite replace2_match, IH. reflexivity.
  - destruct (Ascii.eqb_spec c Py.dquote) as [->|Hq].
    + rewrite replace_nomatch by reflexivity.
      rewrite replace_nomatch by reflexivity. rewrite IH. reflexivity.
    + rewrite replace_nomatch, IH; [reflexivity|].
      rewrite startswith2. rewrite Ascii.eqb_sym.
      destruct (Ascii.eqb_spec c Py.backslash); [congruence | reflexivity].
Qed.

Lemma escape_quotes_head s :
  Str.startswith dq (escape_quotes s) = false.
Proof.
  destruct s as [|c s]; [reflexivity|]. cbn [escape_quotes].
  destruct (Ascii.eqb_spec c Py.dquote) as [->|Hq]; [reflexivity|].
  unfold dq. rewrite startswith1, Ascii.eqb_sym.
  destruct (Ascii.eqb_spec c Py.dquote); [congruence | reflexivity].
Qed.

Lemma replace_quotes : forall s,
  Str.replace (bs ++ dq) dq (escape_quotes s) = s.
Proof.
  unfold Str.replace.
  change (bs ++ dq) with (String Py.backslash (String Py.dquote "")).
  induction s as [|c s IH]; [reflexivity|].
  cbn [escape_quotes].
  destruct (Ascii.eqb_spec c Py.dquote) as [->|Hq].
  - rewrite replace2_match, IH. reflexivity.
  - rewrite replace_nomatch, IH; [reflexivity|].
    rewrite startswith2. fold dq. rewrite escape_quotes_head.
    apply andb_false_r.
Qed.

Lemma replace_no_match old new : forall s,
  Str.contains old s = false -> Str.replace old new s = s.
Proof.
  unfold Str.replace. induction s as [|c s IH]; intros H; [reflexivity|].
  cbn [Str.contains] in H. apply orb_false_iff in H. destruct H as [Hs Hc].
  cbn [Str.replace_skip]. rewrite Hs, (IH Hc). reflexivity.
Qed.

Lemma escape_app a b :
  Envelope.escape (a ++ b) = Envelope.escape a ++ Envelope.escape b.
Proof.
  induction a as [|c a IH]; [reflexivity|]. simpl.
  destruct (Ascii.eqb c Py.backslash); [simpl; now rewrite IH|].
  destruct (Ascii.eqb c Py.dquote); simpl; now rewrite IH.
Qed.

Lemma take_app_length a b : Str.take (String.length a) (a ++ b) = a.
Proof. induction a as [|x a IH]; [destruct b; reflexivity|]. simpl. now rewrite IH. Qed.

Lemma drop_last_app a b :
  Str.drop_last (String.length b) (a ++ b) = a.
Proof.
  unfold Str.drop_last. rewrite str_length_app.
  replace (String.length a + String.length b - String.length b)%nat
    with (String.length a) by lia.
  apply take_app_length.
Qed.

Lemma contains_unfold pat s :
  Str.contains pat s
  = Str.startswith pat s
    || match s with EmptyString => false | String _ s' => Str.contains pat s' end.
Proof. destruct s; reflexivity. Qed.

Lemma contains_app_intro pat rest : forall pre,
  Str.contains pat (pre ++ pat ++ rest) = true.
Proof.
  induction pre as [|c pre IH].
  - rewrite contains_unfold. simpl. now rewrite startswith_app_self.
  - rewrite contains_unfold. simpl. rewrite IH. apply orb_true_r.
Qed.

End EnvelopeRoundTrip.

(** ** The request body round trip *)

(** *** Integers: [str] then the JSON number scanner *)

Lemma uint_val_pos : forall d p,
  Recover.uint_val d (N.pos p) = N.pos (Pos.of_uint_acc d p).
Proof.
  induction d; intros p; cbn [Recover.uint_val Pos.of_uint_acc];
    try reflexivity; rewrite <- IHd; f_equal; lia.
Qed.

Lemma digits_acc_uint rest : 
  match rest with
  | EmptyString => True
  | String c _ => Json.digit_val c = None
  end ->
  forall d acc len,
  exists n, Json.digits_acc acc len (NilEmpty.string_of_uint d ++ rest)
            = (Recover.uint_val d acc, n, rest).
Proof.
  intros Hrest. induction d; intros acc len;
    try (cbn [NilEmpty.string_of_uint append Json.digits_acc];
         change (Json.digit_val _) with (Some 0%N) ||
         change (Json.digit_val _) with (Some 1%N) ||
         change (Json.digit_val _) with (Some 2%N) ||
         change (Json.digit_val _) with (Some 3%N) ||
         change (Json.digit_val _) with (Some 4%N) ||
         change (Json.digit_val _) with (Some 5%N) ||
         change (Json.digit_val _) with (Some 6%N) ||
         change (Json.digit_val _) with (Some 7%N) ||
         change (Json.digit_val _) with (Some 8%N) ||
         change (Json.digit_val _) with (Some 9%N);
         cbv iota; cbn [Recover.uint_val];
         rewrite ?N.add_0_r; apply IHd).
  cbn [NilEmpty.string_of_uint append Recover.uint_val].
  destruct rest as [|c r]; [simpl; eauto|].
  cbn [Json.digits_acc]. rewrite Hrest. eauto.
Qed.

Lemma nzhead_not_D0 : forall d l, Decimal.nzhead d <> Decimal.D0 l.
Proof. induction d; intros l; simpl; try discriminate. apply IHd. Qed.

Lemma to_uint_head p l : Pos.to_uint p <> Decimal.D0 l.
Proof.
  intros H.
  pose proof (DecimalPos.Unsigned.to_of (Pos.to_uint p)) as Hn.
  rewrite DecimalPos.Unsigned.of_to in Hn. simpl in Hn.
  rewrite H in Hn. unfold Decimal.unorm in Hn. simpl in Hn.
  destruct (Decimal.nzhead l) eqn:Hz; try discriminate.
  - injection Hn as ->. apply (DecimalPos.Unsigned.to_uint_nonzero p). exact H.
  - apply (nzhead_not_D0 l u). exact Hz.
Qed.

Lemma num_end_digit rest :
  num_end rest ->
  match rest with
  | EmptyString => True
  | String c _ => Json.digit_val c = None
  end.
Proof. destruct rest; [auto | intros H; apply H]. Qed.

Ltac eval_digit :=
  match goal with
  | |- context [Json.digit_val ?c] =>
      let v := eval vm_compute in (Json.digit_val c) in
      change (Json.digit_val c) with v
  end.

Lemma uint_val_of_uint d :
  (forall l, d <> Decimal.D0 l) -> Recover.uint_val d 0 = Pos.of_uint d.
Proof.
  intros Hhd. destruct d; cbn [Recover.uint_val Pos.of_uint];
    try reflexivity; try (exfalso; eapply Hhd; reflexivity);
    rewrite N.mul_0_r, N.add_0_l; apply uint_val_pos.
Qed.

Lemma int_part_pos p rest :
  num_end rest ->
  Json.int_part (NilEmpty.string_of_uint (Pos.to_uint p) ++ rest)
  = Some (N.pos p, rest).
Proof.
  intros Hrest. apply num_end_digit in Hrest.
  pose proof (DecimalPos.Unsigned.of_to p) as Hof.
  pose proof (to_uint_head p) as Hhd.
  pose proof (DecimalPos.Unsigned.to_uint_nonnil p) as Hnil.
  rewrite <- (uint_val_of_uint _ Hhd) in Hof.
  destruct (digits_acc_uint rest Hrest (Pos.to_uint p) 0%N O) as (n & Hd).
  rewrite Hof in Hd. clear Hof.
  destruct (Pos.to_uint p) as [|l|l|l|l|l|l|l|l|l|l];
    [congruence | exfalso; eapply Hhd; reflexivity | ..];
    cbn [NilEmpty.string_of_uint append] in *;
    cbn [Json.int_part]; eval_digit; cbv iota;
    unfold Json.digits; rewrite Hd; reflexivity.
Qed.

Lemma frac_part_none m rest : num_end rest -> Json.frac_part m rest = None.
Proof.
  destruct rest as [|c r]; [reflexivity|]. intros (_ & Hp & _).
  destruct c as [[] [] [] [] [] [] [] []]; try reflexivity. congruence.
Qed.

Lemma exp_part_none rest : num_end rest -> Json.exp_part rest = None.
Proof.
  destruct rest as [|c r]; [reflexivity|]. intros (_ & _ & He & HE).
  unfold Json.exp_part.
  apply Ascii.eqb_neq in He, HE. rewrite He, HE. reflexivity.
Qed.

Lemma number_of_Z z rest :
  num_end rest ->
  Json.number (Py.string_of_Z z ++ rest) = Some (PInt z, rest).
Proof.
  intros Hrest. unfold Py.string_of_Z.
  pose proof (frac_part_none) as Hf. pose proof (exp_part_none rest Hrest) as He.
  destruct z as [|p|p]; cbn [Z.to_int NilZero.string_of_int].
  - unfold Json.number.
    cbn [NilZero.string_of_uint NilEmpty.string_of_uint append Json.int_part].
    rewrite (Hf _ _ Hrest), He. reflexivity.
  - pose proof (int_part_pos p rest Hrest) as Hi.
    pose proof (to_uint_head p) as Hhd.
    pose proof (DecimalPos.Unsigned.to_uint_nonnil p) as Hnil.
    destruct (Pos.to_uint p) as [|l|l|l|l|l|l|l|l|l|l];
      [congruence | exfalso; eapply Hhd; reflexivity | ..];
      cbn [NilZero.string_of_uint NilEmpty.string_of_uint append] in *;
      unfold Json.number; cbv iota beta; rewrite Hi;
      rewrite (Hf _ _ Hrest), He; reflexivity.
  - pose proof (int_part_pos p rest Hrest) as Hi.
    pose proof (to_uint_head p) as Hhd.
    pose proof (DecimalPos.Unsigned.to_uint_nonnil p) as Hnil.
    destruct (Pos.to_uint p) as [|l|l|l|l|l|l|l|l|l|l];
      [congruence | exfalso; eapply Hhd; reflexivity | ..];
      cbn [NilZero.string_of_uint NilEmpty.string_of_uint append] in *;
      unfold Json.number; cbv iota beta; rewrite Hi;
      rewrite (Hf _ _ Hrest), He; reflexivity.
Qed.

(** *** Percent-encoding, string escaping and the two JSON layers *)

Lemma unquote_quote_char c rest :
  Wire.unquote (Wire.quote_char c ++ rest) = String c (Wire.unquote rest).
Proof. destruct c as [[] [] [] [] [] [] [] []]; reflexivity. Qed.

Lemma unquote_quote : forall s, Wire.unquote (Wire.quote s) = s.
Proof.
  induction s as [|c s IH]; [reflexivity|].
  cbn [Wire.quote]. rewrite unquote_quote_char, IH. reflexivity.
Qed.

Lemma scanstring_escape_char c t :
  Json.scanstring (Wire.escape_char c ++ t) = Json.cons_fst c (Json.scanstring t).
Proof. destruct c as [[] [] [] [] [] [] [] []]; reflexivity. Qed.

Lemma scanstring_escape rest : forall s,
  Json.scanstring (Wire.escape s ++ String Py.dquote rest) = Some (s, rest).
Proof.
  induction s as [|c s IH]; [reflexivity|].
  cbn [Wire.escape]. rewrite str_app_assoc, scanstring_escape_char, IH.
  reflexivity.
Qed.

Lemma scanstring_plain_char c t :
  Recover.plain_char c = true ->
  Json.scanstring (String c t) = Json.cons_fst c (Json.scanstring t).
Proof.
  destruct c as [[] [] [] [] [] [] [] []]; intros H;
    try (exfalso; vm_compute in H; discriminate H); reflexivity.
Qed.

Lemma scanstring_plain rest : forall s,
  Recover.plain s = true ->
  Json.scanstring (s ++ String Py.dquote rest) = Some (s, rest).
Proof.
  induction s as [|c s IH]; intros H; [reflexivity|].
  unfold Recover.plain in H. cbn [Py.all_chars] in H.
  apply andb_true_iff in H. destruct H as [Hc Hs].
  cbn [append]. rewrite (scanstring_plain_char _ _ Hc), (IH Hs). reflexivity.
Qed.

Section RequestBody.
Import ChromeWebStoreAPIClient.

Ltac eval_closed t :=
  let v := eval vm_compute in t in change t with v.

Lemma value_string f d s t r :
  Json.scanstring s = Some (t, r) ->
  Json.value (S f) d (String "034" s) = Ok (PStr t, r).
Proof. intros H. cbn [Json.value]. rewrite H. reflexivity. Qed.

Lemma value_list f d s' c r0 res :
  Json.skip_ws s' = String c r0 -> c <> "]"%char ->
  Json.elems f d [] (String c r0) = res ->
  Json.value (S f) (S d) (String "[" s') = res.
Proof.
  intros Hs Hc <-. cbn [Json.value]. rewrite Hs.
  destruct c as [[] [] [] [] [] [] [] []]; try reflexivity. congruence.
Qed.

Lemma elems_step f d acc s v r res :
  Json.value f d s = Ok (v, r) ->
  match Json.skip_ws r with
  | String "," r' => Json.elems f d (acc ++ [v]) (Json.skip_ws r')
  | String "]" r' => Ok (PList (acc ++ [v]), r')
  | _ => Raise JSONDecodeError
  end = res ->
  Json.elems (S f) d acc s = res.
Proof. intros Hv <-. cbn [Json.elems]. rewrite Hv. reflexivity. Qed.

Lemma string_of_Z_head z rest :
  exists c t, Py.string_of_Z z ++ rest = String c t /\ int_head c = true.
Proof.
  unfold Py.string_of_Z.
  destruct z as [|p|p]; cbn [Z.to_int NilZero.string_of_int].
  - do 2 eexists. split; reflexivity.
  - pose proof (DecimalPos.Unsigned.to_uint_nonnil p) as Hnil.
    destruct (Pos.to_uint p); try congruence;
      do 2 eexists; (split; reflexivity).
  - do 2 eexists. split; reflexivity.
Qed.

Lemma int_head_facts c :
  int_head c = true -> Json.is_ws c = false /\ c <> "]"%char.
Proof.
  destruct c as [[] [] [] [] [] [] [] []]; intros H;
    try (exfalso; vm_compute in H; discriminate H);
    (split; [reflexivity | discriminate]).
Qed.

Lemma value_number f d c t r0 :
  int_head c = true ->
  Json.number (String c t) = Some r0 ->
  Json.value (S f) d (String c t) = Ok r0.
Proof.
  destruct c as [[] [] [] [] [] [] [] []]; intros H Hn;
    try (exfalso; vm_compute in H; discriminate H);
    lazy beta iota zeta delta [Json.value Str.startswith Ascii.eqb Bool.eqb andb];
    rewrite Hn; reflexivity.
Qed.

Lemma value_int f d z rest :
  num_end rest ->
  Json.value (S f) d (Py.string_of_Z z ++ rest) = Ok (PInt z, rest).
Proof.
  intros Hrest. pose proof (number_of_Z z rest Hrest) as Hn.
  destruct (string_of_Z_head z rest) as (c & t & Heq & Hc).
  rewrite Heq in *. now apply value_number.
Qed.

Lemma value_list_int f d z rest res :
  Json.elems f d [] (Py.string_of_Z z ++ rest) = res ->
  Json.value (S f) (S d) (String "[" (Py.string_of_Z z ++ rest)) = res.
Proof.
  destruct (string_of_Z_head z rest) as (c & t & Heq & Hc).
  rewrite Heq. intros H.
  destruct (int_head_facts c Hc) as [Hws Hne].
  apply (value_list f d _ c t); [|exact Hne|exact H].
  cbn [Json.skip_ws]. rewrite Hws. reflexivity.
Qed.

Ltac run_scan :=
  first [ apply scanstring_escape
        | apply scanstring_plain; assumption
        | reflexivity ].

Ltac run_value :=
  lazymatch goal with
  | |- Json.value (S _) _ (String "034"%char _) = _ =>
      eapply value_string; run_scan
  | |- Json.value (S _) (S _) (String "["%char (Py.string_of_Z _ ++ _)) = _ =>
      apply value_list_int; run_elems
  | |- Json.value (S _) (S _) (String "["%char _) = _ =>
      eapply value_list;
      [cbn [Json.skip_ws Json.is_ws]; reflexivity | discriminate | run_elems]
  | |- Json.value (S _) _ (Py.string_of_Z _ ++ _) = _ =>
      apply value_int; repeat split; (reflexivity || discriminate)
  | |- _ => reflexivity
  end
with run_elems :=
  eapply elems_step;
  [ run_value
  | cbn [Json.skip_ws Json.is_ws Str.drop];
    lazymatch goal with
    | |- Json.elems _ _ _ _ = _ => run_elems
    | |- _ => reflexivity
    end ].

Lemma loads_request sub :
  Json.loads (Wire.dumps (PList [PList [PList [PStr "zTyKYc"; PStr sub; PNone; PStr "generic"]]]))
  = Ok (PList [PList [PList [PStr "zTyKYc"; PStr sub; PNone; PStr "generic"]]]).
Proof.
  cbn [Wire.dumps]. 
  eval_closed (Wire.dumps_str "zTyKYc"). eval_closed (Wire.dumps_str "generic").
  unfold Wire.dumps_str.
  repeat (rewrite str_app_assoc || cbn [append]).
  unfold Py.dquote.
  unfold Json.loads, Json.loads_within, Json.recursion_limit.
  match goal with |- context [Json.value ?f _ _] => set (fuel := f) end.
  assert (Hfuel : (12 <= fuel)%nat) by (unfold fuel; cbn [String.length]; lia).
  clearbody fuel.
  do 12 (destruct fuel as [|fuel]; [exfalso; lia|]). clear Hfuel.
  cbn [Json.skip_ws Json.is_ws].
  match goal with
  | |- context [Json.value ?f ?d ?s] =>
      assert (Hv : Json.value f d s
                   = Ok (PList [PList [PList [PStr "zTyKYc"; PStr sub; PNone;
                                              PStr "generic"]]], ""))
  end.
  { run_value. }
  rewrite Hv. reflexivity.
Qed.

Lemma loads_sub_payload query z token :
  Recover.plain query = true -> Recover.plain_token token = true ->
  Json.loads (sub_payload query (Some z) token)
  = Ok (PList [PList [PNone;
          PList [PList [PInt 3; PStr query; PNone; PNone; PInt 2;
                        PList (PInt z :: match token with
                                         | Some tok => [PStr tok]
                                         | None => []
                                         end)]]]]).
Proof.
  intros Hq Ht. unfold sub_payload, format_amount.
  destruct token as [tok|]; cbn [Recover.plain_token] in Ht;
    repeat (rewrite str_app_assoc || cbn [append]);
    unfold Py.dquote;
    unfold Json.loads, Json.loads_within, Json.recursion_limit;
    match goal with |- context [Json.value ?f _ _] => set (fuel := f) end;
    assert (Hfuel : (20 <= fuel)%nat) by (unfold fuel; cbn [String.length]; lia);
    clearbody fuel;
    do 20 (destruct fuel as [|fuel]; [exfalso; lia|]); clear Hfuel;
    cbn [Json.skip_ws Json.is_ws];
    match goal with
    | |- match Json.value ?f ?d ?s with _ => _ end = Ok ?v =>
        assert (Hv : Json.value f d s = Ok (v, "")) by run_value
    end;
    rewrite Hv; reflexivity.
Qed.

Lemma recover_build query z token :
  Recover.plain query = true -> Recover.plain_token token = true ->
  Recover.recover (build_request_data query (Some z) token)
  = Some (query, z, token).
Proof.
  intros Hq Ht. unfold Recover.recover, build_request_data, request_data.
  rewrite startswith_app_self.
  change (Str.drop 6 ("f.req=" ++ ?x)) with x.
  cbn [Str.drop append]. rewrite unquote_quote, loads_request.
  rewrite (loads_sub_payload query z token Hq Ht).
  destruct token; reflexivity.
Qed.




End RequestBody.




(** ** Removing newlines keeps a successful parse *)

Section NewlineRemoval.
Import ChromeStoreParser.

Local Abbreviation strip := (Str.replace nl "").

Lemma strip_cons c s :
  strip (String c s)
  = if Ascii.eqb c "010" then strip s else String c (strip s).
Proof.
  unfold Str.replace, nl.
  cbn [Str.replace_skip Str.startswith String.length Nat.sub].
  rewrite Ascii.eqb_sym. destruct (Ascii.eqb c "010"); reflexivity.
Qed.

Lemma strip_app a b : strip (a ++ b) = strip a ++ strip b.
Proof.
  induction a as [|c a IH]; [reflexivity|].
  change (String c a ++ b) with (String c (a ++ b)).
  rewrite !strip_cons, IH. destruct (Ascii.eqb c "010"); reflexivity.
Qed.

Lemma strip_length s : (String.length (strip s) <= String.length s)%nat.
Proof.
  induction s as [|c s IH]; [apply Nat.le_refl|].
  rewrite strip_cons. destruct (Ascii.eqb c "010"); simpl; lia.
Qed.

Lemma strip_keep c s :
  Ascii.eqb c "010" = false -> strip (String c s) = String c (strip s).
Proof. intros H. rewrite strip_cons, H. reflexivity. Qed.

Lemma not_ws_not_nl c : Json.is_ws c = false -> Ascii.eqb c "010" = false.
Proof.
  intros H. destruct (Ascii.eqb_spec c "010") as [->|]; [discriminate | reflexivity].
Qed.

Lemma digit_not_nl c d : Json.digit_val c = Some d -> Ascii.eqb c "010" = false.
Proof.
  intros H. destruct (Ascii.eqb_spec c "010") as [->|]; [discriminate | reflexivity].
Qed.

(** *** White space *)

Lemma skip_ws_strip : forall s,
  Json.skip_ws (strip s) = strip (Json.skip_ws s).
Proof.
  induction s as [|c s IH]; [reflexivity|].
  rewrite strip_cons. cbn [Json.skip_ws].
  destruct (Ascii.eqb_spec c "010") as [->|Hn].
  - exact IH.
  - destruct (Json.is_ws c) eqn:Hw.
    + cbn [Json.skip_ws]. rewrite Hw. exact IH.
    + cbn [Json.skip_ws]. rewrite Hw, strip_cons.
      destruct (Ascii.eqb_spec c "010"); [congruence | reflexivity].
Qed.

Lemma skip_ws_head s c x : Json.skip_ws s = String c x -> Json.is_ws c = false.
Proof.
  induction s as [|a s IH]; [discriminate|]. cbn [Json.skip_ws].
  destruct (Json.is_ws a) eqn:Ha; [exact IH|].
  intros H. injection H as <- _. exact Ha.
Qed.

Lemma skip_ws_length s :
  (String.length (strip (Json.skip_ws s)) <= String.length (strip s))%nat.
Proof.
  induction s as [|c s IH]; [apply Nat.le_refl|].
  cbn [Json.skip_ws]. destruct (Json.is_ws c); [|apply Nat.le_refl].
  rewrite (strip_cons c s). destruct (Ascii.eqb c "010"); simpl; lia.
Qed.

Lemma ws_num_end c x : Json.is_ws c = true -> num_end (String c x).
Proof.
  intros H. destruct c as [[] [] [] [] [] [] [] []]; try discriminate H;
    cbn; repeat split; discriminate.
Qed.

Lemma num_end_skip_ws x : num_end (Json.skip_ws x) -> num_end x.
Proof.
  destruct x as [|c x]; [trivial|]. cbn [Json.skip_ws].
  destruct (Json.is_ws c) eqn:Hw; [intros _; apply ws_num_end; exact Hw | trivial].
Qed.

(** What follows a value inside a container or at the end of the text. *)
Lemma num_end_after r c x :
  Json.skip_ws r = String c x ->
  num_end (String c (strip x)) ->
  num_end (strip r).
Proof.
  intros H Hc. apply num_end_skip_ws. rewrite skip_ws_strip, H.
  rewrite strip_keep; [exact Hc|].
  apply not_ws_not_nl. eapply skip_ws_head. exact H.
Qed.

Lemma num_end_at_end r : Json.skip_ws r = "" -> num_end (strip r).
Proof.
  intros H. apply num_end_skip_ws. rewrite skip_ws_strip, H. exact I.
Qed.

(** *** Strings *)

Lemma cons_fst_some c o t r :
  Json.cons_fst c o = Some (t, r) ->
  exists t', o = Some (t', r) /\ t = String c t'.
Proof.
  destruct o as [[t' r']|]; [|discriminate]. cbn. intros H.
  injection H as <- <-. eauto.
Qed.

Lemma hex_not_nl h n : Json.hex_val h = Some n -> Ascii.eqb h "010" = false.
Proof.
  intros H. destruct (Ascii.eqb_spec h "010") as [->|]; [discriminate | reflexivity].
Qed.

Lemma hex4_not_nl h1 h2 h3 h4 n :
  Json.hex4 h1 h2 h3 h4 = Some n ->
  Ascii.eqb h1 "010" = false /\ Ascii.eqb h2 "010" = false
  /\ Ascii.eqb h3 "010" = false /\ Ascii.eqb h4 "010" = false.
Proof.
  unfold Json.hex4.
  destruct (Json.hex_val h1) eqn:H1; [|discriminate].
  destruct (Json.hex_val h2) eqn:H2; [|discriminate].
  destruct (Json.hex_val h3) eqn:H3; [|discriminate].
  destruct (Json.hex_val h4) eqn:H4; [|discriminate].
  intros _. repeat split; eapply hex_not_nl; eassumption.
Qed.

Lemma scanstring_backslash e s :
  e <> "u"%char ->
  Json.scanstring (String "\" (String e s))
  = match Json.unescape_char e with
    | Some ch => Json.cons_fst ch (Json.scanstring s)
    | None => None
    end.
Proof.
  intros He. destruct e as [[] [] [] [] [] [] [] []];
    try reflexivity. congruence.
Qed.

Lemma scanstring_strip_n : forall n s t r,
  (String.length s <= n)%nat ->
  Json.scanstring s = Some (t, r) ->
  Json.scanstring (strip s) = Some (t, strip r)
  /\ (String.length (strip r) < String.length (strip s))%nat.
Proof.
  induction n as [|n IH]; intros s t r Hn H.
  - destruct s; [discriminate | simpl in Hn; lia].
  - destruct s as [|c s]; [discriminate|].
    pose proof H as H0. cbn [Json.scanstring] in H.
    destruct (Ascii.eqb_spec c "034") as [->|Hq].
    { injection H as <- <-. rewrite strip_keep by reflexivity.
      split; [reflexivity | simpl; lia]. }
    destruct (Ascii.eqb_spec c "\") as [->|Hb].
    { rewrite (strip_keep "\") by reflexivity.
      destruct s as [|e s]; [discriminate|].
      destruct (Ascii.eqb_spec e "u") as [->|Hu].
      - destruct s as [|h1 [|h2 [|h3 [|h4 r0]]]]; try discriminate H.
        destruct (Json.hex4 h1 h2 h3 h4) as [k|] eqn:Hh; [|discriminate].
        destruct (k <=? 255)%N eqn:Hk; [|discriminate].
        apply cons_fst_some in H. destruct H as (t' & H & ->).
        apply IH in H; [|simpl in Hn; lia]. destruct H as [H Hl].
        destruct (hex4_not_nl _ _ _ _ _ Hh) as (N1 & N2 & N3 & N4).
        rewrite (strip_keep "u") by reflexivity.
        rewrite (strip_keep h1), (strip_keep h2), (strip_keep h3),
          (strip_keep h4) by assumption.
        cbn [Json.scanstring]. cbn [Ascii.eqb Bool.eqb]. cbv iota.
        rewrite Hh, Hk, H. split; [reflexivity | simpl; lia].
      - clear H. rename H0 into H. rewrite scanstring_backslash in H by exact Hu.
        destruct (Json.unescape_char e) as [ch|] eqn:He; [|discriminate].
        apply cons_fst_some in H. destruct H as (t' & H & ->).
        apply IH in H; [|simpl in Hn; lia]. destruct H as [H Hl].
        assert (Ne : Ascii.eqb e "010" = false).
        { destruct (Ascii.eqb_spec e "010") as [->|]; [discriminate | reflexivity]. }
        rewrite (strip_keep e) by exact Ne.
        rewrite scanstring_backslash by exact Hu. rewrite He, H.
        split; [reflexivity | simpl; lia]. }
    destruct (N_of_ascii c <? 32)%N eqn:Hc; [discriminate|].
    apply cons_fst_some in H. destruct H as (t' & H & ->).
    apply IH in H; [|simpl in Hn; lia]. destruct H as [H Hl].
    assert (Nc : Ascii.eqb c "010" = false).
    { destruct (Ascii.eqb_spec c "010") as [->|]; [discriminate | reflexivity]. }
    rewrite strip_keep by exact Nc. cbn [Json.scanstring].
    apply Ascii.eqb_neq in Hq, Hb. rewrite Hq, Hb, Hc, H.
    split; [reflexivity | simpl; lia].
Qed.

Lemma scanstring_strip s t r :
  Json.scanstring s = Some (t, r) ->
  Json.scanstring (strip s) = Some (t, strip r)
  /\ (String.length (strip r) < String.length (strip s))%nat.
Proof. apply (scanstring_strip_n (String.length s)). apply Nat.le_refl. Qed.

(** *** Numbers *)

Lemma digits_acc_strip : forall s acc len v len' r,
  Json.digits_acc acc len s = (v, len', r) ->
  match strip r with
  | EmptyString => True
  | String c _ => Json.digit_val c = None
  end ->
  Json.digits_acc acc len (strip s) = (v, len', strip r)
  /\ (String.length (strip s) = len' - len + String.length (strip r))%nat
  /\ (len <= len')%nat.
Proof.
  induction s as [|c s IH]; intros acc len v len' r H Hr.
  - injection H as <- <- <-. split; [reflexivity | simpl; lia].
  - cbn [Json.digits_acc] in H.
    destruct (Json.digit_val c) as [d|] eqn:Hd.
    + rewrite strip_keep by (eapply digit_not_nl; exact Hd).
      cbn [Json.digits_acc]. rewrite Hd.
      destruct (IH _ _ _ _ _ H Hr) as (E & L & M).
      split; [exact E | simpl; lia].
    + injection H as <- <- <-.
      split; [|lia].
      destruct (strip (String c s)) as [|c2 x]; [reflexivity|].
      cbn [Json.digits_acc]. rewrite Hr. reflexivity.
Qed.

Lemma digits_acc_mono : forall s acc len v len' r,
  Json.digits_acc acc len s = (v, len', r) -> (len <= len')%nat.
Proof.
  induction s as [|c s IH]; intros acc len v len' r H.
  - injection H as _ <- _. apply Nat.le_refl.
  - cbn [Json.digits_acc] in H. destruct (Json.digit_val c).
    + apply IH in H. lia.
    + injection H as _ <- _. apply Nat.le_refl.
Qed.

Lemma int_part_unfold c s :
  Json.int_part (String c s)
  = if Ascii.eqb c "0" then Some (0%N, s)
    else match Json.digit_val c with
         | Some _ => let '(v, _, r) := Json.digits (String c s) in Some (v, r)
         | None => None
         end.
Proof. destruct c as [[] [] [] [] [] [] [] []]; reflexivity. Qed.

Lemma int_part_strip s i r :
  Json.int_part s = Some (i, r) ->
  match strip r with
  | EmptyString => True
  | String c _ => Json.digit_val c = None
  end ->
  Json.int_part (strip s) = Some (i, strip r)
  /\ (String.length (strip r) < String.length (strip s))%nat.
Proof.
  destruct s as [|c s]; [discriminate|]. rewrite int_part_unfold.
  destruct (Ascii.eqb_spec c "0") as [->|H0].
  - intros H _. injection H as <- <-. rewrite strip_keep by reflexivity.
    split; [reflexivity | simpl; lia].
  - destruct (Json.digit_val c) as [d|] eqn:Hd; [|discriminate].
    unfold Json.digits.
    destruct (Json.digits_acc 0 0 (String c s)) as [[v l] r0] eqn:Hda.
    intros H Hr. injection H as <- <-.
    destruct (digits_acc_strip _ _ _ _ _ _ Hda Hr) as (E & L & _).
    assert (Hl : (1 <= l)%nat).
    { cbn [Json.digits_acc] in Hda. rewrite Hd in Hda.
      apply digits_acc_mono in Hda. exact Hda. }
    revert E L. rewrite strip_keep by (eapply digit_not_nl; exact Hd).
    intros E L. rewrite int_part_unfold.
    apply Ascii.eqb_neq in H0. rewrite H0, Hd. unfold Json.digits. rewrite E.
    split; [reflexivity | lia].
Qed.

Lemma frac_part_unfold m c s :
  Json.frac_part m (String c s)
  = if Ascii.eqb c "." then
      let '(v, len, r) := Json.digits_acc m 0 s in
      match len with
      | O => None
      | S _ => Some (v, len, r)
      end
    else None.
Proof. destruct c as [[] [] [] [] [] [] [] []]; reflexivity. Qed.

Lemma frac_part_strip m s v len r :
  Json.frac_part m s = Some (v, len, r) ->
  match strip r with
  | EmptyString => True
  | String c _ => Json.digit_val c = None
  end ->
  Json.frac_part m (strip s) = Some (v, len, strip r)
  /\ (String.length (strip r) < String.length (strip s))%nat
  /\ exists s', s = String "." s'.
Proof.
  destruct s as [|c s]; [discriminate|]. rewrite frac_part_unfold.
  destruct (Ascii.eqb_spec c ".") as [->|]; [|discriminate].
  destruct (Json.digits_acc m 0 s) as [[v0 l0] r0] eqn:Hd.
  destruct l0 as [|l0]; [discriminate|].
  intros H Hr. injection H as <- <- <-.
  destruct (digits_acc_strip _ _ _ _ _ _ Hd Hr) as (E & L & _).
  rewrite strip_keep by reflexivity. rewrite frac_part_unfold.
  cbn [Ascii.eqb Bool.eqb]. cbv iota. rewrite E.
  split; [reflexivity|]. split; [simpl; lia | eauto].
Qed.

Lemma exp_part_unfold c s :
  Json.exp_part (String c s)
  = let body (neg : bool) (s0 : string) :=
      let '(v, len, r) := Json.digits s0 in
      match len with
      | O => None
      | S _ => Some (if neg then (- Z.of_N v)%Z else Z.of_N v, r)
      end in
    if (Ascii.eqb c "e" || Ascii.eqb c "E")%bool then
      match s with
      | EmptyString => None
      | String a s' =>
          if Ascii.eqb a "-" then body true s'
          else if Ascii.eqb a "+" then body false s'
          else body false s
      end
    else None.
Proof.
  unfold Json.exp_part.
  destruct (Ascii.eqb c "e" || Ascii.eqb c "E")%bool; [|reflexivity].
  destruct s as [|a s]; [reflexivity|].
  destruct a as [[] [] [] [] [] [] [] []]; reflexivity.
Qed.

Lemma exp_part_strip s e r :
  Json.exp_part s = Some (e, r) ->
  match strip r with
  | EmptyString => True
  | String c _ => Json.digit_val c = None
  end ->
  Json.exp_part (strip s) = Some (e, strip r)
  /\ (String.length (strip r) < String.length (strip s))%nat
  /\ exists c s', s = String c s' /\ (c = "e"%char \/ c = "E"%char).
Proof.
  destruct s as [|c s]; [discriminate|]. rewrite exp_part_unfold. cbv zeta beta.
  destruct (Ascii.eqb c "e" || Ascii.eqb c "E")%bool eqn:Hc; [|discriminate].
  assert (Hce : (c = "e"%char \/ c = "E"%char)).
  { apply orb_true_iff in Hc. destruct Hc as [H|H]; apply Ascii.eqb_eq in H; auto. }
  assert (Nc : Ascii.eqb c "010" = false) by (destruct Hce; subst; reflexivity).
  rewrite (strip_keep c) by exact Nc. rewrite exp_part_unfold. cbv zeta beta.
  rewrite Hc.
  destruct s as [|a s]; [discriminate|].
  assert (Hbody : forall (neg : bool) (x : string),
    (let '(v, len, r0) := Json.digits x in
     match len with
     | O => None
     | S _ => Some (if neg then (- Z.of_N v)%Z else Z.of_N v, r0)
     end) = Some (e, r) ->
    match strip r with
    | EmptyString => True
    | String c _ => Json.digit_val c = None
    end ->
    (let '(v, len, r0) := Json.digits (strip x) in
     match len with
     | O => None
     | S _ => Some (if neg then (- Z.of_N v)%Z else Z.of_N v, r0)
     end) = Some (e, strip r)
    /\ (String.length (strip r) < String.length (strip x))%nat).
  { intros neg x. unfold Json.digits.
    destruct (Json.digits_acc 0 0 x) as [[v l] r0] eqn:Hd.
    destruct l as [|l]; [discriminate|].
    intros H Hr. injection H as <- <-.
    destruct (digits_acc_strip _ _ _ _ _ _ Hd Hr) as (E & L & _).
    rewrite E. split; [reflexivity | lia]. }
  destruct (Ascii.eqb_spec a "-") as [->|Hm].
  { intros H Hr. destruct (Hbody true _ H Hr) as [E L].
    rewrite (strip_keep "-") by reflexivity. cbn [Ascii.eqb Bool.eqb]. cbv iota.
    split; [exact E|]. split; [simpl; lia | eauto]. }
  destruct (Ascii.eqb_spec a "+") as [->|Hp].
  { intros H Hr. destruct (Hbody false _ H Hr) as [E L].
    rewrite (strip_keep "+") by reflexivity. cbn [Ascii.eqb Bool.eqb]. cbv iota.
    split; [exact E|]. split; [simpl; lia | eauto]. }
  intros H Hr.
  assert (Na : Ascii.eqb a "010" = false).
  { destruct (Ascii.eqb_spec a "010") as [->|]; [discriminate H | reflexivity]. }
  destruct (Hbody false _ H Hr) as [E L].
  revert E L. rewrite (strip_keep a) by exact Na. intros E L.
  apply Ascii.eqb_neq in Hm, Hp. rewrite Hm, Hp.
  split; [exact E|]. split; [cbn [String.length] in *; lia | eauto].
Qed.

Lemma number_unfold c s :
  Json.number (String c s)
  = let neg := Ascii.eqb c "-" in
    let s0 := if neg then s else String c s in
    match Json.int_part s0 with
    | None => None
    | Some (i, r1) =>
        match Json.frac_part i r1, Json.exp_part r1 with
        | Some (m, flen, r2), _ =>
            match Json.exp_part r2 with
            | Some (e, r3) => Some (PFloat (FFin neg m (e - Z.of_nat flen)), r3)
            | None => Some (PFloat (FFin neg m (- Z.of_nat flen)), r2)
            end
        | None, Some (e, r3) => Some (PFloat (FFin neg i e), r3)
        | None, None =>
            Some (PInt (if neg then (- Z.of_N i)%Z else Z.of_N i), r1)
        end
    end.
Proof. destruct c as [[] [] [] [] [] [] [] []]; reflexivity. Qed.

Lemma number_body_strip neg s0 v r :
  match Json.int_part s0 with
  | None => None
  | Some (i, r1) =>
      match Json.frac_part i r1, Json.exp_part r1 with
      | Some (m, flen, r2), _ =>
          match Json.exp_part r2 with
          | Some (e, r3) => Some (PFloat (FFin neg m (e - Z.of_nat flen)), r3)
          | None => Some (PFloat (FFin neg m (- Z.of_nat flen)), r2)
          end
      | None, Some (e, r3) => Some (PFloat (FFin neg i e), r3)
      | None, None =>
          Some (PInt (if neg then (- Z.of_N i)%Z else Z.of_N i), r1)
      end
  end = Some (v, r) ->
  num_end (strip r) ->
  match Json.int_part (strip s0) with
  | None => None
  | Some (i, r1) =>
      match Json.frac_part i r1, Json.exp_part r1 with
      | Some (m, flen, r2), _ =>
          match Json.exp_part r2 with
          | Some (e, r3) => Some (PFloat (FFin neg m (e - Z.of_nat flen)), r3)
          | None => Some (PFloat (FFin neg m (- Z.of_nat flen)), r2)
          end
      | None, Some (e, r3) => Some (PFloat (FFin neg i e), r3)
      | None, None =>
          Some (PInt (if neg then (- Z.of_N i)%Z else Z.of_N i), r1)
      end
  end = Some (v, strip r)
  /\ (String.length (strip r) < String.length (strip s0))%nat.
Proof.
  intros H Hend. pose proof (num_end_digit _ Hend) as Hnd.
  destruct (Json.int_part s0) as [[i r1]|] eqn:Hi; [|discriminate].
  destruct (Json.frac_part i r1) as [[[m flen] r2]|] eqn:Hf.
  - assert (Hr1 : match strip r1 with
                  | EmptyString => True
                  | String c _ => Json.digit_val c = None
                  end).
    { destruct (Json.exp_part r2) as [[e r3]|] eqn:He.
      - injection H as <- <-.
        destruct (exp_part_strip _ _ _ He Hnd) as (_ & _ & c & s' & -> & Hc).
        destruct (frac_part_strip _ _ _ _ _ Hf) as (_ & _ & s2 & ->).
        + rewrite strip_keep by (destruct Hc; subst; reflexivity).
          destruct Hc; subst; reflexivity.
        + rewrite strip_keep by reflexivity. reflexivity.
      - injection H as <- <-.
        destruct (frac_part_strip _ _ _ _ _ Hf Hnd) as (_ & _ & s2 & ->).
        rewrite strip_keep by reflexivity. reflexivity. }
    destruct (int_part_strip _ _ _ Hi Hr1) as [Ei Li]. rewrite Ei.
    destruct (Json.exp_part r2) as [[e r3]|] eqn:He.
    + injection H as <- <-.
      destruct (exp_part_strip _ _ _ He Hnd) as (Ee & Le & c & s' & Hs & Hc).
      assert (Hr2 : match strip r2 with
                    | EmptyString => True
                    | String c _ => Json.digit_val c = None
                    end).
      { rewrite Hs. rewrite strip_keep by (destruct Hc; subst; reflexivity).
        destruct Hc; subst; reflexivity. }
      destruct (frac_part_strip _ _ _ _ _ Hf Hr2) as (Ef & Lf & _).
      rewrite Ef, Ee. split; [reflexivity | lia].
    + injection H as <- <-.
      destruct (frac_part_strip _ _ _ _ _ Hf Hnd) as (Ef & Lf & _).
      rewrite Ef, (exp_part_none _ Hend). split; [reflexivity | lia].
  - destruct (Json.exp_part r1) as [[e r3]|] eqn:He.
    + injection H as <- <-.
      destruct (exp_part_strip _ _ _ He Hnd) as (Ee & Le & c & s' & Hs & Hc).
      assert (Nc : Ascii.eqb c "010" = false) by (destruct Hc; subst; reflexivity).
      assert (Hr1 : match strip r1 with
                    | EmptyString => True
                    | String c _ => Json.digit_val c = None
                    end).
      { rewrite Hs, strip_keep by exact Nc. destruct Hc; subst; reflexivity. }
      destruct (int_part_strip _ _ _ Hi Hr1) as [Ei Li]. rewrite Ei, Ee.
      assert (Ef : Json.frac_part i (strip r1) = None).
      { rewrite Hs, strip_keep by exact Nc. rewrite frac_part_unfold.
        destruct Hc; subst; reflexivity. }
      rewrite Ef. split; [reflexivity | lia].
    + injection H as <- <-.
      destruct (int_part_strip _ _ _ Hi Hnd) as [Ei Li]. rewrite Ei.
      rewrite (frac_part_none _ _ Hend), (exp_part_none _ Hend).
      split; [reflexivity | exact Li].
Qed.

Lemma int_part_head c s x :
  Json.int_part (String c s) = Some x ->
  exists d, Json.digit_val c = Some d.
Proof.
  rewrite int_part_unfold.
  destruct (Ascii.eqb_spec c "0") as [->|]; [intros _; eexists; reflexivity|].
  destruct (Json.digit_val c); [eauto | discriminate].
Qed.

Lemma number_strip s v r :
  Json.number s = Some (v, r) ->
  num_end (strip r) ->
  Json.number (strip s) = Some (v, strip r)
  /\ (String.length (strip r) < String.length (strip s))%nat
  /\ exists c s', s = String c s' /\ (c = "-"%char \/ exists d, Json.digit_val c = Some d).
Proof.
  destruct s as [|c s]; [discriminate|]. rewrite number_unfold. cbv zeta.
  destruct (Ascii.eqb_spec c "-") as [->|Hm].
  - intros H Hend. destruct (number_body_strip true _ _ _ H Hend) as [E L].
    rewrite strip_keep by reflexivity. rewrite number_unfold. cbv zeta.
    cbn [Ascii.eqb Bool.eqb]. cbv iota.
    split; [exact E|]. split; [simpl; lia|].
    exists "-"%char, s. split; [reflexivity | left; reflexivity].
  - intros H Hend.
    assert (Hd : exists d, Json.digit_val c = Some d).
    { destruct (Json.int_part (String c s)) as [x|] eqn:Hi; [|discriminate].
      eapply int_part_head. exact Hi. }
    destruct Hd as (d & Hd).
    apply Ascii.eqb_neq in Hm.
    destruct (number_body_strip false _ _ _ H Hend) as [E L].
    revert E L. rewrite strip_keep by (eapply digit_not_nl; exact Hd).
    intros E L. rewrite number_unfold. cbv zeta. rewrite Hm.
    split; [exact E|]. split; [exact L|].
    exists c, s. split; [reflexivity | right; exists d; exact Hd].
Qed.

(** *** Values *)

Lemma value_list_unfold f d s :
  Json.value (S f) (S d) (String "[" s)
  = match Json.skip_ws s with
    | EmptyString => Json.elems f d [] EmptyString
    | String c x =>
        if Ascii.eqb c "]" then Ok (PList [], x)
        else Json.elems f d [] (String c x)
    end.
Proof.
  cbn [Json.value]. destruct (Json.skip_ws s) as [|c x]; [reflexivity|].
  destruct c as [[] [] [] [] [] [] [] []]; reflexivity.
Qed.

Lemma value_dict_unfold f d s :
  Json.value (S f) (S d) (String "{" s)
  = match Json.skip_ws s with
    | EmptyString => Json.members f d [] EmptyString
    | String c x =>
        if Ascii.eqb c "}" then Ok (PDict [], x)
        else Json.members f d [] (String c x)
    end.
Proof.
  cbn [Json.value]. destruct (Json.skip_ws s) as [|c x]; [reflexivity|].
  destruct c as [[] [] [] [] [] [] [] []]; reflexivity.
Qed.

Lemma value_other f d c s :
  c <> "034"%char -> c <> "{"%char -> c <> "["%char ->
  Json.value (S f) d (String c s)
  = let s0 := String c s in
    if Str.startswith "null" s0 then Ok (PNone, Str.drop 4 s0)
    else if Str.startswith "true" s0 then Ok (PBool true, Str.drop 4 s0)
    else if Str.startswith "false" s0 then Ok (PBool false, Str.drop 5 s0)
    else
      match Json.number s0 with
      | Some r => Ok r
      | None =>
          if Str.startswith "NaN" s0
          then Ok (PFloat FNaN, Str.drop 3 s0)
          else if Str.startswith "Infinity" s0
          then Ok (PFloat (FInf false), Str.drop 8 s0)
          else if Str.startswith "-Infinity" s0
          then Ok (PFloat (FInf true), Str.drop 9 s0)
          else Raise JSONDecodeError
      end.
Proof.
  intros H1 H2 H3.
  destruct c as [[] [] [] [] [] [] [] []]; try reflexivity; congruence.
Qed.

Lemma elems_unfold f d acc s :
  Json.elems (S f) d acc s
  = match Json.value f d s with
    | Raise e => Raise e
    | Ok (v, r) =>
        match Json.skip_ws r with
        | EmptyString => Raise JSONDecodeError
        | String c r' =>
            if Ascii.eqb c "," then Json.elems f d (acc ++ [v]) (Json.skip_ws r')
            else if Ascii.eqb c "]" then Ok (PList (acc ++ [v]), r')
            else Raise JSONDecodeError
        end
    end.
Proof.
  cbn [Json.elems]. destruct (Json.value f d s) as [[v r]|e]; [|reflexivity].
  destruct (Json.skip_ws r) as [|c r']; [reflexivity|].
  destruct c as [[] [] [] [] [] [] [] []]; reflexivity.
Qed.

Lemma members_unfold f d acc c s :
  Json.members (S f) d acc (String c s)
  = if Ascii.eqb c "034" then
      match Json.scanstring s with
      | None => Raise JSONDecodeError
      | Some (k, r) =>
          match Json.skip_ws r with
          | EmptyString => Raise JSONDecodeError
          | String a r1 =>
              if Ascii.eqb a ":" then
                match Json.value f d (Json.skip_ws r1) with
                | Raise e => Raise e
                | Ok (v, r2) =>
                    match Json.skip_ws r2 with
                    | EmptyString => Raise JSONDecodeError
                    | String b r3 =>
                        if Ascii.eqb b ","
                        then Json.members f d (Json.dict_set k v acc)
                               (Json.skip_ws r3)
                        else if Ascii.eqb b "}"
                        then Ok (PDict (Json.dict_set k v acc), r3)
                        else Raise JSONDecodeError
                    end
                end
              else Raise JSONDecodeError
          end
      end
    else Raise JSONDecodeError.
Proof.
  destruct (Ascii.eqb_spec c "034") as [->|Hq].
  - cbn [Json.members].
    destruct (Json.scanstring s) as [[k r]|]; [|reflexivity].
    destruct (Json.skip_ws r) as [|a r1]; [reflexivity|].
    destruct (Ascii.eqb_spec a ":") as [->|Ha].
    + destruct (Json.value f d (Json.skip_ws r1)) as [[v r2]|e]; [|reflexivity].
      destruct (Json.skip_ws r2) as [|b r3]; [reflexivity|].
      destruct b as [[] [] [] [] [] [] [] []]; reflexivity.
    + destruct a as [[] [] [] [] [] [] [] []]; try reflexivity. congruence.
  - destruct c as [[] [] [] [] [] [] [] []]; try reflexivity. congruence.
Qed.

Lemma startswith_drop : forall pat s,
  Str.startswith pat s = true -> s = pat ++ Str.drop (String.length pat) s.
Proof.
  induction pat as [|p pat IH]; intros s H; [reflexivity|].
  destruct s as [|c s]; [discriminate|]. cbn [Str.startswith] in H.
  apply andb_true_iff in H. destruct H as [Hc Hs].
  apply Ascii.eqb_eq in Hc. subst c. cbn [String.length Str.drop append].
  f_equal. apply IH. exact Hs.
Qed.

(** A literal that holds no newline and that [value] reads whatever
    follows it. *)
Lemma literal_strip lit s0 v d :
  strip lit = lit -> lit <> "" ->
  Str.startswith lit s0 = true ->
  (forall f x, Json.value (S f) d (lit ++ x) = Ok (v, x)) ->
  let r := Str.drop (String.length lit) s0 in
  (String.length (strip r) < String.length (strip s0))%nat
  /\ forall f',
       (2 * (String.length (strip s0) - String.length (strip r)) <= S f')%nat ->
       Json.value f' d (strip s0) = Ok (v, strip r).
Proof.
  intros Hlit Hne Hsw Hval r.
  assert (Heq : strip s0 = lit ++ strip r).
  { rewrite (startswith_drop _ _ Hsw) at 1. rewrite strip_app, Hlit. reflexivity. }
  rewrite Heq, str_length_app.
  assert (Hlen : (1 <= String.length lit)%nat)
    by (destruct lit; [congruence | simpl; lia]).
  split; [lia|].
  intros [|f'] Hf; [lia|]. apply Hval.
Qed.

Lemma number_head_facts c :
  c = "-"%char \/ (exists d, Json.digit_val c = Some d) ->
  Ascii.eqb c "010" = false
  /\ c <> "034"%char /\ c <> "{"%char /\ c <> "["%char
  /\ Ascii.eqb "n" c = false /\ Ascii.eqb "t" c = false
  /\ Ascii.eqb "f" c = false.
Proof.
  intros [->|(d & Hd)]; [repeat split; (reflexivity || discriminate)|].
  destruct c as [[] [] [] [] [] [] [] []]; try discriminate Hd;
    repeat split; (reflexivity || discriminate).
Qed.

Lemma parse_strip : forall f,
  (forall d s v r,
     Json.value f d s = Ok (v, r) -> num_end (strip r) ->
     (String.length (strip r) < String.length (strip s))%nat
     /\ forall f',
          (2 * (String.length (strip s) - String.length (strip r)) <= S f')%nat ->
          Json.value f' d (strip s) = Ok (v, strip r))
  /\ (forall d acc s v r,
        Json.elems f d acc s = Ok (v, r) ->
        (String.length (strip r) < String.length (strip s))%nat
        /\ forall f',
             (2 * (String.length (strip s) - String.length (strip r)) <= f')%nat ->
             Json.elems f' d acc (strip s) = Ok (v, strip r))
  /\ (forall d acc s v r,
        Json.members f d acc s = Ok (v, r) ->
        (String.length (strip r) < String.length (strip s))%nat
        /\ forall f',
             (2 * (String.length (strip s) - String.length (strip r)) <= f')%nat ->
             Json.members f' d acc (strip s) = Ok (v, strip r)).
Proof.
  induction f as [|f (IHv & IHe & IHm)].
  { repeat split; intros; discriminate. }
  split; [|split].
  - intros d s v r H Hend.
    destruct s as [|c s]; [discriminate H|].
    destruct (Ascii.eqb_spec c "034") as [->|Hq].
    { cbn [Json.value] in H.
      destruct (Json.scanstring s) as [[t r0]|] eqn:Hs; [|discriminate].
      injection H as <- <-.
      apply scanstring_strip in Hs. destruct Hs as [Hs Hl].
      rewrite (strip_keep "034") by reflexivity.
      split; [cbn [String.length] in *; lia|].
      intros [|f'] Hf; [cbn [String.length] in *; lia|].
      cbn [Json.value]. rewrite Hs. reflexivity. }
    destruct (Ascii.eqb_spec c "[") as [->|Hl].
    { destruct d as [|d]; [discriminate H|].
      rewrite value_list_unfold in H.
      rewrite (strip_keep "[") by reflexivity.
      pose proof (skip_ws_length s) as Hws.
      destruct (Json.skip_ws s) as [|a x] eqn:Hx.
      - apply IHe in H. destruct H as [Hlt _]. cbn in Hlt; lia.
      - pose proof (skip_ws_head _ _ _ Hx) as Ha.
        apply not_ws_not_nl in Ha.
        destruct (Ascii.eqb_spec a "]") as [->|Hb].
        + injection H as <- <-.
          rewrite strip_keep in Hws by reflexivity.
          split; [cbn [String.length] in *; lia|].
          intros [|f'] Hf; [cbn [String.length] in *; lia|].
          rewrite value_list_unfold, skip_ws_strip, Hx.
          rewrite (strip_keep "]") by reflexivity. reflexivity.
        + apply IHe in H. destruct H as [Hlt He].
          rewrite strip_keep in Hws, Hlt, He by exact Ha.
          split; [cbn [String.length] in *; lia|].
          intros [|f'] Hf; [cbn [String.length] in *; lia|].
          rewrite value_list_unfold, skip_ws_strip, Hx.
          rewrite (strip_keep a) by exact Ha.
          apply Ascii.eqb_neq in Hb. rewrite Hb.
          apply He. cbn [String.length] in *; lia. }
    destruct (Ascii.eqb_spec c "{") as [->|Hc].
    { destruct d as [|d]; [discriminate H|].
      rewrite value_dict_unfold in H.
      rewrite (strip_keep "{") by reflexivity.
      pose proof (skip_ws_length s) as Hws.
      destruct (Json.skip_ws s) as [|a x] eqn:Hx.
      - apply IHm in H. destruct H as [Hlt _]. cbn in Hlt; lia.
      - pose proof (skip_ws_head _ _ _ Hx) as Ha.
        apply not_ws_not_nl in Ha.
        destruct (Ascii.eqb_spec a "}") as [->|Hb].
        + injection H as <- <-.
          rewrite strip_keep in Hws by reflexivity.
          split; [cbn [String.length] in *; lia|].
          intros [|f'] Hf; [cbn [String.length] in *; lia|].
          rewrite value_dict_unfold, skip_ws_strip, Hx.
          rewrite (strip_keep "}") by reflexivity. reflexivity.
        + apply IHm in H. destruct H as [Hlt He].
          rewrite strip_keep in Hws, Hlt, He by exact Ha.
          split; [cbn [String.length] in *; lia|].
          intros [|f'] Hf; [cbn [String.length] in *; lia|].
          rewrite value_dict_unfold, skip_ws_strip, Hx.
          rewrite (strip_keep a) by exact Ha.
          apply Ascii.eqb_neq in Hb. rewrite Hb.
          apply He. cbn [String.length] in *; lia. }
    rewrite value_other in H by assumption. cbv zeta in H.
    destruct (Str.startswith "null" (String c s)) eqn:E1.
    { injection H as <- <-.
      exact (literal_strip "null" (String c s) PNone d eq_refl ltac:(discriminate)
               E1 (fun _ _ => eq_refl)). }
    destruct (Str.startswith "true" (String c s)) eqn:E2.
    { injection H as <- <-.
      exact (literal_strip "true" (String c s) (PBool true) d eq_refl ltac:(discriminate)
               E2 (fun _ _ => eq_refl)). }
    destruct (Str.startswith "false" (String c s)) eqn:E3.
    { injection H as <- <-.
      exact (literal_strip "false" (String c s) (PBool false) d eq_refl ltac:(discriminate)
               E3 (fun _ _ => eq_refl)). }
    destruct (Json.number (String c s)) as [[v0 r0]|] eqn:Hn.
    { injection H as <- <-.
      destruct (number_strip _ _ _ Hn Hend) as (En & Ln & c0 & s' & Heq & Hc0).
      injection Heq as <- <-.
      destruct (number_head_facts c Hc0) as (Nc & _ & _ & _ & Fn & Ft & Ff).
      split; [exact Ln|].
      intros [|f'] Hf; [lia|].
      revert En. rewrite (strip_keep c) by exact Nc. intros En.
      rewrite value_other by assumption. cbv zeta.
      cbn [Str.startswith]. rewrite Fn, Ft, Ff. cbn [andb].
      rewrite En. reflexivity. }
    destruct (Str.startswith "NaN" (String c s)) eqn:E4.
    { injection H as <- <-.
      exact (literal_strip "NaN" (String c s) (PFloat FNaN) d eq_refl ltac:(discriminate)
               E4 (fun _ _ => eq_refl)). }
    destruct (Str.startswith "Infinity" (String c s)) eqn:E5.
    { injection H as <- <-.
      exact (literal_strip "Infinity" (String c s) (PFloat (FInf false)) d eq_refl ltac:(discriminate)
               E5 (fun _ _ => eq_refl)). }
    destruct (Str.startswith "-Infinity" (String c s)) eqn:E6; [|discriminate].
    injection H as <- <-.
    exact (literal_strip "-Infinity" (String c s) (PFloat (FInf true)) d eq_refl ltac:(discriminate)
               E6 (fun _ _ => eq_refl)).
  - intros d acc s v r H. rewrite elems_unfold in H.
    destruct (Json.value f d s) as [[v1 r1]|e] eqn:Hv; [|discriminate].
    destruct (Json.skip_ws r1) as [|a r2] eqn:Hr1; [discriminate|].
    pose proof (skip_ws_length r1) as W1. rewrite Hr1 in W1.
    destruct (Ascii.eqb_spec a ",") as [->|Hc].
    { apply IHe in H. destruct H as [Hlt He].
      assert (Hend1 : num_end (strip r1))
        by (eapply num_end_after; [exact Hr1 | cbn; repeat split; discriminate]).
      destruct (IHv _ _ _ _ Hv Hend1) as [Hlt1 Hv1].
      rewrite strip_keep in W1 by reflexivity.
      pose proof (skip_ws_length r2) as W2.
      split; [cbn [String.length] in *; lia|].
      intros [|f'] Hf; [cbn [String.length] in *; lia|].
      rewrite elems_unfold, Hv1 by (cbn [String.length] in *; lia).
      rewrite skip_ws_strip, Hr1, (strip_keep ",") by reflexivity.
      cbn [Ascii.eqb Bool.eqb]. cbv iota. rewrite skip_ws_strip.
      apply He. cbn [String.length] in *; lia. }
    destruct (Ascii.eqb_spec a "]") as [->|Hb]; [|discriminate].
    injection H as <- <-.
    assert (Hend1 : num_end (strip r1))
      by (eapply num_end_after; [exact Hr1 | cbn; repeat split; discriminate]).
    destruct (IHv _ _ _ _ Hv Hend1) as [Hlt1 Hv1].
    rewrite strip_keep in W1 by reflexivity.
    split; [cbn [String.length] in *; lia|].
    intros [|f'] Hf; [cbn [String.length] in *; lia|].
    rewrite elems_unfold, Hv1 by (cbn [String.length] in *; lia).
    rewrite skip_ws_strip, Hr1, (strip_keep "]") by reflexivity.
    reflexivity.
  - intros d acc s v r H.
    destruct s as [|c s]; [discriminate H|].
    rewrite members_unfold in H.
    destruct (Ascii.eqb_spec c "034") as [->|Hq]; [|discriminate].
    destruct (Json.scanstring s) as [[k r0]|] eqn:Hs; [|discriminate].
    destruct (Json.skip_ws r0) as [|a r1] eqn:Hr0; [discriminate|].
    destruct (Ascii.eqb_spec a ":") as [->|Ha]; [|discriminate].
    destruct (Json.value f d (Json.skip_ws r1)) as [[v1 r2]|e] eqn:Hv;
      [|discriminate].
    destruct (Json.skip_ws r2) as [|b r3] eqn:Hr2; [discriminate|].
    apply scanstring_strip in Hs. destruct Hs as [Hs Ls].
    pose proof (skip_ws_length r0) as W0. rewrite Hr0 in W0.
    rewrite strip_keep in W0 by reflexivity.
    pose proof (skip_ws_length r1) as W1.
    pose proof (skip_ws_length r2) as W2. rewrite Hr2 in W2.
    rewrite (strip_keep "034") by reflexivity.
    destruct (Ascii.eqb_spec b ",") as [->|Hc].
    { apply IHm in H. destruct H as [Hlt Hm].
      assert (Hend2 : num_end (strip r2))
        by (eapply num_end_after; [exact Hr2 | cbn; repeat split; discriminate]).
      destruct (IHv _ _ _ _ Hv Hend2) as [Hlt2 Hv2].
      rewrite strip_keep in W2 by reflexivity.
      pose proof (skip_ws_length r3) as W3.
      split; [cbn [String.length] in *; lia|].
      intros [|f'] Hf; [cbn [String.length] in *; lia|].
      rewrite members_unfold. cbn [Ascii.eqb Bool.eqb]. cbv iota.
      rewrite Hs, skip_ws_strip, Hr0, (strip_keep ":") by reflexivity.
      cbn [Ascii.eqb Bool.eqb]. cbv iota.
      rewrite skip_ws_strip, Hv2 by (cbn [String.length] in *; lia).
      rewrite skip_ws_strip, Hr2, (strip_keep ",") by reflexivity.
      cbn [Ascii.eqb Bool.eqb]. cbv iota. rewrite skip_ws_strip.
      apply Hm. cbn [String.length] in *; lia. }
    destruct (Ascii.eqb_spec b "}") as [->|Hb]; [|discriminate].
    injection H as <- <-.
    assert (Hend2 : num_end (strip r2))
      by (eapply num_end_after; [exact Hr2 | cbn; repeat split; discriminate]).
    destruct (IHv _ _ _ _ Hv Hend2) as [Hlt2 Hv2].
    rewrite strip_keep in W2 by reflexivity.
    split; [cbn [String.length] in *; lia|].
    intros [|f'] Hf; [cbn [String.length] in *; lia|].
    rewrite members_unfold. cbn [Ascii.eqb Bool.eqb]. cbv iota.
    rewrite Hs, skip_ws_strip, Hr0, (strip_keep ":") by reflexivity.
    cbn [Ascii.eqb Bool.eqb]. cbv iota.
    rewrite skip_ws_strip, Hv2 by (cbn [String.length] in *; lia).
    rewrite skip_ws_strip, Hr2, (strip_keep "}") by reflexivity.
    reflexivity.
Qed.

(** Removing the newlines of a text that parses leaves a text that parses
    to the same value. *)
Lemma loads_within_strip limit s v :
  Json.loads_within limit s = Ok v ->
  Json.loads_within limit (strip s) = Ok v.
Proof.
  unfold Json.loads_within. intros H.
  destruct (Json.value _ limit (Json.skip_ws s)) as [[v0 r]|e] eqn:Hv;
    [|discriminate].
  destruct (Json.skip_ws r) eqn:Hr; [|discriminate]. injection H as <-.
  destruct (parse_strip (2 * String.length s + 2)) as (Pv & _ & _).
  destruct (Pv _ _ _ _ Hv (num_end_at_end _ Hr)) as [Hlt Hval].
  rewrite skip_ws_strip, Hval.
  - rewrite skip_ws_strip, Hr. reflexivity.
  - pose proof (skip_ws_length s). lia.
Qed.

End NewlineRemoval.

(** ** The clean-up of a wrapped payload *)

Section EnvelopeCleanup.
Import ChromeStoreParser.

Lemma startswith_sentinel5_close b : forall a,
  Str.startswith sentinel5 (a ++ String "]" b) = Str.startswith sentinel5 a.
Proof.
  intros a. unfold sentinel5.
  destruct a as [|c1 [|c2 [|c3 [|c4 [|c5 a]]]]];
    cbn [append Str.startswith];
    change (Ascii.eqb "[" "]") with false;
    repeat match goal with
           | |- context [Ascii.eqb "[" ?x] =>
               is_var x; destruct (Ascii.eqb "[" x); cbn [andb]
           end; reflexivity.
Qed.

Lemma contains_sentinel5_close b : forall a,
  Str.contains sentinel5 (a ++ String "]" b)
  = Str.contains sentinel5 a || Str.contains sentinel5 b.
Proof.
  induction a as [|x a IH].
  - reflexivity.
  - change (String x a ++ String "]" b) with (String x (a ++ String "]" b)).
    rewrite (contains_unfold sentinel5 (String x _)).
    rewrite (contains_unfold sentinel5 (String x a)).
    change (String x (a ++ String "]" b)) with (String x a ++ String "]" b).
    rewrite startswith_sentinel5_close, IH. apply orb_assoc.
Qed.

Lemma contains_sentinel5_skip b :
  Str.contains sentinel5 (String "]" b) = Str.contains sentinel5 b.
Proof. exact (contains_sentinel5_close b ""). Qed.

Lemma contains_short pat : forall s,
  (String.length s < String.length pat)%nat -> Str.contains pat s = false.
Proof.
  assert (Hsw : forall p s, (String.length s < String.length p)%nat ->
                            Str.startswith p s = false).
  { induction p as [|a p IHp]; intros s H; [simpl in H; lia|].
    destruct s as [|c s]; [reflexivity|]. cbn [Str.startswith].
    rewrite IHp by (simpl in H; lia). apply andb_false_r. }
  induction s as [|c s IH]; intros H.
  - cbn [Str.contains]. rewrite Hsw by exact H. reflexivity.
  - cbn [Str.contains]. rewrite Hsw by exact H.
    rewrite IH by (simpl in H; lia). reflexivity.
Qed.

Lemma take_length_le n : forall s, (String.length (Str.take n s) <= n)%nat.
Proof.
  induction n as [|n IH]; intros s; [apply Nat.le_refl|].
  destruct s as [|c s]; simpl; [lia|]. specialize (IH s). lia.
Qed.

(** Up to the first place where [pat] can start, the head of the split
    is the text itself. *)
Lemma split_skip_head_app pat b : forall a,
  Str.contains pat (a ++ Str.take (String.length pat - 1) b) = false ->
  fst (Str.split_skip pat 0 (a ++ b)) = a ++ fst (Str.split_skip pat 0 b).
Proof.
  induction a as [|c a IH]; intros H; [reflexivity|].
  change (Str.contains pat (String c (a ++ Str.take (String.length pat - 1) b)) = false) in H.
  cbn [Str.contains] in H. apply orb_false_iff in H. destruct H as [Hs Hc].
  change (String c a ++ b) with (String c (a ++ b)).
  cbn [Str.split_skip].
  assert (Hsw : Str.startswith pat (String c (a ++ b)) = false).
  { rewrite <- Hs.
    rewrite <- (take_drop (String.length pat - 1) b) at 1.
    rewrite <- str_app_assoc.
    destruct (Nat.le_gt_cases (String.length pat - 1) (String.length b)) as [Hle|Hgt].
    - change (String c ((a ++ Str.take (String.length pat - 1) b)
                          ++ Str.drop (String.length pat - 1) b))
        with (String c (a ++ Str.take (String.length pat - 1) b)
                ++ Str.drop (String.length pat - 1) b).
      apply startswith_app_long. simpl. rewrite str_length_app.
      rewrite take_length by exact Hle. lia.
    - assert (Hd : Str.drop (String.length pat - 1) b = "").
      { clear - Hgt. revert Hgt. generalize (String.length pat - 1)%nat.
        induction b as [|x b IHb]; intros n Hn; [destruct n; reflexivity|].
        destruct n as [|n]; [simpl in Hn; lia|]. simpl. apply IHb.
        simpl in Hn. lia. }
      rewrite Hd, str_app_nil_r. reflexivity. }
  rewrite Hsw. specialize (IH Hc).
  destruct (Str.split_skip pat 0 (a ++ b)) as [h t].
  cbn [fst] in *. cbn [append]. f_equal. exact IH.
Qed.

Lemma cleanup_wrap pre body post :
  Str.contains sentinel5 (pre ++ "[[[[") = false ->
  Str.contains sentinel5 (Envelope.escape body) = false ->
  Str.contains sentinel6 (sentinel5 ++ Envelope.escape body ++ "]]]]]") = false ->
  cleanup (Envelope.wrap pre body post)
  = Ok (sentinel5 ++ Str.replace nl "" body ++ "]]]]").
Proof.
  intros H1 H2 H3. unfold cleanup, Envelope.wrap.
  unfold Str.split at 1.
  rewrite (split_skip_first sentinel5) by (discriminate || exact H1).
  unfold Str.split at 1.
  assert (Hh : fst (Str.split_skip sentinel5 0
                      (Envelope.escape body ++ sentinel6 ++ post))
               = (Envelope.escape body ++ sentinel6)
                   ++ fst (Str.split_skip sentinel5 0 post)).
  { rewrite <- str_app_assoc. apply split_skip_head_app.
    rewrite str_app_assoc. unfold sentinel6.
    change (Envelope.escape body ++ "]]]]]]" ++ Str.take (String.length sentinel5 - 1) post)
      with (Envelope.escape body
              ++ String "]" ("]]]]]" ++ Str.take (String.length sentinel5 - 1) post)).
    rewrite contains_sentinel5_close, H2. cbn [orb append].
    rewrite !contains_sentinel5_skip.
    apply contains_short.
    pose proof (take_length_le (String.length sentinel5 - 1) post) as Hle.
    simpl in *. lia. }
  destruct (Str.split_skip sentinel5 0 (Envelope.escape body ++ sentinel6 ++ post))
    as [h t].
  cbn [fst] in Hh. subst h.
  set (post' := fst (Str.split_skip sentinel5 0 post)).
  cbn [Str.index nth_error bind].
  rewrite (str_app_assoc (Envelope.escape body)).
  rewrite <- (str_app_assoc sentinel5 (Envelope.escape body)).
  unfold Str.split at 1.
  rewrite (split_skip_first sentinel6)
    by (discriminate || (rewrite str_app_assoc; exact H3)).
  cbn [Str.index nth_error bind].
  replace ((sentinel5 ++ Envelope.escape body) ++ sentinel6)
    with (Envelope.escape (sentinel5 ++ body ++ sentinel6))
    by (rewrite !escape_app, str_app_assoc; reflexivity).
  rewrite replace_backslashes, replace_quotes.
  rewrite !strip_app.
  f_equal.
  change (Str.replace nl "" sentinel5) with sentinel5.
  change (Str.replace nl "" sentinel6) with ("]]]]" ++ "]]").
  rewrite <- !str_app_assoc.
  apply (drop_last_app _ "]]").
Qed.

End EnvelopeCleanup.

(** C4, as the code has it: a payload [[[[[ body ]]]] that parses
    round-trips when it is wrapped as: any prefix, the opening sentinel,
    the escaped [body], the closing sentinel, any suffix, each sentinel
    first occurring where the wrapping puts it.  The clean-up gives back
    the payload without its newlines, which changes nothing in what it
    parses to; no comma is involved.  The body holds no run of more than
    4300 digits, the longest integer literal the decoder converts. *)
Theorem wrapped_payload_round_trips (pre body post : string) (rows : pyval) :
  Str.contains ChromeStoreParser.sentinel5 (pre ++ "[[[[") = false ->
  Str.contains ChromeStoreParser.sentinel5 (Envelope.escape body) = false ->
  Str.contains ChromeStoreParser.sentinel6
    (ChromeStoreParser.sentinel5 ++ Envelope.escape body ++ "]]]]]") = false ->
  Json.digit_runs_within 4300 0 body = true ->
  Envelope.rows_of_payload (ChromeStoreParser.sentinel5 ++ body ++ "]]]]")
  = Ok rows ->
  ChromeStoreParser.cleanup (Envelope.wrap pre body post)
  = Ok (ChromeStoreParser.sentinel5
          ++ Str.replace ChromeStoreParser.nl "" body ++ "]]]]")
  /\ ChromeStoreParser.fix_json_response (Envelope.wrap pre body post)
     = Ok rows.
Proof.
  intros H1 H2 H3 _ Hrows.
  pose proof (cleanup_wrap pre body post H1 H2 H3) as Hc.
  split; [exact Hc|].
  unfold ChromeStoreParser.fix_json_response,
    ChromeStoreParser.fix_json_response_body.
  unfold Envelope.wrap at 1. rewrite contains_app_intro. cbn [negb].
  rewrite Hc. cbn [bind].
  unfold Envelope.rows_of_payload in Hrows.
  destruct (Json.loads (ChromeStoreParser.sentinel5 ++ body ++ "]]]]"))
    as [parsed|] eqn:Hl; [|discriminate].
  apply loads_within_strip in Hl. rewrite !strip_app in Hl.
  change (Str.replace ChromeStoreParser.nl "" ChromeStoreParser.sentinel5)
    with ChromeStoreParser.sentinel5 in Hl.
  change (Str.replace ChromeStoreParser.nl "" "]]]]") with "]]]]" in Hl.
  unfold Json.loads. rewrite Hl.
  cbn [bind] in *.
  destruct (Py.getitem parsed 0) as [first|]; [|discriminate]. cbn [bind] in *.
  rewrite Hrows. reflexivity.
Qed.

Lemma wrapped_payload_round_trips_witness :
  ChromeStoreParser.cleanup
    (Envelope.wrap EnvelopeFixture.pre EnvelopeFixture.body EnvelopeFixture.post)
  = Ok (Py.qq "[[[[['a', 'b'],0]]]]")
  /\ ChromeStoreParser.fix_json_response
       (Envelope.wrap EnvelopeFixture.pre EnvelopeFixture.body
          EnvelopeFixture.post)
     = Ok (PList [PList [PList [PStr "a"; PStr "b"]; PInt 0]]).
Proof.
  apply (wrapped_payload_round_trips EnvelopeFixture.pre EnvelopeFixture.body
           EnvelopeFixture.post);
    vm_compute; reflexivity.
Defined.

(** C4 as stated fails: the payload [[[[["a"]]]]], whose rows are
    [[["a"]]] when it is parsed directly, is refused when it is
    double-escaped, whether it is left bare, followed by a comma, put
    between the two sentinels, or embedded as a string of an outer array. *)
Lemma double_escaped_payload_is_refused :
  Envelope.rows_of_payload Envelope.payload_a
  = Ok (PList [PList [PList [PStr "a"]]])
  /\ ChromeStoreParser.fix_json_response (Envelope.escape Envelope.payload_a)
     = Raise ValueError
  /\ ChromeStoreParser.fix_json_response
       (Envelope.escape Envelope.payload_a ++ ",") = Raise ValueError
  /\ ChromeStoreParser.fix_json_response
       (ChromeStoreParser.sentinel5 ++ Envelope.escape Envelope.payload_a
          ++ ChromeStoreParser.sentinel6) = Raise ValueError
  /\ ChromeStoreParser.fix_json_response
       (Py.qq "[['wrb.fr','zTyKYc','" ++ Envelope.escape Envelope.payload_a
          ++ Py.qq "',null]]") = Raise ValueError.
Proof. repeat split; vm_compute; reflexivity. Qed.

(** ** The statements above at concrete inputs *)

Lemma extensions_have_id_and_name_witness :
  (id CrawlFixture.extension_a <> "" /\ name CrawlFixture.extension_a <> "")
  /\ ChromeStoreParser.parse_extension_data
       (PList [PStr ""; PNone; PStr "B"]) = None
  /\ Forall has_id_and_name [CrawlFixture.extension_a].
Proof.
  destruct extensions_have_id_and_name as (Hsome & Hnone & Hcrawl).
  split; [|split].
  - apply (Hsome (PList (PStr "a" :: PNone :: PStr "B" :: repeat PNone 16))).
    vm_compute. reflexivity.
  - apply Hnone. left. reflexivity.
  - apply (Hcrawl CrawlFixture.E CrawlFixture.client "x" (Some 32%Z) 1%Z world0
             [CrawlFixture.extension_a]
             (snd (ChromeWebStoreScraper.search_by_category CrawlFixture.E
                     CrawlFixture.client "x" (Some 32%Z) 1 world0))).
    vm_compute. reflexivity.
Defined.

Lemma fix_json_response_errors_witness :
  ChromeStoreParser.fix_json_response "<html>error</html>" = Raise ValueError
  /\ ChromeStoreParser.fix_json_response "[[[[[1,]]]]]]" = Raise ValueError
  /\ ChromeStoreParser.fix_json_response DeepFixture.response
     = Raise RecursionError
  /\ ChromeStoreParser.cleanup "[[[[[1]"
     = Ok (Str.drop_last 2
             (unescape (ChromeStoreParser.sentinel5 ++ "1]"
                          ++ ChromeStoreParser.sentinel6))).
Proof.
  destruct fix_json_response_errors as (Hno & Hjson & Hdeep & Hopen).
  split; [|split; [|split]].
  - apply Hno. reflexivity.
  - apply (Hjson "[[[[[1,]]]]]]" "[[[[[1,]]]]"); reflexivity.
  - apply (Hdeep DeepFixture.response DeepFixture.step6);
      vm_compute; reflexivity.
  - apply Hopen; reflexivity.
Defined.

(** * Further properties of the code *)

(** ** [make_request_with_retry]: first success and total back-off *)

Section RetryMore.
Import ChromeWebStoreAPIClient.
Variable E : env.
Variable self : ChromeWebStoreAPIClient.t.
Variable data : string.

Lemma retry_loop_first_success : forall k remaining attempt w text,
  (k < remaining)%nat ->
  Z.of_nat (attempt + remaining) = max_retries self ->
  (forall i, (i < k)%nat ->
     exists m, server E (posts w + i) data = Raise (RequestException m)) ->
  server E (posts w + k) data = Ok text ->
  exists new,
    retry_loop E self data remaining attempt w
    = (Ok text, mkWorld (posts w + S k) (draws w + k) (trace w ++ new))
    /\ count_posts new = S k
    /\ TraceSum.count_sleeps new = k.
Proof.
  induction k as [|k IH]; intros remaining attempt w text Hk Hn Hfail Hok.
  - destruct remaining as [|r]; [lia|]. cbn [retry_loop].
    unfold post. rewrite Nat.add_0_r in Hok. rewrite Hok.
    exists [EPost data]. rewrite Nat.add_0_r, Nat.add_1_r.
    repeat split.
  - destruct remaining as [|r]; [lia|]. cbn [retry_loop].
    unfold post. destruct (Hfail O ltac:(lia)) as (m & Hm).
    rewrite Nat.add_0_r in Hm. rewrite Hm.
    assert (Hc : (Z.of_nat attempt <? max_retries self - 1)%Z = true)
      by (apply Z.ltb_lt; lia).
    rewrite Hc. cbn [uniform posts draws trace].
    set (wt := inject_Z (2 ^ Z.of_nat attempt) + (0 + (1 - 0) * rand E (draws w))).
    set (w3 := sleep wt _).
    destruct (IH r (S attempt) w3 text) as (new & Hrun & Hp & Hs).
    + lia.
    + lia.
    + intros i Hi. destruct (Hfail (S i) ltac:(lia)) as (m' & Hm').
      exists m'. rewrite <- Hm'. f_equal. unfold w3. simpl. lia.
    + rewrite <- Hok. f_equal. unfold w3. simpl. lia.
    + exists (EPost data :: ESleep wt :: new). rewrite Hrun. split; [|split].
      * f_equal. unfold w3. cbn [sleep posts draws trace].
        f_equal; [lia | lia | rewrite <- !app_assoc; reflexivity].
      * unfold count_posts in *. simpl. lia.
      * unfold TraceSum.count_sleeps in *. simpl. lia.
Qed.

Lemma pow2_succ (n : nat) :
  (2 ^ Z.of_nat (S n) = 2 * 2 ^ Z.of_nat n)%Z.
Proof. rewrite Nat2Z.inj_succ, Z.pow_succ_r by lia. reflexivity. Qed.

Lemma retry_loop_backoff :
  (forall i, 0 <= rand E i /\ rand E i < 1) ->
  forall remaining attempt w,
  (max_retries self <= Z.of_nat (attempt + remaining))%Z ->
  exists new,
    trace (snd (retry_loop E self data remaining attempt w))
    = (trace w ++ new)%list
    /\ (TraceSum.count_sleeps new <= remaining - 1)%nat
    /\ TraceSum.total_sleep new
       <= inject_Z (2 ^ Z.of_nat (attempt + TraceSum.count_sleeps new)
                    - 2 ^ Z.of_nat attempt)
          + inject_Z (Z.of_nat (TraceSum.count_sleeps new)).
Proof.
  intros Hrand. induction remaining as [|r IH]; intros attempt w Hn.
  - exists []. cbn [retry_loop snd]. rewrite app_nil_r.
    split; [reflexivity|]. split; [unfold TraceSum.count_sleeps; simpl; lia|].
    cbn [TraceSum.count_sleeps filter List.length TraceSum.total_sleep].
    rewrite Nat.add_0_r, Z.sub_diag. discriminate.
  - cbn [retry_loop]. unfold post.
    assert (Hbase : exists new,
      (trace w ++ [EPost data])%list = (trace w ++ new)%list
      /\ (TraceSum.count_sleeps new <= S r - 1)%nat
      /\ TraceSum.total_sleep new
         <= inject_Z (2 ^ Z.of_nat (attempt + TraceSum.count_sleeps new)
                      - 2 ^ Z.of_nat attempt)
            + inject_Z (Z.of_nat (TraceSum.count_sleeps new))).
    { exists [EPost data]. split; [reflexivity|]. split; [unfold TraceSum.count_sleeps; simpl; lia|].
      cbn [TraceSum.count_sleeps filter TraceSum.is_sleep List.length
           TraceSum.total_sleep].
      rewrite Nat.add_0_r, Z.sub_diag. discriminate. }
    destruct (server E (posts w) data) as [text|e]; [exact Hbase|].
    destruct e; try exact Hbase.
    destruct (Z.of_nat attempt <? max_retries self - 1)%Z eqn:Hc;
      [|exact Hbase].
    apply Z.ltb_lt in Hc. cbn [uniform posts draws trace].
    set (wt := inject_Z (2 ^ Z.of_nat attempt) + (0 + (1 - 0) * rand E (draws w))).
    set (w3 := sleep wt _).
    destruct (IH (S attempt) w3 ltac:(lia)) as (new & Ht & Hs & Hb).
    exists (EPost data :: ESleep wt :: new). split; [|split].
    + rewrite Ht. unfold w3. cbn [sleep trace].
      rewrite <- !app_assoc. reflexivity.
    + unfold TraceSum.count_sleeps in *. simpl. lia.
    + assert (Hcnt : TraceSum.count_sleeps (EPost data :: ESleep wt :: new)
                     = S (TraceSum.count_sleeps new)) by reflexivity.
      rewrite Hcnt. cbn [TraceSum.total_sleep].
      set (m := TraceSum.count_sleeps new) in *.
      destruct (Hrand (draws w)) as [_ Hj].
      assert (Hwt : wt <= inject_Z (2 ^ Z.of_nat attempt) + 1).
      { unfold wt. apply Qplus_le_r. apply Qlt_le_weak.
        setoid_replace (0 + (1 - 0) * rand E (draws w)) with (rand E (draws w))
          by ring. exact Hj. }
      eapply Qle_trans; [apply Qplus_le_compat; [exact Hwt | exact Hb]|].
      assert (HZ : (2 ^ Z.of_nat attempt + 1
                    + ((2 ^ Z.of_nat (S attempt + m) - 2 ^ Z.of_nat (S attempt))
                       + Z.of_nat m)
                    = (2 ^ Z.of_nat (attempt + S m) - 2 ^ Z.of_nat attempt)
                      + Z.of_nat (S m))%Z).
      { replace (attempt + S m)%nat with (S attempt + m)%nat by lia.
        rewrite (pow2_succ attempt). lia. }
      apply Qle_lteq. right.
      change 1 with (inject_Z 1). rewrite <- !inject_Z_plus. rewrite HZ.
      reflexivity.
Qed.

End RetryMore.

(** X1: When attempts [0 .. k-1] fail with a [RequestException] and attempt
    [k], within the budget, succeeds, [make_request_with_retry] returns
    that response after exactly [k + 1] requests and [k] sleeps. *)
Theorem retry_returns_first_success
  (E : env) (self : ChromeWebStoreAPIClient.t) (data : string) (w : world)
  (k : nat) (text : string) :
  (Z.of_nat k < ChromeWebStoreAPIClient.max_retries self)%Z ->
  (forall i, (i < k)%nat ->
     exists m, server E (posts w + i) data = Raise (RequestException m)) ->
  server E (posts w + k) data = Ok text ->
  let res := ChromeWebStoreAPIClient.make_request_with_retry E self data w in
  fst res = Ok text
  /\ posts (snd res) = (posts w + S k)%nat
  /\ count_posts (Trace.new_events w (snd res)) = S k
  /\ TraceSum.count_sleeps (Trace.new_events w (snd res)) = k.
Proof.
  intros Hk Hfail Hok res.
  destruct (retry_loop_first_success E self data k
              (Z.to_nat (ChromeWebStoreAPIClient.max_retries self)) 0 w text)
    as (new & Hrun & Hp & Hs); [lia | simpl; lia | exact Hfail | exact Hok |].
  unfold res, ChromeWebStoreAPIClient.make_request_with_retry. rewrite Hrun.
  cbn [fst snd posts].
  rewrite (new_events_app w _ new) by reflexivity. auto.
Qed.

Lemma retry_returns_first_success_witness :
  let res := ChromeWebStoreAPIClient.make_request_with_retry
               RetryFixture.E (TestEnv.client 3) "f.req=x" world0 in
  fst res = Ok "page"
  /\ posts (snd res) = (posts world0 + 3)%nat
  /\ count_posts (Trace.new_events world0 (snd res)) = 3%nat
  /\ TraceSum.count_sleeps (Trace.new_events world0 (snd res)) = 2%nat.
Proof.
  apply (retry_returns_first_success RetryFixture.E (TestEnv.client 3)
           "f.req=x" world0 2 "page").
  - simpl. lia.
  - intros i Hi. exists "503".
    destruct i as [|[|i]]; [reflexivity | reflexivity | lia].
  - reflexivity.
Defined.

(** X2: The seconds [make_request_with_retry] sleeps in one call are bounded by
    the attempt budget [n] alone: at most [n - 1] sleeps, of at most
    [2^(n-1) - 1 + (n - 1)] seconds in total (5 for the default of 3). *)
Theorem retry_total_backoff_bounded
  (E : env) (self : ChromeWebStoreAPIClient.t) (data : string) (w : world) :
  (forall i, 0 <= rand E i /\ rand E i < 1) ->
  let n := Z.to_nat (ChromeWebStoreAPIClient.max_retries self) in
  let new := Trace.new_events w
               (snd (ChromeWebStoreAPIClient.make_request_with_retry E self data w)) in
  (TraceSum.count_sleeps new <= n - 1)%nat
  /\ TraceSum.total_sleep new
     <= inject_Z (2 ^ Z.of_nat (n - 1) - 1 + Z.of_nat (n - 1)).
Proof.
  intros Hrand n new.
  destruct (retry_loop_backoff E self data Hrand n 0 w) as (nw & Ht & Hs & Hb);
    [unfold n; simpl; lia|].
  assert (Hnew : new = nw) by (apply new_events_app; exact Ht).
  rewrite Hnew. split; [exact Hs|].
  eapply Qle_trans; [exact Hb|].
  rewrite <- inject_Z_plus. rewrite <- Zle_Qle.
  cbn [Nat.add]. change (2 ^ Z.of_nat 0)%Z with 1%Z.
  assert (Hpow : (2 ^ Z.of_nat (TraceSum.count_sleeps nw)
                  <= 2 ^ Z.of_nat (n - 1))%Z)
    by (apply Z.pow_le_mono_r; lia).
  lia.
Qed.

Lemma retry_total_backoff_bounded_witness :
  let new := Trace.new_events world0
               (snd (ChromeWebStoreAPIClient.make_request_with_retry
                       TestEnv.failing (TestEnv.client 3) "f.req=x" world0)) in
  (TraceSum.count_sleeps new <= 3 - 1)%nat
  /\ TraceSum.total_sleep new <= inject_Z (2 ^ Z.of_nat (3 - 1) - 1 + Z.of_nat (3 - 1)).
Proof.
  apply (retry_total_backoff_bounded TestEnv.failing (TestEnv.client 3)
           "f.req=x" world0).
  intros i. simpl. split; [discriminate | reflexivity].
Defined.



(** ** [search_by_category]: how many requests a crawl can send *)

Section CrawlBound.
Import ChromeWebStoreAPIClient ChromeWebStoreScraper.
Variable E : env.
Variable api_client : ChromeWebStoreAPIClient.t.

Lemma count_posts_app (a b : list event) :
  count_posts (a ++ b) = (count_posts a + count_posts b)%nat.
Proof. unfold count_posts. rewrite filter_app, length_app. reflexivity. Qed.

Lemma make_request_trace data w :
  exists new,
    trace (snd (make_request_with_retry E api_client data w))
    = (trace w ++ new)%list
    /\ (count_posts new <= Z.to_nat (max_retries api_client))%nat.
Proof.
  destruct (retry_loop_trace E api_client data
              (Z.to_nat (max_retries api_client)) 0 w)
    as (new & Ht & _ & Hc & _).
  exists new. split; assumption.
Qed.

Lemma process_page_trace max_pages pc text all w c all' w' :
  process_page E api_client max_pages pc text all w = (c, all', w') ->
  exists new, trace w' = (trace w ++ new)%list /\ count_posts new = O.
Proof.
  unfold process_page. intros H.
  assert (Hsame : exists new, trace w = (trace w ++ new)%list /\ count_posts new = O)
    by (exists []; rewrite app_nil_r; split; reflexivity).
  destruct (parse_page text) as [[page|]|];
    try (injection H as _ _ <-; exact Hsame).
  destruct (ChromeStoreParser.extract_pagination_token text) as [tok|];
    [|injection H as _ _ <-; exact Hsame].
  destruct (Str.eqb_empty tok); [injection H as _ _ <-; exact Hsame|].
  destruct (Z.of_nat pc <? max_pages)%Z;
    [|injection H as _ _ <-; exact Hsame].
  unfold add_delay, uniform, sleep in H.
  destruct (Qle_bool 0 _); injection H as _ _ <-; cbn [trace];
    [eexists; split; reflexivity | exact Hsame].
Qed.

Lemma page_loop_trace : forall fuel category rpp max_pages all tok pc w,
  exists new,
    trace (snd (page_loop E api_client fuel category rpp max_pages all tok pc w))
    = (trace w ++ new)%list
    /\ (count_posts new <= fuel * Z.to_nat (max_retries api_client))%nat.
Proof.
  induction fuel as [|fuel IH]; intros category rpp max_pages all tok pc w.
  - exists []. cbn [page_loop snd]. rewrite app_nil_r. split; [reflexivity|].
    unfold count_posts. simpl. lia.
  - cbn [page_loop].
    destruct (Z.of_nat pc <? max_pages)%Z.
    2:{ exists []. cbn [snd]. rewrite app_nil_r. split; [reflexivity|].
        unfold count_posts. simpl. lia. }
    destruct (make_request_trace (build_request_data category rpp tok) w)
      as (n1 & Ht1 & Hc1).
    destruct (make_request_with_retry E api_client _ w) as [[text|e] w1];
      cbn [snd] in Ht1.
    2:{ exists n1. cbn [snd]. split; [exact Ht1 | lia]. }
    destruct (process_page E api_client max_pages (S pc) text all w1)
      as [[c all'] w2] eqn:Hp.
    destruct (process_page_trace _ _ _ _ _ _ _ _ Hp) as (n2 & Ht2 & Hc2).
    destruct c.
    + exists (n1 ++ n2)%list. cbn [snd]. split.
      * rewrite Ht2, Ht1, app_assoc. reflexivity.
      * rewrite count_posts_app. lia.
    + destruct (IH category rpp max_pages all' (Some page_token) (S pc) w2)
        as (n3 & Ht3 & Hc3).
      exists (n1 ++ n2 ++ n3)%list. split.
      * rewrite Ht3, Ht2, Ht1, <- !app_assoc. reflexivity.
      * rewrite !count_posts_app. lia.
Qed.

End CrawlBound.

(** X4: A crawl sends at most [max_pages * max_retries] requests, whatever the
    endpoint answers; none at all when either bound is zero or negative. *)
Theorem crawl_requests_bounded
  (E : env) (api_client : ChromeWebStoreAPIClient.t) (category : string)
  (results_per_page : option Z) (max_pages : Z) (w : world) :
  (count_posts
     (Trace.new_events w
        (snd (ChromeWebStoreScraper.search_by_category E api_client category
                results_per_page max_pages w)))
   <= Z.to_nat max_pages
      * Z.to_nat (ChromeWebStoreAPIClient.max_retries api_client))%nat.
Proof.
  unfold ChromeWebStoreScraper.search_by_category.
  destruct (page_loop_trace E api_client (Z.to_nat max_pages) category
              results_per_page max_pages [] None 0 w) as (new & Ht & Hc).
  rewrite (new_events_app _ _ new Ht). exact Hc.
Qed.

(** ** [search_by_category]: decoding the rows of a page *)

Section PageRows.
Import ChromeWebStoreAPIClient ChromeWebStoreScraper.
Variable E : env.
Variable api_client : ChromeWebStoreAPIClient.t.

Lemma convert_items_lists : forall items acc,
  Forall (fun item => Py.is_list item = true) items ->
  convert_items items acc
  = Ok (acc ++ List.flat_map decoded_of_item items)%list.
Proof.
  induction items as [|item rest IH]; intros acc Hall.
  - simpl. rewrite app_nil_r. reflexivity.
  - inversion Hall as [|? ? Hitem Hrest]; subst.
    destruct item as [| | | | |l|]; try discriminate.
    cbn [convert_items Py.len bind flat_map].
    destruct l as [|x l].
    + cbn [List.length Nat.ltb Nat.leb decoded_of_item].
      rewrite (IH acc Hrest). reflexivity.
    + cbn [List.length Nat.ltb Nat.leb Py.getitem Str.index nth_error bind
           decoded_of_item].
      destruct (ChromeStoreParser.parse_extension_data x) as [e|].
      * rewrite (IH _ Hrest), <- app_assoc. reflexivity.
      * rewrite (IH _ Hrest). reflexivity.
Qed.

Lemma convert_items_unsized : forall items acc bad e,
  In bad items -> Py.len bad = Raise e ->
  exists e', convert_items items acc = Raise e'.
Proof.
  induction items as [|item rest IH]; intros acc bad e Hin Hbad; [destruct Hin|].
  cbn [convert_items].
  destruct Hin as [<-|Hin].
  - rewrite Hbad. simpl. eauto.
  - destruct (Py.len item) as [n|e1]; [|simpl; eauto]. cbn [bind].
    destruct (0 <? n)%nat; [|eapply IH; eassumption].
    destruct (Py.getitem item 0) as [x|e2]; [|simpl; eauto]. cbn [bind].
    destruct (ChromeStoreParser.parse_extension_data x);
      eapply IH; eassumption.
Qed.

End PageRows.

(** X5: The rows of a page are decoded one by one, in the order received:
    when the extracted rows are a non-empty list of lists, the page's
    extensions are the decodings of the rows' first elements, rows that do
    not decode being skipped and nothing being merged or reordered. *)
Theorem page_rows_decode_in_order (text : string) (items : list pyval) :
  ChromeStoreParser.fix_json_response text = Ok (PList items) ->
  items <> [] ->
  Forall (fun item => Py.is_list item = true) items ->
  ChromeWebStoreScraper.parse_page text
  = Ok (Some (List.flat_map decoded_of_item items)).
Proof.
  intros Hfix Hne Hall. unfold ChromeWebStoreScraper.parse_page.
  rewrite Hfix. cbn [bind Py.len Py.truthy Py.items].
  destruct items as [|i0 rest]; [congruence|]. cbn [negb].
  rewrite (convert_items_lists (i0 :: rest) [] Hall). reflexivity.
Qed.

Lemma page_rows_decode_in_order_witness :
  ChromeWebStoreScraper.parse_page CrawlFixture.page1
  = Ok (Some (List.flat_map decoded_of_item
                [PList [PList (PStr "a" :: PNone :: PStr "B" :: repeat PNone 16);
                        PInt 0]])).
Proof.
  apply page_rows_decode_in_order.
  - vm_compute. reflexivity.
  - discriminate.
  - repeat constructor.
Defined.

(** X6: One row that has no length (a number, a boolean or null in place of
    the row's list) makes the whole page contribute nothing, its valid
    rows included, and ends the crawl: the accumulated list and the world
    are left as they were. *)
Theorem unsized_row_discards_page
  (E : env) (api_client : ChromeWebStoreAPIClient.t) (max_pages : Z)
  (page_count : nat) (text : string) (items : list pyval) (bad : pyval)
  (e : exn) (all_extensions : list ChromeExtension) (w : world) :
  ChromeStoreParser.fix_json_response text = Ok (PList items) ->
  In bad items ->
  Py.len bad = Raise e ->
  ChromeWebStoreScraper.process_page E api_client max_pages page_count text
    all_extensions w
  = (ChromeWebStoreScraper.Break, all_extensions, w).
Proof.
  intros Hfix Hin Hbad.
  unfold ChromeWebStoreScraper.process_page, ChromeWebStoreScraper.parse_page.
  rewrite Hfix. cbn [bind Py.len Py.truthy Py.items].
  destruct items as [|i0 rest]; [destruct Hin|]. cbn [negb].
  destruct (convert_items_unsized (i0 :: rest) [] bad e Hin Hbad) as (e' & ->).
  reflexivity.
Qed.

Lemma unsized_row_discards_page_witness :
  ChromeWebStoreScraper.process_page CrawlFixture.E CrawlFixture.client 5 1
    PageFixture.page_with_number [CrawlFixture.extension_a] world0
  = (ChromeWebStoreScraper.Break, [CrawlFixture.extension_a], world0).
Proof.
  apply (unsized_row_discards_page CrawlFixture.E CrawlFixture.client 5 1
           PageFixture.page_with_number
           [PList [PList (PStr "a" :: PNone :: PStr "B" :: repeat PNone 16);
                   PInt 0]; PInt 7]
           (PInt 7) TypeError).
  - vm_compute. reflexivity.
  - right. left. reflexivity.
  - reflexivity.
Defined.

(** ** [extract_pagination_token]: what the token is *)

Section Token.
Import ChromeStoreParser.

Lemma split_char_head c : forall s h t,
  Str.split_skip (String c "") 0 s = (h, t) -> Py.has_char c h = false.
Proof.
  induction s as [|x s IH]; intros h t H.
  - injection H as <- <-. reflexivity.
  - cbn [Str.split_skip] in H. rewrite startswith1 in H.
    destruct (Ascii.eqb c x) eqn:Hcx.
    + cbn [String.length Nat.sub] in H.
      destruct (Str.split_skip (String c "") 0 s). injection H as <- <-.
      reflexivity.
    + destruct (Str.split_skip (String c "") 0 s) as [h' t'] eqn:Hs.
      injection H as <- <-. cbn [Py.has_char].
      rewrite Ascii.eqb_sym, Hcx. exact (IH _ _ eq_refl).
Qed.

Lemma split_char_stop c : forall tok rest,
  Py.has_char c tok = false ->
  rest = "" \/ Str.startswith (String c "") rest = true ->
  exists t, Str.split_skip (String c "") 0 (tok ++ rest) = (tok, t).
Proof.
  induction tok as [|x tok IH]; intros rest Hno Hrest.
  - cbn [append]. destruct Hrest as [->|Hsw]; [exists []; reflexivity|].
    destruct rest as [|y rest]; [discriminate|].
    cbn [Str.split_skip]. rewrite Hsw. cbn [String.length Nat.sub].
    destruct (Str.split_skip (String c "") 0 rest) as [h t]. eauto.
  - cbn [Py.has_char] in Hno. apply orb_false_iff in Hno.
    destruct Hno as [Hx Hno].
    destruct (IH rest Hno Hrest) as (t & Ht).
    exists t. cbn [append Str.split_skip]. rewrite startswith1.
    rewrite Ascii.eqb_sym, Hx, Ht. reflexivity.
Qed.

(** The delimiter has no border: a match cannot begin inside another. *)
Lemma split_last_delimiter s :
  Str.contains token_delimiter s = false ->
  forall pre k, (k <= String.length pre)%nat ->
  exists h t,
    Str.split_skip token_delimiter k (pre ++ token_delimiter ++ s)
    = (h, (t ++ [s])%list).
Proof.
  intros Hs. induction pre as [|c pre IH]; intros k Hk.
  - assert (k = O) by (simpl in Hk; lia). subst k.
    exists "", [].
    rewrite (split_skip_first token_delimiter s "") by (discriminate || reflexivity).
    unfold Str.split. rewrite (split_skip_no_match _ _ Hs). reflexivity.
  - destruct k as [|k].
    + cbn [append Str.split_skip].
      destruct (Str.startswith token_delimiter
                  (String c (pre ++ token_delimiter ++ s))) eqn:Hsw.
      * assert (Hlen : (2 <= String.length pre)%nat).
        { destruct pre as [|x [|y pre]]; [| |simpl; lia]; exfalso;
            cbn in Hsw; rewrite ?andb_false_r in Hsw; discriminate. }
        destruct (IH 2%nat Hlen) as (h & t & Ht).
        change (String.length token_delimiter - 1)%nat with 2%nat.
        rewrite Ht. exists "", (h :: t). reflexivity.
      * destruct (IH O ltac:(lia)) as (h & t & Ht). rewrite Ht.
        exists (String c h), t. reflexivity.
    + cbn [append Str.split_skip]. apply IH. simpl in Hk. lia.
Qed.

End Token.

(** X7: The token never contains a backslash. *)
Theorem pagination_token_has_no_backslash (text token : string) :
  ChromeStoreParser.extract_pagination_token text = Some token ->
  Py.has_char Py.backslash token = false.
Proof.
  unfold ChromeStoreParser.extract_pagination_token,
    ChromeStoreParser.extract_pagination_token_body.
  destruct (Str.split_skip _ 0 text) as [h t]. unfold Str.split.
  destruct (Str.split_skip ChromeStoreParser.bs 0 (Str.last_of h t))
    as [h' t'] eqn:Hs.
  cbn [Str.index nth_error bind]. intros H. injection H as <-.
  exact (split_char_head _ _ _ _ Hs).
Qed.

Lemma pagination_token_has_no_backslash_witness :
  Py.has_char Py.backslash "T1" = false.
Proof.
  apply (pagination_token_has_no_backslash CrawlFixture.page1 "T1").
  vm_compute. reflexivity.
Defined.

(** X8: The token is what follows the last delimiter, up to the next
    backslash: whatever precedes it, a text that ends with the delimiter,
    a backslash-free [tok] and then nothing or a backslash-led rest, with
    no further delimiter, gives [tok]. *)
Theorem pagination_token_follows_last_delimiter (pre tok rest : string) :
  Str.contains token_delimiter (tok ++ rest) = false ->
  Py.has_char Py.backslash tok = false ->
  rest = "" \/ Str.startswith ChromeStoreParser.bs rest = true ->
  ChromeStoreParser.extract_pagination_token
    (pre ++ token_delimiter ++ tok ++ rest) = Some tok.
Proof.
  intros Hno Hbs Hrest.
  unfold ChromeStoreParser.extract_pagination_token,
    ChromeStoreParser.extract_pagination_token_body.
  destruct (split_last_delimiter (tok ++ rest) Hno pre 0 ltac:(lia))
    as (h & t & Hsplit).
  fold token_delimiter. rewrite Hsplit.
  unfold Str.last_of. rewrite last_last.
  destruct (split_char_stop Py.backslash tok rest Hbs Hrest) as (t' & Ht').
  unfold Str.split. fold ChromeStoreParser.bs in Ht'. rewrite Ht'.
  reflexivity.
Qed.

Lemma pagination_token_follows_last_delimiter_witness :
  ChromeStoreParser.extract_pagination_token
    (Py.qq "[[\'a\',[\'b\']],1]" ++ token_delimiter ++ "T1" ++ Py.qq "\']")
  = Some "T1".
Proof.
  apply pagination_token_follows_last_delimiter.
  - reflexivity.
  - reflexivity.
  - right. reflexivity.
Defined.

(** ** [fix_json_response]: what it returns and what it raises *)

Section ExtractShape.
Import ChromeStoreParser.

Lemma elems_shape : forall f d acc s v r,
  Json.elems f d acc s = Ok (v, r) -> exists l, v = PList (acc ++ l)%list.
Proof.
  induction f as [|f IH]; intros d acc s v r H; [discriminate|].
  cbn [Json.elems] in H.
  destruct (Json.value f d s) as [[v1 r1]|]; [|discriminate].
  destruct (Json.skip_ws r1) as [|c r']; [discriminate|].
  destruct c as [[] [] [] [] [] [] [] []]; try discriminate.
  - injection H as <- <-. eauto.
  - apply IH in H. destruct H as (l & ->).
    exists (v1 :: l). rewrite <- app_assoc. reflexivity.
Qed.

Lemma value_list_shape f d s v r :
  Json.value f d (String "[" s) = Ok (v, r) -> exists l, v = PList l.
Proof.
  destruct f as [|f]; [discriminate|]. cbn [Json.value].
  destruct d as [|d]; [discriminate|].
  destruct (Json.skip_ws s) as [|c r'] eqn:Hs.
  - intros H. apply elems_shape in H. exact H.
  - destruct c as [[] [] [] [] [] [] [] []];
      intros H; try (apply elems_shape in H; exact H).
    injection H as <- <-. eauto.
Qed.

(** A text that opens two lists parses to a list whose first element is
    a list. *)
Lemma value_list_list_shape f d s v r :
  Json.value f d (String "[" (String "[" s)) = Ok (v, r) ->
  exists l1 l, v = PList (PList l1 :: l).
Proof.
  destruct f as [|f]; [discriminate|]. cbn [Json.value Json.skip_ws Json.is_ws].
  destruct d as [|d]; [discriminate|].
  destruct f as [|f]; [discriminate|]. cbn [Json.elems].
  destruct (Json.value f d (String "[" s)) as [[v1 r1]|] eqn:Hv;
    [|discriminate].
  destruct (value_list_shape _ _ _ _ _ Hv) as (l1 & ->).
  destruct (Json.skip_ws r1) as [|c r']; [discriminate|].
  destruct c as [[] [] [] [] [] [] [] []]; try discriminate; intros H.
  - injection H as <- <-. exists l1, []. reflexivity.
  - apply elems_shape in H. destruct H as (l & ->). exists l1, l. reflexivity.
Qed.

Lemma value_list3_shape f d s v r :
  Json.value f d (String "[" (String "[" (String "[" s))) = Ok (v, r) ->
  exists l2 l1 l, v = PList (PList (PList l2 :: l1) :: l).
Proof.
  destruct f as [|f]; [discriminate|]. cbn [Json.value Json.skip_ws Json.is_ws].
  destruct d as [|d]; [discriminate|].
  destruct f as [|f]; [discriminate|]. cbn [Json.elems].
  destruct (Json.value f d (String "[" (String "[" s))) as [[v1 r1]|] eqn:Hv;
    [|discriminate].
  destruct (value_list_list_shape _ _ _ _ _ Hv) as (l2 & l1 & ->).
  destruct (Json.skip_ws r1) as [|c r']; [discriminate|].
  destruct c as [[] [] [] [] [] [] [] []]; try discriminate; intros H.
  - injection H as <- <-. exists l2, l1, []. reflexivity.
  - apply elems_shape in H. destruct H as (l & ->). exists l2, l1, l. reflexivity.
Qed.

Lemma split6_keeps_bracket s :
  Str.split_skip sentinel6 0 (String "[" s)
  = (String "[" (fst (Str.split_skip sentinel6 0 s)),
     snd (Str.split_skip sentinel6 0 s)).
Proof.
  cbn [Str.split_skip]. change (Str.startswith sentinel6 (String "[" s)) with false.
  destruct (Str.split_skip sentinel6 0 s). reflexivity.
Qed.

Lemma replace_keeps_bracket a old new s :
  Ascii.eqb a "[" = false ->
  Str.replace (String a old) new (String "[" s)
  = String "[" (Str.replace (String a old) new s).
Proof.
  intros H. unfold Str.replace. apply replace_nomatch.
  cbn [Str.startswith]. rewrite H. reflexivity.
Qed.

(** With the opening sentinel in the text, the clean-up always yields a
    text, and that text opens three lists. *)
Lemma cleanup_shape text :
  Str.contains sentinel5 text = true ->
  exists t, cleanup text = Ok (String "[" (String "[" (String "[" t))).
Proof.
  intros Hc. unfold cleanup.
  assert (Hseg : exists seg, Str.index (Str.split sentinel5 text) 1 = Ok seg).
  { unfold Str.split.
    destruct (Str.split_skip sentinel5 0 text) as [h t] eqn:Hs.
    destruct t as [|seg t]; [|exists seg; reflexivity].
    exfalso. clear -Hc Hs. revert h Hs.
    induction text as [|c text IH]; intros h Hs; [discriminate|].
    rewrite contains_unfold in Hc. cbn [Str.split_skip] in Hs.
    destruct (Str.startswith sentinel5 (String c text)).
    - match type of Hs with
      | context [Str.split_skip ?p ?k ?t] => destruct (Str.split_skip p k t)
      end. discriminate.
    - cbn [orb] in Hc.
      destruct (Str.split_skip sentinel5 0 text) as [h' t'].
      injection Hs as _ Ht. subst t'. eapply IH; [exact Hc | reflexivity]. }
  destruct Hseg as (seg & ->). cbn [bind].
  unfold Str.split at 1. unfold sentinel5 at 1. cbn [append].
  rewrite !split6_keeps_bracket.
  destruct (Str.split_skip sentinel6 0 seg) as [h t]. cbn [fst snd].
  cbn [Str.index nth_error bind append].
  change (bs ++ bs) with (String Py.backslash bs).
  change (bs ++ dq) with (String Py.backslash dq). unfold nl.
  rewrite !(replace_keeps_bracket Py.backslash bs) by reflexivity.
  rewrite !(replace_keeps_bracket Py.backslash dq) by reflexivity.
  rewrite !(replace_keeps_bracket "010"%char) by reflexivity.
  unfold Str.drop_last. cbn [String.length Nat.sub Str.take]. eauto.
Qed.

End ExtractShape.

(** X9: What [fix_json_response] returns is a list: with the opening
    sentinel present the cleaned text opens three lists, so the two
    subscripts [[0][0]] cannot fail once the text parses.  What it raises
    is [ValueError], as its docstring says, or the [RecursionError] of
    [json.loads], which its handler does not catch and which a response
    nested deeper than the interpreter allows does raise. *)
Theorem fix_json_response_list_or_error :
  (forall text,
     (exists rows, ChromeStoreParser.fix_json_response text = Ok (PList rows))
     \/ ChromeStoreParser.fix_json_response text = Raise ValueError
     \/ ChromeStoreParser.fix_json_response text = Raise RecursionError)
  /\ ChromeStoreParser.fix_json_response DeepFixture.response
     = Raise RecursionError.
Proof.
  split; [|vm_compute; reflexivity].
  intros text.
  unfold ChromeStoreParser.fix_json_response,
    ChromeStoreParser.fix_json_response_body.
  destruct (Str.contains ChromeStoreParser.sentinel5 text) eqn:Hc;
    [|right; left; reflexivity].
  cbn [negb]. destruct (cleanup_shape text Hc) as (t & ->). cbn [bind].
  destruct (Json.loads _) as [v|e] eqn:Hl.
  - unfold Json.loads, Json.loads_within in Hl.
    cbn [Json.skip_ws Json.is_ws] in Hl.
    destruct (Json.value _ _ _) as [[v' r]|] eqn:Hv; [|discriminate].
    destruct (value_list3_shape _ _ _ _ _ Hv) as (l2 & l1 & l & ->).
    destruct (Json.skip_ws r); [|discriminate]. injection Hl as <-.
    left. exists l2. reflexivity.
  - right. apply loads_raises in Hl. destruct Hl as [-> | ->]; auto.
Qed.

(** ** [parse_extension_data]: where each field comes from *)

Section Fields.
Import ChromeStoreParser.

(** Every block of the body has succeeded when an extension comes out,
    and each field is the block's result. *)
Lemma parse_some_fields item e :
  parse_extension_data item = Some e ->
  exists manifest,
    parse_manifest item = Ok manifest
    /\ get manifest "version" (PStr "Unknown") = Ok (version e)
    /\ host_wide_permissions e = parse_host_wide_permissions manifest
    /\ parse_create_date item = Ok (create_date e)
    /\ parse_rating item = Ok (rating e)
    /\ parse_rating_count item = Ok (rating_count e)
    /\ parse_category item = Ok (category e)
    /\ parse_downloads item = Ok (downloads e).
Proof.
  intros H. apply parse_some_inv in H.
  unfold parse_extension_data_body in H.
  destruct (negb (Py.truthy item)); [discriminate|].
  repeat bind_inv H. cbv zeta in H. cbn [id name] in H.
  destruct (Str.eqb_empty a6 || Str.eqb_empty a7); [bind_inv H; discriminate|].
  injection H as <-.
  cbn [version host_wide_permissions create_date rating rating_count
       category downloads].
  exists a. repeat split; assumption.
Qed.

Lemma parse_manifest_list l :
  parse_manifest (PList l)
  = match nth_error l 18 with
    | None => Raise IndexError
    | Some (PStr s) =>
        if Str.eqb_empty s then Ok (PDict [])
        else match Json.loads s with
             | Ok m => Ok m
             | Raise JSONDecodeError =>
                 match nth_error l 0 with
                 | Some _ => Ok (PDict [])
                 | None => Raise IndexError
                 end
             | Raise e => Raise e
             end
    | Some _ => Ok (PDict [])
    end.
Proof.
  unfold parse_manifest. cbn [Py.getitem]. unfold Str.index.
  destruct (nth_error l 18) as [v|]; [|reflexivity]. cbn [bind].
  destruct v; try reflexivity.
  cbn [Py.truthy]. destruct (Str.eqb_empty s); [reflexivity|]. cbn [negb].
  destruct (Json.loads s) as [m|e] eqn:Hl; [reflexivity|].
  destruct e; try reflexivity.
  destruct (nth_error l 0); reflexivity.
Qed.

Lemma wildcard_in ps :
  List.existsb is_wildcard ps = true
  <-> In (PStr "http://*/*") ps \/ In (PStr "https://*/*") ps.
Proof.
  rewrite existsb_exists. split.
  - intros (p & Hin & Hw). destruct p; try discriminate.
    cbn [is_wildcard] in Hw. apply orb_true_iff in Hw.
    destruct Hw as [Hw|Hw]; apply String.eqb_eq in Hw; subst; auto.
  - intros [H|H]; eexists; (split; [exact H | reflexivity]).
Qed.

End Fields.

Section ManifestTolerance.
Import ChromeStoreParser.

Lemma with_manifest_length l v :
  (18 < List.length l)%nat ->
  List.length (with_manifest l v) = List.length l.
Proof.
  intros H. unfold with_manifest.
  rewrite length_app, firstn_length_le by lia. cbn [List.length].
  rewrite length_skipn. lia.
Qed.

Lemma with_manifest_nth l v i :
  (18 < List.length l)%nat ->
  nth_error (with_manifest l v) i
  = if (i =? 18)%nat then Some v else nth_error l i.
Proof.
  intros H. unfold with_manifest.
  destruct (i =? 18)%nat eqn:Hi;
    [apply Nat.eqb_eq in Hi | apply Nat.eqb_neq in Hi].
  - subst i. rewrite nth_error_app2 by (rewrite firstn_length_le; lia).
    rewrite firstn_length_le by lia. reflexivity.
  - destruct (Nat.lt_ge_cases i 18) as [Hlt|Hge].
    + rewrite nth_error_app1 by (rewrite firstn_length_le; lia).
      rewrite nth_error_firstn. apply Nat.ltb_lt in Hlt. rewrite Hlt.
      reflexivity.
    + rewrite nth_error_app2 by (rewrite firstn_length_le; lia).
      rewrite firstn_length_le by lia.
      destruct (i - 18)%nat as [|k] eqn:Hk; [lia|]. cbn [nth_error].
      rewrite nth_error_skipn. f_equal. lia.
Qed.

Lemma getitem_with_manifest l v i :
  (18 < List.length l)%nat -> i <> 18%nat ->
  Py.getitem (PList (with_manifest l v)) i = Py.getitem (PList l) i.
Proof.
  intros H Hi. cbn [Py.getitem]. unfold Str.index.
  rewrite with_manifest_nth by exact H.
  apply Nat.eqb_neq in Hi. rewrite Hi. reflexivity.
Qed.

Lemma parse_manifest_unusable l v x :
  (18 < List.length l)%nat -> nth_error l 0 = Some x ->
  unusable_manifest v = true ->
  parse_manifest (PList (with_manifest l v)) = Ok (PDict []).
Proof.
  intros H H0 Hv. rewrite parse_manifest_list.
  rewrite !with_manifest_nth by exact H. cbn [Nat.eqb]. rewrite H0.
  destruct v; try reflexivity.
  cbn [unusable_manifest] in Hv.
  destruct (Str.eqb_empty s); [reflexivity|]. cbn [orb] in Hv.
  apply andb_prop in Hv as [_ Hv].
  destruct (Json.loads s) as [m|e]; [discriminate|].
  destruct e; try discriminate. reflexivity.
Qed.

Lemma parse_long_enough l e :
  parse_extension_data (PList l) = Some e -> (18 < List.length l)%nat.
Proof.
  intros H. destruct (Nat.lt_ge_cases 18 (List.length l)) as [Hl|Hl];
    [exact Hl|].
  rewrite parse_short_row in H by lia. discriminate.
Qed.

End ManifestTolerance.

(** X10: A manifest that is not a string, is empty or is not JSON counts as
    an empty manifest, and the row is not dropped for it: when position 18
    of a row that decodes is replaced by such a value, the row decodes
    too, to the same extension with the version ["Unknown"] and the
    host-wide flag off.  A manifest nested deeper than the interpreter
    allows is not such a value: [RecursionError] is not the
    [JSONDecodeError] line 96 catches, and the row is dropped. *)
Theorem unusable_manifest_gives_defaults :
  (forall (l : list pyval) (e : ChromeExtension) (v : pyval),
     ChromeStoreParser.parse_extension_data (PList l) = Some e ->
     unusable_manifest v = true ->
     ChromeStoreParser.parse_extension_data (PList (with_manifest l v))
     = Some (without_manifest e))
  /\ (forall (l : list pyval) (s : string),
        nth_error l 18 = Some (PStr s) ->
        Json.loads s = Raise RecursionError ->
        ChromeStoreParser.parse_extension_data (PList l) = None).
Proof.
  split.
  - intros l e v Hp Hv.
    pose proof (parse_long_enough l e Hp) as Hlen.
    apply parse_some_inv in Hp.
    unfold ChromeStoreParser.parse_extension_data.
    unfold ChromeStoreParser.parse_extension_data_body in *.
    assert (Ht : Py.truthy (PList (with_manifest l v)) = true).
    { pose proof (with_manifest_length l v Hlen) as Hl.
      destruct (with_manifest l v); [simpl in Hl; lia | reflexivity]. }
    rewrite Ht. cbn [negb].
    destruct (negb (Py.truthy (PList l))); [discriminate|].
    repeat bind_inv Hp. cbv zeta in Hp. cbn [id name] in Hp.
    assert (H0 : exists x, nth_error l 0 = Some x).
    { unfold ChromeStoreParser.str_or_empty in Ha6.
      cbn [Py.getitem] in Ha6. unfold Str.index in Ha6.
      destruct (nth_error l 0); [eauto | discriminate]. }
    destruct H0 as (x & H0).
    rewrite (parse_manifest_unusable l v x Hlen H0 Hv).
    cbn [bind ChromeStoreParser.get Json.dict_get].
    unfold ChromeStoreParser.parse_create_date,
      ChromeStoreParser.parse_rating, ChromeStoreParser.parse_rating_count,
      ChromeStoreParser.parse_category, ChromeStoreParser.parse_downloads,
      ChromeStoreParser.str_or_empty, ChromeStoreParser.bool_field in *.
    rewrite !(getitem_with_manifest l v) by (exact Hlen || discriminate).
    cbn [Py.len] in *. rewrite (with_manifest_length l v Hlen).
    rewrite Ha1. cbn [bind]. rewrite Ha2. cbn [bind]. rewrite Ha3. cbn [bind].
    rewrite Ha4. cbn [bind]. rewrite Ha5. cbn [bind]. rewrite Ha6. cbn [bind].
    rewrite Ha7. cbn [bind]. injection Ha8 as <-.
    rewrite Ha9. cbn [bind]. rewrite Ha10. cbn [bind]. rewrite Ha11. cbn [bind].
    rewrite Ha12. cbn [bind]. rewrite Ha13. cbn [bind]. rewrite Ha14. cbn [bind].
    cbv zeta. cbn [id name].
    destruct (Str.eqb_empty a6 || Str.eqb_empty a7);
      [bind_inv Hp; discriminate|].
    injection Hp as <-. reflexivity.
  - intros l s H18 Hl.
    unfold ChromeStoreParser.parse_extension_data,
      ChromeStoreParser.parse_extension_data_body.
    destruct (negb (Py.truthy (PList l))); [reflexivity|].
    rewrite parse_manifest_list, H18, Hl.
    destruct (Str.eqb_empty s) eqn:Hs; [|reflexivity].
    destruct s; [|discriminate]. vm_compute in Hl. discriminate.
Qed.

Lemma unusable_manifest_gives_defaults_witness :
  ChromeStoreParser.parse_extension_data
    (PList (with_manifest ManifestFixture.row (PStr "{'version': 1}")))
  = Some (without_manifest ManifestFixture.extension)
  /\ ChromeStoreParser.parse_extension_data
       (PList (with_manifest ManifestFixture.row
                 (PStr DeepFixture.manifest))) = None.
Proof.
  destruct unusable_manifest_gives_defaults as [Hdef Hdeep]. split.
  - apply (Hdef ManifestFixture.row ManifestFixture.extension
             (PStr "{'version': 1}")); vm_compute; reflexivity.
  - apply (Hdeep (with_manifest ManifestFixture.row
                    (PStr DeepFixture.manifest)) DeepFixture.manifest);
      vm_compute; reflexivity.
Defined.

(** X11: A manifest that is JSON but not an object (a list, a number, a
    string, [null]) drops the row: [manifest.get] does not exist and the
    outer [except] returns [None]. *)
Theorem non_object_manifest_drops_row (l : list pyval) (s : string) (m : pyval) :
  nth_error l 18 = Some (PStr s) ->
  s <> "" ->
  Json.loads s = Ok m ->
  (forall d, m <> PDict d) ->
  ChromeStoreParser.parse_extension_data (PList l) = None.
Proof.
  intros H18 Hs Hl Hm.
  unfold ChromeStoreParser.parse_extension_data,
    ChromeStoreParser.parse_extension_data_body.
  destruct (negb (Py.truthy (PList l))); [reflexivity|].
  rewrite parse_manifest_list, H18, Hl.
  destruct s; [congruence|]. cbn [Str.eqb_empty bind].
  destruct m; try reflexivity. exfalso. eapply Hm. reflexivity.
Qed.

Lemma non_object_manifest_drops_row_witness :
  ChromeStoreParser.parse_extension_data
    (PList (PStr "a" :: PNone :: PStr "B" :: repeat PNone 15 ++ [PStr "[1]"]))
  = None.
Proof.
  apply (non_object_manifest_drops_row _ "[1]" (PList [PInt 1]));
    [reflexivity | discriminate | reflexivity | discriminate].
Defined.

(** X12: With a manifest that is a JSON object, the version is its ["version"]
    entry (["Unknown"] without one), and the host-wide flag is on exactly
    when the object has a ["permissions"] key and its ["host_permissions"]
    is a list holding ["http://*/*"] or ["https://*/*"]. *)
Theorem object_manifest_fields
  (l : list pyval) (e : ChromeExtension) (s : string)
  (d : list (string * pyval)) :
  ChromeStoreParser.parse_extension_data (PList l) = Some e ->
  nth_error l 18 = Some (PStr s) ->
  s <> "" ->
  Json.loads s = Ok (PDict d) ->
  version e = match Json.dict_get "version" d with
              | Some v => v
              | None => PStr "Unknown"
              end
  /\ (host_wide_permissions e = true
      <-> Json.dict_get "permissions" d <> None
          /\ exists ps, Json.dict_get "host_permissions" d = Some (PList ps)
                        /\ (In (PStr "http://*/*") ps
                            \/ In (PStr "https://*/*") ps)).
Proof.
  intros Hp H18 Hs Hl.
  destruct (parse_some_fields _ _ Hp) as (m & Hpm & Hv & Hh & _).
  rewrite parse_manifest_list, H18, Hl in Hpm.
  destruct s; [congruence|]. cbn [Str.eqb_empty] in Hpm. injection Hpm as <-.
  cbn [ChromeStoreParser.get] in Hv. injection Hv as Hv.
  split; [symmetry; exact Hv|].
  rewrite Hh. cbn [ChromeStoreParser.parse_host_wide_permissions].
  destruct (Json.dict_get "permissions" d) as [p|].
  - destruct (Json.dict_get "host_permissions" d) as [hp|].
    + destruct hp; try (split; [discriminate | intros (_ & ps & Heq & _); discriminate]).
      rewrite wildcard_in. split.
      * intros H. split; [discriminate|]. eauto.
      * intros (_ & ps & Heq & H). injection Heq as <-. exact H.
    + split; [discriminate | intros (_ & ps & Heq & _); discriminate].
  - split; [discriminate | intros (H & _); congruence].
Qed.

Lemma object_manifest_fields_witness :
  version (ManifestFixture.extension) = PStr "1.2"
  /\ (host_wide_permissions ManifestFixture.extension = true
      <-> Json.dict_get "permissions" ManifestFixture.manifest <> None
          /\ exists ps,
               Json.dict_get "host_permissions" ManifestFixture.manifest
               = Some (PList ps)
               /\ (In (PStr "http://*/*") ps \/ In (PStr "https://*/*") ps)).
Proof.
  apply (object_manifest_fields ManifestFixture.row ManifestFixture.extension
           ManifestFixture.text ManifestFixture.manifest);
    [vm_compute; reflexivity | reflexivity | discriminate
    | vm_compute; reflexivity].
Defined.


(** ** [parse_extension_data]: integers at the numeric positions *)

Section IntegerFields.
Import ChromeStoreParser.

Lemma uint_all_digits d :
  Py.all_chars Py.isdigit_char (NilEmpty.string_of_uint d) = true.
Proof. induction d; cbn [NilEmpty.string_of_uint Py.all_chars]; auto. Qed.

Lemma pos_string p :
  Py.string_of_Z (Z.pos p) = NilEmpty.string_of_uint (Pos.to_uint p)
  /\ Py.string_of_Z (Z.neg p)
     = String "-" (NilEmpty.string_of_uint (Pos.to_uint p))
  /\ Str.eqb_empty (NilEmpty.string_of_uint (Pos.to_uint p)) = false.
Proof.
  unfold Py.string_of_Z. cbn [Z.to_int NilZero.string_of_int].
  pose proof (DecimalPos.Unsigned.to_uint_nonnil p) as Hnil.
  destruct (Pos.to_uint p); try congruence; repeat split.
Qed.

Lemma digits_no_char c : forall s,
  Py.isdigit_char c = false ->
  Py.all_chars Py.isdigit_char s = true ->
  Str.contains (String c "") s = false.
Proof.
  intros s Hc. induction s as [|x s IH]; intros H; [reflexivity|].
  cbn [Py.all_chars] in H. apply andb_true_iff in H. destruct H as [Hx Hs].
  rewrite contains_unfold, startswith1, (IH Hs), orb_false_r.
  destruct (Ascii.eqb_spec c x); [subst; congruence | reflexivity].
Qed.

Lemma isdigit_pos p : Py.isdigit (Py.string_of_Z (Z.pos p)) = true.
Proof.
  destruct (pos_string p) as (-> & _ & Hne). unfold Py.isdigit.
  rewrite Hne, uint_all_digits. reflexivity.
Qed.

Lemma isdigit_neg p : Py.isdigit (Py.string_of_Z (Z.neg p)) = false.
Proof. destruct (pos_string p) as (_ & -> & _). reflexivity. Qed.

(** The filter of line 115 lets every non-zero integer through. *)
Lemma rating_filter_int z :
  z <> 0%Z ->
  Py.isdigit
    (Str.replace "-" "" (Str.replace "." "" (Py.str (PInt z)))) = true.
Proof.
  intros Hz. cbn [Py.str Py.repr].
  destruct z as [|p|p]; [congruence | |];
    destruct (pos_string p) as (Hp & Hn & Hne); rewrite ?Hp, ?Hn.
  - rewrite (replace_no_match "." "" (NilEmpty.string_of_uint (Pos.to_uint p)))
      by (apply digits_no_char; [reflexivity | apply uint_all_digits]).
    rewrite replace_no_match
      by (apply digits_no_char; [reflexivity | apply uint_all_digits]).
    unfold Py.isdigit. rewrite Hne, uint_all_digits. reflexivity.
  - rewrite (replace_no_match "." "").
    + unfold Str.replace. cbn [Str.replace_skip Str.startswith].
      change (Ascii.eqb "-" "-") with true. cbn [andb String.length Nat.sub append].
      fold (Str.replace "-" "" (NilEmpty.string_of_uint (Pos.to_uint p))).
      rewrite replace_no_match
        by (apply digits_no_char; [reflexivity | apply uint_all_digits]).
      unfold Py.isdigit. rewrite Hne, uint_all_digits. reflexivity.
    + rewrite contains_unfold, startswith1. change (Ascii.eqb "." "-") with false.
      apply digits_no_char; [reflexivity | apply uint_all_digits].
Qed.

End IntegerFields.

(** X13: JSON integers at the numeric positions of a decoded row: a rating
    (position 3) is kept with its sign unless it is 0; a rating count
    (position 4) is kept when positive and absent otherwise; a download
    count (position 14) is absent when 0, an integer when positive and
    kept as text when negative. *)
Theorem integer_fields (l : list pyval) (e : ChromeExtension) :
  ChromeStoreParser.parse_extension_data (PList l) = Some e ->
  (forall z, nth_error l 3 = Some (PInt z) ->
     rating e = if (z =? 0)%Z then None
                else Some (FFin (z <? 0)%Z (Z.to_N (Z.abs z)) 0))
  /\ (forall z, nth_error l 4 = Some (PInt z) ->
        rating_count e = if (0 <? z)%Z then Some z else None)
  /\ (forall z, nth_error l 14 = Some (PInt z) ->
        downloads e = if (z =? 0)%Z then None
                      else if (0 <? z)%Z then Some (DInt z)
                      else Some (DStr (Py.string_of_Z z))).
Proof.
  intros Hp.
  destruct (parse_some_fields _ _ Hp) as (m & _ & _ & _ & _ & Hr & Hc & _ & Hd).
  split; [|split]; intros z Hz.
  - unfold ChromeStoreParser.parse_rating in Hr. cbn [Py.getitem] in Hr.
    unfold Str.index in Hr. rewrite Hz in Hr. cbn [bind Py.truthy] in Hr.
    destruct (z =? 0)%Z eqn:Hz0.
    + cbn in Hr. injection Hr as <-. reflexivity.
    + assert (Hne : z <> 0%Z) by (apply Z.eqb_neq; exact Hz0).
      cbn [negb] in Hr. rewrite (rating_filter_int z Hne) in Hr.
      cbn [andb PyNum.float] in Hr.
      destruct (2 ^ 1024 - 2 ^ 970 <=? Z.abs z)%Z; [discriminate|].
      cbn [bind PyNum.round2] in Hr. injection Hr as <-. reflexivity.
  - unfold ChromeStoreParser.parse_rating_count in Hc. cbn [Py.getitem] in Hc.
    unfold Str.index in Hc. rewrite Hz in Hc.
    cbn [bind Py.truthy Py.str Py.repr] in Hc.
    destruct z as [|p|p].
    + cbn in Hc. injection Hc as <-. reflexivity.
    + rewrite isdigit_pos in Hc. cbn in Hc. injection Hc as <-. reflexivity.
    + rewrite isdigit_neg in Hc. cbn in Hc. injection Hc as <-. reflexivity.
  - unfold ChromeStoreParser.parse_downloads in Hd. cbn [Py.getitem] in Hd.
    unfold Str.index in Hd. rewrite Hz in Hd.
    cbn [bind Py.truthy Py.str Py.repr] in Hd.
    destruct z as [|p|p].
    + cbn in Hd. injection Hd as <-. reflexivity.
    + rewrite isdigit_pos in Hd. cbn in Hd. injection Hd as <-. reflexivity.
    + rewrite isdigit_neg in Hd. cbn in Hd. injection Hd as <-. reflexivity.
Qed.

Lemma integer_fields_witness :
  (forall z, nth_error IntFixture.row 3 = Some (PInt z) ->
     rating IntFixture.extension
     = if (z =? 0)%Z then None
       else Some (FFin (z <? 0)%Z (Z.to_N (Z.abs z)) 0))
  /\ (forall z, nth_error IntFixture.row 4 = Some (PInt z) ->
        rating_count IntFixture.extension
        = if (0 <? z)%Z then Some z else None)
  /\ (forall z, nth_error IntFixture.row 14 = Some (PInt z) ->
        downloads IntFixture.extension
        = if (z =? 0)%Z then None
          else if (0 <? z)%Z then Some (DInt z)
          else Some (DStr (Py.string_of_Z z))).
Proof.
  apply (integer_fields IntFixture.row IntFixture.extension).
  vm_compute. reflexivity.
Defined.

(** ** [build_request_data]: the body as a form field *)

Section FormField.
Import ChromeWebStoreAPIClient.

Lemma all_chars_app p : forall a b,
  Py.all_chars p (a ++ b) = Py.all_chars p a && Py.all_chars p b.
Proof.
  induction a as [|x a IH]; intros b; [reflexivity|].
  cbn [append Py.all_chars]. rewrite IH, andb_assoc. reflexivity.
Qed.

Lemma quote_char_form_safe c :
  Py.all_chars form_safe (Wire.quote_char c) = true.
Proof. destruct c as [[] [] [] [] [] [] [] []]; reflexivity. Qed.

Lemma quote_form_safe : forall s, Py.all_chars form_safe (Wire.quote s) = true.
Proof.
  induction s as [|c s IH]; [reflexivity|].
  cbn [Wire.quote]. rewrite all_chars_app, quote_char_form_safe, IH.
  reflexivity.
Qed.

End FormField.

(** X14: The body is one form field: after the field name and its [=], every
    character is a letter, a digit, one of [_.-~/] or a [%]; in particular
    no [&], [=], [+] or space occurs in the value, whatever the query and
    the token hold. *)
Theorem request_body_is_one_form_field
  (query : string) (amount : option Z) (token : option string) :
  exists value,
    ChromeWebStoreAPIClient.build_request_data query amount token
    = "f.req=" ++ value
    /\ Py.all_chars form_safe value = true.
Proof.
  unfold ChromeWebStoreAPIClient.build_request_data.
  eexists. split; [reflexivity | apply quote_form_safe].
Qed.

(** X15: Bodies built from plain queries and tokens differ whenever the query,
    the amount or the token differ. *)
Theorem request_body_injective
  (q1 q2 : string) (a1 a2 : Z) (t1 t2 : option string) :
  Recover.plain q1 = true -> Recover.plain q2 = true ->
  Recover.plain_token t1 = true -> Recover.plain_token t2 = true ->
  ChromeWebStoreAPIClient.build_request_data q1 (Some a1) t1
  = ChromeWebStoreAPIClient.build_request_data q2 (Some a2) t2 ->
  q1 = q2 /\ a1 = a2 /\ t1 = t2.
Proof.
  intros Hq1 Hq2 Ht1 Ht2 Heq.
  pose proof (recover_build q1 a1 t1 Hq1 Ht1) as H1.
  pose proof (recover_build q2 a2 t2 Hq2 Ht2) as H2.
  rewrite Heq, H2 in H1. injection H1 as <- <- <-. auto.
Qed.

Lemma request_body_injective_witness :
  "tools" = "tools" /\ 32%Z = 32%Z /\ Some "T1" = Some "T1".
Proof.
  apply (request_body_injective "tools" "tools" 32 32 (Some "T1") (Some "T1"));
    reflexivity.
Defined.

(** ** [build_request_data] without an amount *)

Section NoAmount.
Import ChromeWebStoreAPIClient.

Lemma elems_fail f d acc s e :
  Json.value f d s = Raise e -> Json.elems (S f) d acc s = Raise e.
Proof. intros H. cbn [Json.elems]. rewrite H. reflexivity. Qed.

Ltac scan_string :=
  first [ apply scanstring_escape
        | apply scanstring_plain; assumption
        | reflexivity ].

Ltac run_value_none :=
  lazymatch goal with
  | |- Json.value (S _) _ (String "034"%char _) = _ =>
      eapply value_string; scan_string
  | |- Json.value (S _) (S _) (String "["%char _) = _ =>
      eapply value_list;
      [cbn [Json.skip_ws Json.is_ws]; reflexivity | discriminate
      | run_elems_none]
  | |- _ => reflexivity
  end
with run_elems_none :=
  first
    [ apply elems_fail; run_value_none
    | eapply elems_step;
      [ run_value_none
      | cbn [Json.skip_ws Json.is_ws Str.drop];
        lazymatch goal with
        | |- Json.elems _ _ _ _ = _ => run_elems_none
        | |- _ => reflexivity
        end ] ].

Lemma loads_sub_payload_none query token :
  Recover.plain query = true -> Recover.plain_token token = true ->
  Json.loads (sub_payload query None token) = Raise JSONDecodeError.
Proof.
  intros Hq Ht. unfold sub_payload, format_amount.
  destruct token as [tok|]; cbn [Recover.plain_token] in Ht;
    repeat (rewrite str_app_assoc || cbn [append]);
    unfold Py.dquote;
    unfold Json.loads, Json.loads_within, Json.recursion_limit;
    match goal with |- context [Json.value ?f _ _] => set (fuel := f) end;
    assert (Hfuel : (20 <= fuel)%nat) by (unfold fuel; cbn [String.length]; lia);
    clearbody fuel;
    do 20 (destruct fuel as [|fuel]; [exfalso; lia|]); clear Hfuel;
    cbn [Json.skip_ws Json.is_ws];
    match goal with
    | |- match Json.value ?f ?d ?s with _ => _ end = _ =>
        assert (Hv : Json.value f d s = Raise JSONDecodeError)
          by run_value_none
    end;
    rewrite Hv; reflexivity.
Qed.

End NoAmount.

(** X16: Called without an amount, as [search_by_category] does by default
    ([results_per_page=None]), [build_request_data] writes the word [None]
    into the sub-payload, which is then not JSON, and nothing can be read
    back from the body. *)
Theorem request_without_amount_is_not_json
  (query : string) (token : option string) :
  Recover.plain query = true ->
  Recover.plain_token token = true ->
  Json.loads (ChromeWebStoreAPIClient.sub_payload query None token)
  = Raise JSONDecodeError
  /\ Recover.recover
       (ChromeWebStoreAPIClient.build_request_data query None token) = None.
Proof.
  intros Hq Ht.
  pose proof (loads_sub_payload_none query token Hq Ht) as Hl.
  split; [exact Hl|].
  unfold Recover.recover, ChromeWebStoreAPIClient.build_request_data,
    ChromeWebStoreAPIClient.request_data.
  rewrite startswith_app_self. cbn [Str.drop append].
  rewrite unquote_quote, loads_request, Hl. reflexivity.
Qed.

Lemma request_without_amount_is_not_json_witness :
  Json.loads (ChromeWebStoreAPIClient.sub_payload "productivity/education"
                None None) = Raise JSONDecodeError
  /\ Recover.recover
       (ChromeWebStoreAPIClient.build_request_data "productivity/education"
          None None) = None.
Proof.
  apply request_without_amount_is_not_json; reflexivity.
Defined.

(** ** [search_by_category]: no delay after the last request *)

Section NoTrailingSleep.
Import ChromeWebStoreAPIClient ChromeWebStoreScraper.
Variable E : env.
Variable api_client : ChromeWebStoreAPIClient.t.

Lemma retry_loop_ends_with_post data : forall remaining attempt w,
  (1 <= remaining)%nat ->
  Z.of_nat (attempt + remaining) = max_retries api_client ->
  exists t,
    trace (snd (retry_loop E api_client data remaining attempt w))
    = (trace w ++ t ++ [EPost data])%list.
Proof.
  induction remaining as [|r IH]; intros attempt w Hr Hn; [lia|].
  cbn [retry_loop]. unfold post.
  assert (Hbase : exists t,
    (trace w ++ [EPost data] = trace w ++ t ++ [EPost data])%list)
    by (exists []; reflexivity).
  destruct (server E (posts w) data) as [text|e]; [exact Hbase|].
  destruct e; try exact Hbase.
  destruct (Z.of_nat attempt <? max_retries api_client - 1)%Z eqn:Hc;
    [|exact Hbase].
  apply Z.ltb_lt in Hc. cbn [uniform posts draws trace].
  set (w3 := sleep _ _).
  destruct (IH (S attempt) w3 ltac:(lia) ltac:(lia)) as (t & Ht).
  rewrite Ht. unfold w3. cbn [sleep trace].
  eexists (EPost data :: ESleep _ :: t). rewrite <- !app_assoc. reflexivity.
Qed.

Lemma page_loop_ends_with_post :
  (1 <= max_retries api_client)%Z ->
  forall fuel category rpp max_pages all tok pc w,
  (fuel + pc = Z.to_nat max_pages)%nat ->
  let new := Trace.new_events w
               (snd (page_loop E api_client fuel category rpp max_pages
                       all tok pc w)) in
  (((1 <= fuel)%nat /\ (Z.of_nat pc < max_pages)%Z) -> exists t d, new = (t ++ [EPost d])%list)
  /\ (new = [] \/ exists t d, new = (t ++ [EPost d])%list).
Proof.
  intros Hretry. induction fuel as [|fuel IH];
    intros category rpp max_pages all tok pc w Hinv new.
  - split; [lia|]. left. unfold new. cbn [page_loop snd].
    apply new_events_app. rewrite app_nil_r. reflexivity.
  - assert (Hpc : (Z.of_nat pc <? max_pages)%Z = true) by (apply Z.ltb_lt; lia).
    assert (Hgoal : exists t d, new = (t ++ [EPost d])%list).
    2:{ split; [intros _; exact Hgoal | right; exact Hgoal]. }
    unfold new. cbn [page_loop]. rewrite Hpc.
    set (data := build_request_data category rpp tok).
    destruct (retry_loop_ends_with_post data
                (Z.to_nat (max_retries api_client)) 0 w ltac:(lia) ltac:(simpl; lia))
      as (t1 & Ht1).
    fold (make_request_with_retry E api_client data w) in Ht1.
    destruct (make_request_with_retry E api_client data w) as [[text|e] w1];
      cbn [snd] in Ht1.
    2:{ cbn [snd]. exists t1, data. apply new_events_app. exact Ht1. }
    unfold process_page.
    assert (Hstop : forall all',
      exists t d, Trace.new_events w (snd (@Ok (list ChromeExtension) all', w1))
                  = (t ++ [EPost d])%list)
      by (intros all'; exists t1, data; apply new_events_app; exact Ht1).
    destruct (parse_page text) as [[page|]|]; try apply Hstop.
    destruct (ChromeStoreParser.extract_pagination_token text) as [next|];
      [|apply Hstop].
    destruct (Str.eqb_empty next); [apply Hstop|].
    destruct (Z.of_nat (S pc) <? max_pages)%Z eqn:Hnext.
    + apply Z.ltb_lt in Hnext.
      destruct (add_delay E api_client w1) as [[[]|x] w2] eqn:Hdelay;
        unfold add_delay, uniform, sleep in Hdelay;
        destruct (Qle_bool 0 _); try discriminate.
      2:{ injection Hdelay as _ <-. cbn [snd]. exists t1, data.
          apply new_events_app. cbn [trace]. exact Ht1. }
      injection Hdelay as Hw2.
      destruct (IH category rpp max_pages (all ++ page)%list (Some next) (S pc) w2
                  ltac:(lia)) as [Hsome _].
      destruct Hsome as (t3 & d3 & H3); [split; lia|].
      assert (Ht2 : exists s, trace w2 = (trace w1 ++ [ESleep s])%list)
        by (rewrite <- Hw2; cbn [trace]; eauto).
      destruct Ht2 as (s & Ht2).
      unfold Trace.new_events in H3.
      assert (Hfull : trace (snd (page_loop E api_client fuel category rpp
                                    max_pages (all ++ page) (Some next) (S pc) w2))
                      = (trace w2 ++ t3 ++ [EPost d3])%list).
      { destruct (page_loop_trace E api_client fuel category rpp max_pages
                    (all ++ page)%list (Some next) (S pc) w2) as (n3 & Hn3 & _).
        rewrite Hn3 in H3 |- *. rewrite skipn_app, skipn_all, Nat.sub_diag in H3.
        cbn [skipn app] in H3. rewrite H3. reflexivity. }
      exists (t1 ++ [EPost data] ++ [ESleep s] ++ t3)%list, d3.
      apply new_events_app. rewrite Hfull, Ht2, Ht1.
      rewrite <- !app_assoc. reflexivity.
    + apply Z.ltb_ge in Hnext.
      assert (Hend : page_loop E api_client fuel category rpp max_pages
                       (all ++ page) (Some next) (S pc) w1
                     = (Ok (all ++ page)%list, w1)).
      { destruct fuel as [|fuel']; [reflexivity|]. cbn [page_loop].
        assert (Hf : (Z.of_nat (S pc) <? max_pages)%Z = false)
          by (apply Z.ltb_ge; lia).
        rewrite Hf. reflexivity. }
      rewrite Hend. apply Hstop.
Qed.

End NoTrailingSleep.

(** X17: With at least one attempt per request, a crawl never ends on a sleep:
    every inter-page delay and every back-off wait is followed by a
    request. *)
Theorem crawl_never_ends_with_sleep
  (E : env) (api_client : ChromeWebStoreAPIClient.t) (category : string)
  (results_per_page : option Z) (max_pages : Z) (w : world) :
  (1 <= ChromeWebStoreAPIClient.max_retries api_client)%Z ->
  TraceSum.ends_with_sleep
    (Trace.new_events w
       (snd (ChromeWebStoreScraper.search_by_category E api_client category
               results_per_page max_pages w))) = false.
Proof.
  intros Hretry. unfold ChromeWebStoreScraper.search_by_category.
  destruct (page_loop_ends_with_post E api_client Hretry (Z.to_nat max_pages)
              category results_per_page max_pages [] None 0 w ltac:(lia))
    as [_ [-> | (t & d & ->)]]; [reflexivity|].
  unfold TraceSum.ends_with_sleep. rewrite rev_app_distr. reflexivity.
Qed.

Lemma crawl_never_ends_with_sleep_witness :
  TraceSum.ends_with_sleep
    (Trace.new_events world0
       (snd (ChromeWebStoreScraper.search_by_category CrawlFixture.E
               CrawlFixture.client "x" (Some 32%Z) 2 world0))) = false.
Proof.
  apply crawl_never_ends_with_sleep. simpl. lia.
Defined.

(** ** [get_extension_summary] *)

Section SummaryFacts.
Import Summary.

Lemma dget_dset_same k v : forall d, dget k (dset k v d) = Some v.
Proof.
  induction d as [|[k' v'] d IH]; cbn [dset dget].
  - rewrite String.eqb_refl. reflexivity.
  - destruct (String.eqb k k') eqn:Hk; cbn [dget]; rewrite Hk; auto.
Qed.

Lemma dget_dset_other k k' v : forall d,
  k <> k' -> dget k' (dset k v d) = dget k' d.
Proof.
  intros d Hne. induction d as [|[k0 v0] d IH]; cbn [dset dget].
  - apply String.eqb_neq in Hne. rewrite String.eqb_sym, Hne. reflexivity.
  - destruct (String.eqb_spec k k0) as [<-|Hk]; cbn [dget].
    + apply String.eqb_neq in Hne. rewrite String.eqb_sym, Hne. reflexivity.
    + rewrite IH. reflexivity.
Qed.

Lemma count_categories_lookup c : forall extensions d,
  c <> "" ->
  dget c (count_categories extensions d)
  = match dget c d with
    | Some n => Some (n + category_count c extensions)%Z
    | None =>
        if (category_count c extensions =? 0)%Z then None
        else Some (category_count c extensions)
    end.
Proof.
  intros extensions d Hc. revert d.
  induction extensions as [|ext rest IH]; intros d.
  - cbn [count_categories]. unfold category_count. cbn.
    destruct (dget c d); [rewrite Z.add_0_r|]; reflexivity.
  - cbn [count_categories]. rewrite IH.
    unfold category_count, in_category. cbn [filter].
    destruct (category ext) as [c'|]; [|reflexivity].
    destruct (String.eqb_spec c c') as [<-|Hne].
    + destruct c as [|x c]; [congruence|]. cbn [Str.eqb_empty].
      rewrite dget_dset_same. cbn [List.length]. rewrite Nat2Z.inj_succ.
      destruct (dget (String x c) d) as [n|].
      * f_equal. lia.
      * match goal with
        | |- _ = (if ?b then _ else _) => destruct b eqn:Hb
        end; [apply Z.eqb_eq in Hb; lia | f_equal; lia].
    + destruct (Str.eqb_empty c'); [reflexivity|].
      rewrite dget_dset_other by congruence. reflexivity.
Qed.

Lemma filter_length_le {A} (p : A -> bool) (l : list A) :
  (List.length (List.filter p l) <= List.length l)%nat.
Proof.
  induction l as [|x l IH]; simpl; [lia|]. destruct (p x); simpl; lia.
Qed.

End SummaryFacts.

(** X18: The counts of a summary: for a non-empty list, [total] is its length,
    [with_ratings] and [featured] never exceed it, and [average_rating]
    is absent exactly when no extension is rated or the mean of the
    ratings is zero (a zero mean is falsy, so it is reported as absent
    rather than as 0.0); for the empty list only [total], 0, is
    returned. *)
Theorem summary_counts
  (mean : list pyfloat -> pyfloat) (extensions : list ChromeExtension) :
  match Summary.get_extension_summary mean extensions with
  | Summary.OnlyTotal n => extensions = [] /\ n = O
  | Summary.Full s =>
      extensions <> []
      /\ Summary.total s = List.length extensions
      /\ (Summary.with_ratings s <= Summary.total s)%nat
      /\ (Summary.featured_count s <= Summary.total s)%nat
      /\ (Summary.average_rating s = None <->
          Summary.with_ratings s = O
          \/ Py.truthy
               (PFloat
                  (mean (Summary.ratings
                           (List.filter Summary.is_rated extensions))))
             = false)
  end.
Proof.
  destruct extensions as [|e0 rest]; [split; reflexivity|].
  cbn [Summary.get_extension_summary Summary.total Summary.with_ratings
       Summary.featured_count Summary.average_rating].
  split; [discriminate|]. split; [reflexivity|].
  split; [apply filter_length_le|]. split; [apply filter_length_le|].
  destruct (List.filter Summary.is_rated (e0 :: rest)) as [|r rs].
  - split; [left|]; reflexivity.
  - destruct (Py.truthy (PFloat (mean (Summary.ratings (r :: rs))))) eqn:Ht.
    + split; [discriminate|]. intros [H|H]; discriminate.
    + split; [right|]; reflexivity.
Qed.

(** X19: The [categories] entry of a summary maps each non-empty category to
    the number of extensions filed under it, and holds no entry for a
    category no extension has. *)
Theorem summary_categories_lookup
  (mean : list pyfloat -> pyfloat) (extensions : list ChromeExtension)
  (s : Summary.full) (c : string) :
  Summary.get_extension_summary mean extensions = Summary.Full s ->
  c <> "" ->
  Summary.dget c (Summary.categories s)
  = if (Summary.category_count c extensions =? 0)%Z then None
    else Some (Summary.category_count c extensions).
Proof.
  intros Hs Hc. destruct extensions as [|e0 rest]; [discriminate|].
  cbn [Summary.get_extension_summary] in Hs. injection Hs as <-.
  exact (count_categories_lookup c (e0 :: rest) [] Hc).
Qed.

Lemma summary_categories_lookup_witness :
  Summary.dget "tools"
    (Summary.categories SummaryFixture.summary)
  = if (Summary.category_count "tools" SummaryFixture.extensions =? 0)%Z
    then None
    else Some (Summary.category_count "tools" SummaryFixture.extensions).
Proof.
  apply (summary_categories_lookup (fun _ => FFin false 45 (-1))
           SummaryFixture.extensions SummaryFixture.summary "tools");
    [reflexivity | discriminate].
Defined.

(** ** The creation date *)

Section CreateDate.
Import ChromeStoreParser.

Lemma civil_from_days_range days :
  let '(y, m, d) := PyDate.civil_from_days days in
  (1 <= m <= 12)%Z /\ (1 <= d <= 31)%Z.
Proof.
  unfold PyDate.civil_from_days. cbv zeta.
  set (z := (days + 719468)%Z).
  set (era := (z / 146097)%Z).
  set (doe := (z - era * 146097)%Z).
  assert (Hdoe : (0 <= doe < 146097)%Z).
  { subst doe era. pose proof (Z.mod_pos_bound z 146097 ltac:(lia)).
    rewrite Z.mod_eq in H by lia. lia. }
  clearbody doe. clear z era.
  set (yoe := ((doe - doe / 1460 + doe / 36524 - doe / 146096) / 365)%Z).
  set (doy := (doe - (365 * yoe + yoe / 4 - yoe / 100))%Z).
  assert (Hdoy : (0 <= doy <= 365)%Z).
  { subst doy yoe. Z.to_euclidean_division_equations. lia. }
  clearbody doy. clear yoe.
  set (mp := ((5 * doy + 2) / 153)%Z).
  assert (Hmp : (0 <= mp <= 11)%Z).
  { subst mp. Z.to_euclidean_division_equations. lia. }
  assert (Hd : (1 <= doy - (153 * mp + 2) / 5 + 1 <= 31)%Z).
  { subst mp. Z.to_euclidean_division_equations. lia. }
  clearbody mp.
  split; [|exact Hd].
  destruct (mp <? 10)%Z eqn:Hlt; [apply Z.ltb_lt in Hlt | apply Z.ltb_ge in Hlt];
    lia.
Qed.

Lemma range_check (p : Z -> bool) (lo n z : Z) :
  forallb p (List.map Z.of_nat (List.seq (Z.to_nat lo) (Z.to_nat n))) = true ->
  (0 <= lo <= z)%Z -> (z < lo + n)%Z ->
  p z = true.
Proof.
  intros Hall Hlo Hz. rewrite forallb_forall in Hall. apply Hall.
  apply in_map_iff. exists (Z.to_nat z). split; [lia|].
  apply in_seq. lia.
Qed.

Lemma pad2_digits z :
  (1 <= z <= 31)%Z -> is_digits 2 (PyDate.pad 2 z) = true.
Proof.
  intros Hz.
  apply (range_check (fun z => is_digits 2 (PyDate.pad 2 z)) 1 31);
    [vm_compute; reflexivity | lia | lia].
Qed.

Lemma year4_digits y :
  (1000 <= y <= 9999)%Z ->
  is_digits 4 (Py.string_of_N (Z.to_N y)) = true.
Proof.
  intros Hy.
  apply (range_check (fun y => is_digits 4 (Py.string_of_N (Z.to_N y)))
           1000 9000);
    [vm_compute; reflexivity | lia | lia].
Qed.

Lemma is_digits_2 s :
  is_digits 2 s = true ->
  exists a b, s = String a (String b "")
    /\ PyNum.is_ascii_digit a = true /\ PyNum.is_ascii_digit b = true.
Proof.
  unfold is_digits. destruct s as [|a [|b [|c s]]];
    cbn [String.length Nat.eqb andb Py.all_chars]; try discriminate.
  intros H. apply andb_prop in H as [Ha Hb].
  rewrite andb_true_r in Hb. eauto.
Qed.

Lemma is_digits_4 s :
  is_digits 4 s = true ->
  exists a b c d, s = String a (String b (String c (String d "")))
    /\ PyNum.is_ascii_digit a = true /\ PyNum.is_ascii_digit b = true
    /\ PyNum.is_ascii_digit c = true /\ PyNum.is_ascii_digit d = true.
Proof.
  unfold is_digits. destruct s as [|a [|b [|c [|d [|e s]]]]];
    cbn [String.length Nat.eqb andb Py.all_chars]; try discriminate.
  intros H. apply andb_prop in H as [Ha H]. apply andb_prop in H as [Hb H].
  apply andb_prop in H as [Hc Hd]. rewrite andb_true_r in Hd.
  exists a, b, c, d. auto.
Qed.

(** From year 1000 on the date has its ten characters. *)
Lemma strftime_ymd_iso y mo dd :
  (1000 <= y <= 9999)%Z -> (1 <= mo <= 12)%Z -> (1 <= dd <= 31)%Z ->
  is_iso_date (PyDate.strftime_ymd y mo dd) = true.
Proof.
  intros Hy Hm Hd. unfold PyDate.strftime_ymd.
  destruct (is_digits_4 _ (year4_digits y Hy))
    as (a & b & c & e' & -> & Ha & Hb & Hc & He).
  destruct (is_digits_2 _ (pad2_digits mo ltac:(lia)))
    as (m1 & m2 & -> & Hm1 & Hm2).
  destruct (is_digits_2 _ (pad2_digits dd Hd)) as (d1 & d2 & -> & Hd1 & Hd2).
  cbn [String.append is_iso_date].
  rewrite Ha, Hb, Hc, He, Hm1, Hm2, Hd1, Hd2. reflexivity.
Qed.

Lemma date_of_timestamp_shape f d :
  PyDate.date_of_timestamp f = Ok d ->
  exists y mo dd,
    (1 <= y <= 9999)%Z /\ (1 <= mo <= 12)%Z /\ (1 <= dd <= 31)%Z
    /\ d = PyDate.strftime_ymd y mo dd.
Proof.
  destruct f as [neg m e| |]; cbn [PyDate.date_of_timestamp]; try discriminate.
  set (secs := (PyDate.microseconds neg m e / 1000000)%Z). clearbody secs.
  destruct ((secs <? - 2 ^ 63) || (2 ^ 63 <? secs))%Z; [discriminate|].
  pose proof (civil_from_days_range (secs / 86400)) as Hr.
  destruct (PyDate.civil_from_days (secs / 86400)) as [[y mo] dd].
  destruct Hr as [Hm Hd].
  destruct ((y - 1900 <? - 2 ^ 31) || (2 ^ 31 <=? y - 1900))%Z;
    [discriminate|].
  destruct ((y <? 1) || (9999 <? y))%Z eqn:Hy; [discriminate|].
  apply orb_false_elim in Hy as [Hy1 Hy2].
  apply Z.ltb_ge in Hy1, Hy2.
  destruct (PyDate.year_of (secs - 86400) <? 1)%Z; [discriminate|].
  intros H. injection H as <-. exists y, mo, dd. repeat split; lia.
Qed.

Lemma parse_create_date_shape item d :
  parse_create_date item = Ok d ->
  d = "Unknown"
  \/ exists y mo dd,
       (1 <= y <= 9999)%Z /\ (1 <= mo <= 12)%Z /\ (1 <= dd <= 31)%Z
       /\ d = PyDate.strftime_ymd y mo dd.
Proof.
  unfold parse_create_date. intros H. bind_inv H.
  destruct a as [| | | | |l|]; try (injection H as <-; auto; fail).
  destruct l as [|x l]; [injection H as <-; auto|].
  destruct (PyNum.float x) as [ts|ex] eqn:Hf; cbn [bind] in H.
  - destruct (PyDate.date_of_timestamp ts) as [d'|ex] eqn:Hd.
    + injection H as <-. right. eapply date_of_timestamp_shape; eauto.
    + destruct ex; try discriminate; bind_inv H; injection H as <-; auto.
  - destruct ex; try discriminate; bind_inv H; injection H as <-; auto.
Qed.

End CreateDate.

(** X20: Every extension the parser returns has a [create_date] that is
    either the word Unknown or the date of a day of the years 1 to 9999,
    written as year, dash, month, dash, day: the month and the day on two
    digits, the year as it is (glibc does not pad it), so that the text
    has its ten characters from year 1000 on. *)
Theorem create_date_is_unknown_or_a_date
  (item : pyval) (e : ChromeExtension) :
  ChromeStoreParser.parse_extension_data item = Some e ->
  create_date e = "Unknown"
  \/ exists y mo dd,
       (1 <= y <= 9999)%Z /\ (1 <= mo <= 12)%Z /\ (1 <= dd <= 31)%Z
       /\ create_date e = PyDate.strftime_ymd y mo dd
       /\ ((1000 <= y)%Z -> is_iso_date (create_date e) = true).
Proof.
  intros H. apply parse_some_fields in H.
  destruct H as (manifest & _ & _ & _ & Hd & _).
  destruct (parse_create_date_shape item _ Hd)
    as [Hu | (y & mo & dd & Hy & Hm & Hdd & Heq)]; [left; exact Hu|].
  right. exists y, mo, dd. repeat split; try lia; try exact Heq.
  intros Hy'. rewrite Heq. apply strftime_ymd_iso; lia.
Qed.

Lemma create_date_is_unknown_or_a_date_witness :
  exists e,
    ChromeStoreParser.parse_extension_data
      (DateFixture.row (PInt (-50000000000))) = Some e
    /\ create_date e = "385-07-25"
    /\ (create_date e = "Unknown"
        \/ exists y mo dd,
             (1 <= y <= 9999)%Z /\ (1 <= mo <= 12)%Z /\ (1 <= dd <= 31)%Z
             /\ create_date e = PyDate.strftime_ymd y mo dd
             /\ ((1000 <= y)%Z -> is_iso_date (create_date e) = true)).
Proof.
  eexists. split; [vm_compute; reflexivity|]. split; [reflexivity|].
  apply (create_date_is_unknown_or_a_date
           (DateFixture.row (PInt (-50000000000)))).
  vm_compute. reflexivity.
Defined.

Lemma secs_of_int t :
  (PyDate.microseconds (t <? 0)%Z (Z.to_N (Z.abs t)) 0 / 1000000 = t)%Z.
Proof.
  unfold PyDate.microseconds. cbn [Z.add Z.leb Z.compare].
  change (10 ^ 6)%Z with 1000000%Z. rewrite Z2N.id by lia.
  destruct (t <? 0)%Z eqn:Ht;
    [apply Z.ltb_lt in Ht | apply Z.ltb_ge in Ht].
  - replace (- (Z.abs t * 1000000))%Z with (t * 1000000)%Z by lia.
    apply Z.div_mul. lia.
  - replace (Z.abs t) with t by lia. apply Z.div_mul. lia.
Qed.

(** The conversion of an integer outside [time_t] fails with an error
    that the date's own handler does not catch. *)
Lemma timestamp_overflow_raises (t : Z) :
  (t < - 2 ^ 63 \/ 2 ^ 63 <= t)%Z ->
  (let! timestamp := PyNum.float (PInt t) in
   PyDate.date_of_timestamp timestamp) = Raise OverflowError
  \/ (let! timestamp := PyNum.float (PInt t) in
      PyDate.date_of_timestamp timestamp) = Raise OSError.
Proof.
  intros Ht. cbn [PyNum.float].
  destruct (2 ^ 1024 - 2 ^ 970 <=? Z.abs t)%Z; [left; reflexivity|].
  cbn [bind PyDate.date_of_timestamp]. rewrite secs_of_int.
  destruct (Z.eq_dec t (2 ^ 63)) as [-> | Hne].
  - right. vm_compute. reflexivity.
  - left.
    replace ((t <? - 2 ^ 63) || (2 ^ 63 <? t))%Z with true; [reflexivity|].
    symmetry. apply orb_true_iff.
    destruct Ht; [left; apply Z.ltb_lt | right; apply Z.ltb_lt]; lia.
Qed.

(** X21: A row whose timestamp (position 17) is an integer outside the
    64-bit [time_t] range is dropped: the conversion raises an error
    (OverflowError, or OSError at [2^63] itself) that the date's own
    handler (ValueError, IndexError, TypeError) does not catch, so the
    outer handler discards the whole row instead of leaving the date
    Unknown. *)
Theorem timestamp_overflow_drops_row
  (item : pyval) (t : Z) (rest : list pyval) :
  Py.getitem item 17 = Ok (PList (PInt t :: rest)) ->
  (t < - 2 ^ 63 \/ 2 ^ 63 <= t)%Z ->
  ChromeStoreParser.parse_extension_data item = None.
Proof.
  intros H17 Ht.
  destruct (ChromeStoreParser.parse_extension_data item) as [e|] eqn:Hp;
    [|reflexivity].
  apply parse_some_fields in Hp.
  destruct Hp as (manifest & _ & _ & _ & Hd & _).
  unfold ChromeStoreParser.parse_create_date in Hd.
  rewrite H17 in Hd. cbn [bind] in Hd.
  destruct (timestamp_overflow_raises t Ht) as [Hr | Hr];
    rewrite Hr in Hd; discriminate.
Qed.

Lemma timestamp_overflow_drops_row_witness :
  ChromeStoreParser.parse_extension_data (DateFixture.row (PInt (2 ^ 63)))
  = None.
Proof.
  apply (timestamp_overflow_drops_row (DateFixture.row (PInt (2 ^ 63)))
           (2 ^ 63) []); [reflexivity | right; lia].
Defined.

(** A timestamp inside the [time_t] range whose year is past 9999 does
    not drop the row: the ValueError is caught and the date is Unknown. *)
Lemma year_10000_keeps_row :
  exists e,
    ChromeStoreParser.parse_extension_data
      (DateFixture.row (PInt 253402300800)) = Some e
    /\ create_date e = "Unknown".
Proof. eexists. split; vm_compute; reflexivity. Qed.

(** ** Counts are never negative *)

Section Counts.
Import ChromeStoreParser.

Lemma float_repr_not_digits f :
  Py.all_chars Py.isdigit_char (Py.float_repr f) = false.
Proof.
  destruct f as [neg m e|neg|]; [|destruct neg; reflexivity|reflexivity].
  cbn [Py.float_repr].
  destruct (m =? 0)%N.
  { destruct neg; reflexivity. }
  destruct (Py.strip_zeros (Py.string_of_N m)) as [ds k].
  cbv zeta.
  match goal with |- context [if ?b then _ else _] => destruct b end;
    [|match goal with |- context [if ?b then _ else _] => destruct b end;
      [|match goal with |- context [if ?b then _ else _] => destruct b end]];
    repeat rewrite all_chars_app.
  - change (Py.all_chars Py.isdigit_char "e") with false.
    rewrite !andb_false_r, ?andb_false_l. reflexivity.
  - change (Py.all_chars Py.isdigit_char "0.") with false.
    rewrite ?andb_false_r, ?andb_false_l. reflexivity.
  - change (Py.all_chars Py.isdigit_char ".0") with false.
    rewrite !andb_false_r. reflexivity.
  - change (Py.all_chars Py.isdigit_char ".") with false.
    rewrite ?andb_false_r, ?andb_false_l. reflexivity.
Qed.

Lemma digit_char_plain c :
  Py.isdigit_char c = true ->
  PyNum.isspace c = false
  /\ (forall s, PyNum.split_sign (String c s) = (false, String c s)).
Proof.
  destruct c as [[] [] [] [] [] [] [] []]; try discriminate;
    intros _; split; reflexivity.
Qed.

Lemma int_of_digit_string s z :
  Py.isdigit s = true -> PyNum.int_of_string s = Ok z -> (0 <= z)%Z.
Proof.
  unfold Py.isdigit. destruct s as [|c s]; [discriminate|].
  cbn [Str.eqb_empty negb andb Py.all_chars]. intros H.
  apply andb_prop in H as [Hc _].
  destruct (digit_char_plain c Hc) as [Hsp Hsign].
  unfold PyNum.int_of_string, PyNum.strip. cbn [PyNum.lstrip]. rewrite Hsp.
  cbn [PyNum.rstrip]. rewrite Hsp, andb_false_r, Hsign.
  destruct (PyNum.digits_us 0 0 (String c (PyNum.rstrip s))) as [[v len] r].
  destruct len; [discriminate|]. destruct r; [|discriminate].
  intros H. injection H as <-. lia.
Qed.

Lemma int_of_digit_text v z :
  Py.isdigit (Py.str v) = true -> PyNum.int v = Ok z -> (0 <= z)%Z.
Proof.
  destruct v as [|b|n|f|s|l|d]; cbn [Py.str Py.repr PyNum.int].
  - discriminate.
  - destruct b; discriminate.
  - intros Hd H. injection H as <-. destruct n as [|p|p]; try lia.
    rewrite isdigit_neg in Hd. discriminate.
  - unfold Py.isdigit. rewrite float_repr_not_digits, andb_false_r.
    discriminate.
  - apply int_of_digit_string.
  - discriminate.
  - discriminate.
Qed.

Lemma str_truthy_nonempty v : Py.truthy v = true -> Py.str v <> "".
Proof.
  destruct v as [|b|n|f|s|l|d]; cbn [Py.truthy Py.str Py.repr].
  - discriminate.
  - destruct b; discriminate.
  - destruct n as [|p|p]; [discriminate| |]; intros _;
      destruct (pos_string p) as (Hp & Hn & Hne).
    + rewrite Hp. apply eqb_empty_false. exact Hne.
    + rewrite Hn. discriminate.
  - intros _ Hn. pose proof (float_repr_not_digits f) as H.
    rewrite Hn in H. discriminate.
  - intros H. apply eqb_empty_false. apply negb_true_iff. exact H.
  - discriminate.
  - discriminate.
Qed.

End Counts.

(** X22: No extension carries a negative count: a [rating_count] and an
    integer [downloads] are never below zero, whatever the row held, and
    a textual [downloads] is never empty and never all digits. *)
Theorem counts_are_never_negative (item : pyval) (e : ChromeExtension) :
  ChromeStoreParser.parse_extension_data item = Some e ->
  (forall z, rating_count e = Some z -> (0 <= z)%Z)
  /\ (forall z, downloads e = Some (DInt z) -> (0 <= z)%Z)
  /\ (forall s, downloads e = Some (DStr s) ->
        s <> "" /\ Py.isdigit s = false).
Proof.
  intros Hp.
  destruct (parse_some_fields _ _ Hp) as (m & _ & _ & _ & _ & _ & Hc & _ & Hd).
  unfold ChromeStoreParser.parse_rating_count in Hc.
  unfold ChromeStoreParser.parse_downloads in Hd.
  bind_inv Hc. bind_inv Hd. rename a into i4, a0 into i14.
  split; [|split].
  - intros z Hz. rewrite Hz in Hc.
    destruct (Py.truthy i4 && Py.isdigit (Py.str i4)) eqn:Hb; [|discriminate].
    apply andb_prop in Hb as [_ Hdig]. bind_inv Hc. injection Hc as <-.
    eapply int_of_digit_text; eauto.
  - intros z Hz. rewrite Hz in Hd.
    destruct (Py.truthy i14); [|discriminate].
    destruct (Py.isdigit (Py.str i14)) eqn:Hdig; cbn [negb] in Hd;
      [|discriminate].
    bind_inv Hd. injection Hd as <-. eapply int_of_digit_text; eauto.
  - intros s Hs. rewrite Hs in Hd.
    destruct (Py.truthy i14) eqn:Ht; [|discriminate].
    destruct (Py.isdigit (Py.str i14)) eqn:Hdig; cbn [negb] in Hd.
    + bind_inv Hd. discriminate.
    + injection Hd as <-. split; [|exact Hdig].
      apply str_truthy_nonempty. exact Ht.
Qed.

Lemma counts_are_never_negative_witness :
  (forall z, rating_count IntFixture.extension = Some z -> (0 <= z)%Z)
  /\ (forall z, downloads IntFixture.extension = Some (DInt z) -> (0 <= z)%Z)
  /\ (forall s, downloads IntFixture.extension = Some (DStr s) ->
        s <> "" /\ Py.isdigit s = false).
Proof.
  apply (counts_are_never_negative (PList IntFixture.row)
           IntFixture.extension).
  vm_compute. reflexivity.
Defined.

(** ** Digits that [int] does not read *)

Section Superscripts.
Import ChromeStoreParser.

Lemma digit_char_cases c :
  Py.isdigit_char c = true ->
  PyNum.isspace c = false
  /\ (PyNum.is_ascii_digit c = true
      \/ PyNum.is_ascii_digit c = false /\ Ascii.eqb c "_" = false).
Proof.
  destruct c as [[] [] [] [] [] [] [] []]; try discriminate;
    intros _; split; auto.
Qed.

Lemma rstrip_digits : forall s,
  Py.all_chars Py.isdigit_char s = true -> PyNum.rstrip s = s.
Proof.
  induction s as [|c s IH]; [reflexivity|].
  cbn [Py.all_chars PyNum.rstrip]. intros H. apply andb_prop in H as [Hc Hs].
  destruct (digit_char_cases c Hc) as [Hsp _].
  rewrite (IH Hs), Hsp, andb_false_r. reflexivity.
Qed.

Lemma digits_us_stops : forall s acc len,
  Py.all_chars Py.isdigit_char s = true ->
  Py.all_chars PyNum.is_ascii_digit s = false ->
  snd (PyNum.digits_us acc len s) <> "".
Proof.
  induction s as [|c s IH]; intros acc len Hd Ha; [discriminate|].
  cbn [Py.all_chars] in Hd, Ha. apply andb_prop in Hd as [Hc Hs].
  destruct (digit_char_cases c Hc) as [_ [Hasc|[Hasc Hus]]].
  - rewrite Hasc in Ha. cbn [andb] in Ha.
    cbn [PyNum.digits_us]. unfold PyNum.is_ascii_digit in Hasc.
    destruct (Json.digit_val c) as [d|]; [|discriminate].
    apply IH; assumption.
  - cbn [PyNum.digits_us]. unfold PyNum.is_ascii_digit in Hasc.
    destruct (Json.digit_val c) as [d|]; [discriminate|].
    rewrite Hus. cbn [andb snd]. discriminate.
Qed.

Lemma int_of_superscript s :
  Py.isdigit s = true ->
  Py.all_chars PyNum.is_ascii_digit s = false ->
  PyNum.int_of_string s = Raise ValueError.
Proof.
  unfold Py.isdigit. intros H Ha. apply andb_prop in H as [Hne Hd].
  pose proof (digits_us_stops s 0%N O Hd Ha) as Hstop.
  unfold PyNum.int_of_string, PyNum.strip.
  destruct s as [|c s]; [discriminate|].
  cbn [Py.all_chars] in Hd. apply andb_prop in Hd as [Hc Hs].
  destruct (digit_char_plain c Hc) as [Hsp Hsign].
  cbn [PyNum.lstrip]. rewrite Hsp. cbn [PyNum.rstrip].
  rewrite Hsp, andb_false_r, Hsign, (rstrip_digits s Hs).
  destruct (PyNum.digits_us 0 0 (String c s)) as [[v len] r].
  cbn [snd] in Hstop. destruct len; [reflexivity|].
  destruct r; [congruence | reflexivity].
Qed.

End Superscripts.

(** X23: A rating count or a download count given as a text of digits that
    includes a superscript digit drops the row: [isdigit] accepts the
    text, [int] raises ValueError on it, and the outer handler returns
    nothing. *)
Theorem superscript_count_drops_row (item : pyval) (s : string) :
  Py.getitem item 4 = Ok (PStr s) \/ Py.getitem item 14 = Ok (PStr s) ->
  Py.isdigit s = true ->
  Py.all_chars PyNum.is_ascii_digit s = false ->
  ChromeStoreParser.parse_extension_data item = None.
Proof.
  intros Hpos Hd Ha.
  assert (Ht : Py.truthy (PStr s) = true).
  { unfold Py.isdigit in Hd. apply andb_prop in Hd as [Hne _]. exact Hne. }
  destruct (ChromeStoreParser.parse_extension_data item) as [e|] eqn:Hp;
    [|reflexivity].
  destruct (parse_some_fields _ _ Hp) as (m & _ & _ & _ & _ & _ & Hc & _ & Hdl).
  destruct Hpos as [H|H].
  - unfold ChromeStoreParser.parse_rating_count in Hc. rewrite H in Hc.
    cbn [bind] in Hc. rewrite Ht in Hc. cbn [Py.str andb] in Hc.
    rewrite Hd in Hc. cbn [PyNum.int] in Hc.
    rewrite (int_of_superscript s Hd Ha) in Hc. discriminate.
  - unfold ChromeStoreParser.parse_downloads in Hdl. rewrite H in Hdl.
    cbn [bind] in Hdl. rewrite Ht in Hdl. cbn [Py.str] in Hdl.
    rewrite Hd in Hdl. cbn [negb PyNum.int] in Hdl.
    rewrite (int_of_superscript s Hd Ha) in Hdl. discriminate.
Qed.

Lemma superscript_count_drops_row_witness :
  ChromeStoreParser.parse_extension_data SuperscriptFixture.row = None.
Proof.
  apply (superscript_count_drops_row SuperscriptFixture.row
           SuperscriptFixture.two);
    [left; reflexivity | reflexivity | reflexivity].
Defined.
